(** * wikimedia_parser: the request and record data model, the statistics
      aggregate and the multi-page fetch, embedded from
      [src/wikimedia_parser/{enums,types,parser}.py].

    Conventions of the embedding.
    - A Python [str] is a [string]; each [ascii] is the code point of that
      number, so the strings of the model are the [str] values over the code
      points 0..255.  The character tables of the [re] module ([\w], [\d],
      [.]) and of [int] are written out for that range.
    - A Python [int] is a [Z].
    - A call that may raise returns a [result]: [Ok v] or [Raise e]. *)

From Stdlib Require Import ZArith String Ascii List Bool Lia Permutation Sorted.
From Stdlib Require Floats.SpecFloat.
From stdpp Require Import base option list gmap strings.

Import ListNotations.
Local Open Scope Z_scope.
Local Open Scope list_scope.

(** ** Exceptions and results *)

Inductive exn : Type :=
| IndexError                     (* tuple index out of range *)
| KeyError (key : string)        (* d[key] on a missing key *)
| TypeError                      (* wrong keyword arguments of a constructor *)
| AttributeError                 (* None.groups() *)
| ValueError (msg : string)
| ConnectionError (status : Z)   (* raised on a status code other than 200 *)
| NetworkError (msg : string).   (* whatever the HTTP client itself raises *)

Inductive result (A : Type) : Type :=
| Ok (a : A)
| Raise (e : exn).
Arguments Ok {A} a.
Arguments Raise {A} e.

Definition bind {A B : Type} (x : result A) (f : A -> result B) : result B :=
  match x with
  | Ok a => f a
  | Raise e => Raise e
  end.

Declare Scope result_scope.
Delimit Scope result_scope with result.
Notation "'let*' x ':=' c 'in' k" := (bind c (fun x => k))
  (at level 10, x name, k at level 200) : result_scope.
Local Open Scope result_scope.

Definition is_ok {A : Type} (x : result A) : bool :=
  match x with Ok _ => true | Raise _ => false end.

(** ** enums.py *)

Inductive AccessType : Type :=
| Access_Any | Access_Desktop | Access_MobileWeb | Access_MobileApp.

Inductive UserAgent : Type :=
| Agent_Any | Agent_User | Agent_Spider | Agent_Automated.

Inductive DateGranularity : Type :=
| Daily | Monthly.

#[global] Instance AccessType_eq_dec : EqDecision AccessType.
Proof. solve_decision. Defined.
#[global] Instance UserAgent_eq_dec : EqDecision UserAgent.
Proof. solve_decision. Defined.
#[global] Instance DateGranularity_eq_dec : EqDecision DateGranularity.
Proof. solve_decision. Defined.

(** [member.value] *)
Definition AccessType_value (a : AccessType) : string :=
  match a with
  | Access_Any => "all-access"
  | Access_Desktop => "desktop"
  | Access_MobileWeb => "mobile-web"
  | Access_MobileApp => "mobile-app"
  end.

Definition UserAgent_value (a : UserAgent) : string :=
  match a with
  | Agent_Any => "all-agents"
  | Agent_User => "user"
  | Agent_Spider => "spider"
  | Agent_Automated => "automated"
  end.

Definition DateGranularity_value (g : DateGranularity) : string :=
  match g with
  | Daily => "daily"
  | Monthly => "Monthly"
  end.

(** [Enum(value)]: the member whose value is [value], looked up in
    definition order; [ValueError] when there is none. *)
Definition enum_of_value {E : Type} (members : list E) (value : E -> string)
    (cls : string) (v : string) : result E :=
  match List.find (fun m => String.eqb (value m) v) members with
  | Some m => Ok m
  | None => Raise (ValueError ("'" +:+ v +:+ "' is not a valid " +:+ cls))
  end.

Definition AccessType_of_value : string -> result AccessType :=
  enum_of_value [Access_Any; Access_Desktop; Access_MobileWeb; Access_MobileApp]
                AccessType_value "AccessType".

Definition UserAgent_of_value : string -> result UserAgent :=
  enum_of_value [Agent_Any; Agent_User; Agent_Spider; Agent_Automated]
                UserAgent_value "UserAgent".

Definition DateGranularity_of_value : string -> result DateGranularity :=
  enum_of_value [Daily; Monthly] DateGranularity_value "DateGranularity".

(** ** datetime.date *)

Record date : Type := mkdate { year : Z; month : Z; day : Z }.

#[global] Instance date_eq_dec : EqDecision date.
Proof. solve_decision. Defined.

(** [a < b] on dates: by year, then month, then day. *)
Definition date_ltb (a b : date) : bool :=
  (year a <? year b)
  || ((year a =? year b)
      && ((month a <? month b) || ((month a =? month b) && (day a <? day b)))).

Definition is_leap (y : Z) : bool :=
  (y mod 4 =? 0) && (negb (y mod 100 =? 0) || (y mod 400 =? 0)).

Definition days_in_month (y m : Z) : Z :=
  if m =? 2 then (if is_leap y then 29 else 28)
  else if (m =? 4) || (m =? 6) || (m =? 9) || (m =? 11) then 30
  else 31.

(** [datetime.date(y, m, d)] *)
Definition date_new (y m d : Z) : result date :=
  if negb ((1 <=? y) && (y <=? 9999)) then
    Raise (ValueError "year is out of range")
  else if negb ((1 <=? m) && (m <=? 12)) then
    Raise (ValueError "month must be in 1..12")
  else if negb ((1 <=? d) && (d <=? days_in_month y m)) then
    Raise (ValueError "day is out of range for month")
  else Ok (mkdate y m d).

(** ** sorted(iterable, key=...) *)

(** Python's [sorted] is a stable sort that compares keys with [<] only.  The
    stable sort of a list is unique, so it is written here as the insertion
    sort that puts an element behind every element before which it does not
    belong. *)
Section Sorted.
Context {A K : Type} (key : A -> K) (ltb : K -> K -> bool).

Fixpoint insert_sorted (x : A) (s : list A) : list A :=
  match s with
  | [] => [x]
  | y :: s' => if ltb (key y) (key x) then y :: insert_sorted x s'
               else x :: y :: s'
  end.

Definition sorted (l : list A) : list A := foldr insert_sorted [] l.
End Sorted.

(** ** The part of the [re] module that the package uses *)

(** Patterns.  [Repeat1 p] is [X+] for a one-character item [X] (a class or
    an escape), which is the only repetition in the patterns of the package;
    it is greedy and gives characters back on failure of what follows.
    [Alt] tries its left branch first.  [Group i] is the [i]-th capturing
    group. *)
Inductive regex : Type :=
| Empty
| Lit (c : ascii)
| AnyChar
| InSet (p : ascii -> bool)
| Cat (r1 r2 : regex)
| Alt (r1 r2 : regex)
| Repeat1 (p : ascii -> bool)
| Group (i : nat) (r : regex).

Definition newline : ascii := ascii_of_nat 10.

Definition in_range (lo hi : nat) (c : ascii) : bool :=
  (lo <=? nat_of_ascii c)%nat && (nat_of_ascii c <=? hi)%nat.

(** [\d] on the code points below 256: the decimal digits. *)
Definition is_digit (c : ascii) : bool := in_range 48 57 c.

(** [\w] on the code points below 256: what [str.isalnum] accepts, and the
    underscore. *)
Definition is_word (c : ascii) : bool :=
  in_range 48 57 c || in_range 65 90 c || in_range 97 122 c
  || (nat_of_ascii c =? 95)%nat
  || (nat_of_ascii c =? 170)%nat || (nat_of_ascii c =? 178)%nat
  || (nat_of_ascii c =? 179)%nat || (nat_of_ascii c =? 181)%nat
  || (nat_of_ascii c =? 185)%nat || (nat_of_ascii c =? 186)%nat
  || in_range 188 190 c || in_range 192 214 c || in_range 216 246 c
  || in_range 248 255 c.

Abbreviation captures := (gmap nat (list ascii)).

Section Matcher.
Context {R : Type}.

(** The longest run of [p] first, then shorter ones. *)
Fixpoint greedy (p : ascii -> bool) (s : list ascii)
    (k : list ascii -> option R) : option R :=
  match s with
  | c :: s' =>
      if p c then
        match greedy p s' k with
        | Some x => Some x
        | None => k s
        end
      else k s
  | [] => k []
  end.

(** A backtracking matcher: [k] is what remains to be matched after [r]. *)
Fixpoint exec (r : regex) (s : list ascii) (caps : captures)
    (k : list ascii -> captures -> option R) : option R :=
  match r with
  | Empty => k s caps
  | Lit c =>
      match s with
      | c' :: s' => if Ascii.eqb c c' then k s' caps else None
      | [] => None
      end
  | AnyChar =>
      match s with
      | c' :: s' => if Ascii.eqb c' newline then None else k s' caps
      | [] => None
      end
  | InSet p =>
      match s with
      | c' :: s' => if p c' then k s' caps else None
      | [] => None
      end
  | Cat r1 r2 => exec r1 s caps (fun s' caps' => exec r2 s' caps' k)
  | Alt r1 r2 =>
      match exec r1 s caps k with
      | Some x => Some x
      | None => exec r2 s caps k
      end
  | Repeat1 p =>
      match s with
      | c' :: s' => if p c' then greedy p s' (fun s'' => k s'' caps) else None
      | [] => None
      end
  | Group i r' =>
      exec r' s caps
        (fun s' caps' =>
           k s' (<[i := take (length s - length s') s]> caps'))
  end.
End Matcher.

Infix "$$" := Cat (at level 60, right associativity).

(** The literal text [t] as a pattern. *)
Definition lits (t : string) : regex :=
  foldr (fun c acc => Lit c $$ acc) Empty (list_ascii_of_string t).

(** [re.match(pattern, s)]: a match at the start of [s], which need not reach
    its end.  The result is the groups and the unmatched rest. *)
Definition re_match (r : regex) (s : string) : option (captures * list ascii) :=
  exec r (list_ascii_of_string s) ∅ (fun rest caps => Some (caps, rest)).

(** [m.group(i)] *)
Definition group (m : captures * list ascii) (i : nat) : string :=
  string_of_list_ascii (default [] (m.1 !! i)).

(** ** date.strftime("%Y%m%d00") *)

Definition digit (z : Z) : ascii := ascii_of_nat (48 + Z.to_nat (z mod 10)).

(** The year of a date is between 1 and 9999.  [%Y] is the year as the C
    library writes it, a plain decimal number that is not padded: the year
    999 gives [999] and the year 1 gives [1]. *)
Definition year_digits (y : Z) : list ascii :=
  (if 1000 <=? y then [digit (y / 1000)] else [])
  ++ (if 100 <=? y then [digit (y / 100)] else [])
  ++ (if 10 <=? y then [digit (y / 10)] else [])
  ++ [digit y].

(** [%m] and [%d] are two digits each, [00] is literal text. *)
Definition strftime_Ymd00 (d : date) : string :=
  string_of_list_ascii
    (year_digits (year d)
     ++ [digit (month d / 10); digit (month d);
         digit (day d / 10); digit (day d);
         digit 0; digit 0]).

(** ** types.py: WikimediaRequest *)

Module WikimediaRequest.

Record t : Type := mk {
  url : string;
  start_timestamp : date;
  end_timestamp : date;
  granularity : DateGranularity;
  access : AccessType;
  agent : UserAgent
}.

(** The defaults of the last three fields. *)
Definition mk_default (u : string) (s e : date) : t :=
  mk u s e Daily Access_Any Agent_User.

(** [[^/#]] *)
Definition not_slash_hash (c : ascii) : bool :=
  negb (Ascii.eqb c "/" || Ascii.eqb c "#").

(** [r"https://(\w+\.wikipedia).org/wiki/([^/#]+)"]: the dot before
    [wikipedia] is escaped, the one before [org] is not. *)
Definition url_pattern : regex :=
  lits "https://"
  $$ Group 1 (Repeat1 is_word $$ lits ".wikipedia")
  $$ AnyChar
  $$ lits "org/wiki/"
  $$ Group 2 (Repeat1 not_slash_hash).

Definition unprocessable (u : string) : exn :=
  ValueError ("Unprocessable URL: " +:+ u
              +:+ ". Unable to extract project and article title").

(** [re.match] returns [None] on no match, [None.groups()] raises
    [AttributeError], which the [except] clause turns into [ValueError]. *)
Definition _parse_url (r : t) : result (string * string) :=
  match re_match url_pattern (url r) with
  | Some m => Ok (group m 1, group m 2)
  | None => Raise (unprocessable (url r))
  end.

Definition as_url (r : t) : result string :=
  let* parsed := _parse_url r in
  let '(project, article) := parsed in
  match map strftime_Ymd00
            (sorted (fun x => x) date_ltb [start_timestamp r; end_timestamp r])
  with
  | [start_ts; end_ts] =>
      Ok ("/" +:+ project +:+ "/" +:+ AccessType_value (access r)
          +:+ "/" +:+ UserAgent_value (agent r) +:+ "/" +:+ article
          +:+ "/" +:+ DateGranularity_value (granularity r)
          +:+ "/" +:+ start_ts +:+ "/" +:+ end_ts)
  | _ => Raise (ValueError "not enough values to unpack")
  end.

End WikimediaRequest.

(** ** int(str) and datetime.strptime(str, "%Y%m%d00") *)

(** What [int] strips from both ends of its argument. *)
Definition is_int_space (c : ascii) : bool :=
  in_range 9 13 c || (nat_of_ascii c =? 32)%nat
  || (nat_of_ascii c =? 133)%nat || (nat_of_ascii c =? 160)%nat.

Fixpoint drop_while (p : ascii -> bool) (s : list ascii) : list ascii :=
  match s with
  | c :: s' => if p c then drop_while p s' else s
  | [] => []
  end.

Fixpoint take_while (p : ascii -> bool) (s : list ascii) : list ascii :=
  match s with
  | c :: s' => if p c then c :: take_while p s' else []
  | [] => []
  end.

Definition digit_value (c : ascii) : Z := Z.of_nat (nat_of_ascii c) - 48.

(** The run of digits and single underscores at the start of [s]: its value,
    the number of its digits and what follows it; [None] on a doubled or
    trailing underscore. *)
Fixpoint scan_int (after_underscore : bool) (value digits : Z) (s : list ascii)
    : option (Z * Z * list ascii) :=
  match s with
  | c :: s' =>
      if is_digit c then
        scan_int false (10 * value + digit_value c) (digits + 1) s'
      else if Ascii.eqb c "_" then
        if after_underscore then None else scan_int true value digits s'
      else if after_underscore then None
      else Some (value, digits, s)
  | [] => if after_underscore then None else Some (value, digits, [])
  end.

Definition invalid_literal : exn :=
  ValueError "invalid literal for int() with base 10".

(** [int(s)] for a [str]: optional white space, an optional sign, decimal
    digits with single underscores between them, optional white space; at
    most 4300 digits. *)
Definition py_int (s : string) : result Z :=
  let s1 := drop_while is_int_space (list_ascii_of_string s) in
  let '(negative, s2) :=
    match s1 with
    | c :: s' => if Ascii.eqb c "-" then (true, s')
                 else if Ascii.eqb c "+" then (false, s')
                 else (false, s1)
    | [] => (false, s1)
    end in
  match s2 with
  | c :: _ =>
      if Ascii.eqb c "_" then Raise invalid_literal
      else
        match scan_int false 0 0 s2 with
        | None => Raise invalid_literal
        | Some (value, digits, rest) =>
            if digits =? 0 then Raise invalid_literal
            else if 4300 <? digits then
              Raise (ValueError
                "Exceeds the limit (4300 digits) for integer string conversion")
            else if forallb is_int_space rest then
              Ok (if negative : bool then - value else value)
            else Raise invalid_literal
        end
  | [] => Raise invalid_literal
  end.

(** The pattern that [_strptime] compiles ["%Y%m%d00"] to:
    [(?P<Y>\d\d\d\d)(?P<m>1[0-2]|0[1-9]|[1-9])]
    [(?P<d>3[0-1]|[1-2]\d|0[1-9]|[1-9]| [1-9])00]. *)
Definition strptime_pattern : regex :=
  let d19 := InSet (in_range 49 57) in
  Group 1 (InSet is_digit $$ InSet is_digit $$ InSet is_digit $$ InSet is_digit)
  $$ Group 2 (Alt (Lit "1" $$ InSet (in_range 48 50))
             (Alt (Lit "0" $$ d19) d19))
  $$ Group 3 (Alt (Lit "3" $$ InSet (in_range 48 49))
             (Alt (InSet (in_range 49 50) $$ InSet is_digit)
             (Alt (Lit "0" $$ d19)
             (Alt d19 (Lit " " $$ d19)))))
  $$ lits "00".

(** [datetime.strptime(s, "%Y%m%d00").date()] *)
Definition strptime_Ymd00 (s : string) : result date :=
  match re_match strptime_pattern s with
  | None => Raise (ValueError "time data does not match format")
  | Some m =>
      match m.2 with
      | _ :: _ => Raise (ValueError "unconverted data remains")
      | [] =>
          let* y := py_int (group m 1) in
          let* mo := py_int (group m 2) in
          let* d := py_int (group m 3) in
          date_new y mo d
      end
  end.

(** ** set(iterable) and list(set) *)

(** A set is kept as the list of its elements in the order they came in.
    [set.add] leaves the set alone when it holds an element of the same hash
    that compares equal to the new one, so of equal elements the first stays. *)
Section PySet.
Context {A : Type} (eqb : A -> A -> bool) (hash : A -> Z).

Definition set_add (s : list A) (x : A) : list A :=
  if existsb (fun y => (hash y =? hash x) && eqb y x) s then s
  else s ++ [x].

Definition set_of (l : list A) : list A := fold_left set_add l [].
End PySet.

(** What the interpreter decides and the program cannot see: the hash of a
    [str] and of a tuple (seeded per process), and the order in which a set
    hands out its elements. *)
Class Interpreter : Type := {
  str_hash : string -> Z;
  tuple_hash :
    string * string * DateGranularity * date * AccessType * UserAgent -> Z;
  set_iter : forall A : Type, list A -> list A
}.
Arguments set_iter {_ A} _.

(** Iterating over a set yields each of its elements once. *)
Definition iter_lawful (I : Interpreter) : Prop :=
  forall (A : Type) (l : list A), Permutation (set_iter l) l.

(** ** types.py: PageStatisticsRecord *)

Module PageStatisticsRecord.

Record t : Type := mk {
  project : string;
  article : string;
  granularity : DateGranularity;
  timestamp : date;
  access : AccessType;
  agent : UserAgent;
  views : Z
}.

#[global] Instance eq_dec : EqDecision t.
Proof. solve_decision. Defined.

(** [d[k]] *)
Definition getitem (d : gmap string string) (k : string) : result string :=
  match d !! k with
  | Some v => Ok v
  | None => Raise (KeyError k)
  end.

Definition fields : gset string :=
  list_to_set ["project"; "article"; "granularity"; "timestamp"; "access";
               "agent"; "views"]%string.

(** The response item is a mapping from field names to strings.  The last
    step calls the class with the mapping as its keyword arguments, which
    raises [TypeError] unless the keys are exactly the seven fields. *)
Definition from_dict (data : gmap string string) : result t :=
  let* raw_timestamp := getitem data "timestamp" in
  let* timestamp := strptime_Ymd00 raw_timestamp in
  let* raw_access := getitem data "access" in
  let* access := AccessType_of_value raw_access in
  let* raw_granularity := getitem data "granularity" in
  let* granularity := DateGranularity_of_value raw_granularity in
  let* raw_agent := getitem data "agent" in
  let* agent := UserAgent_of_value raw_agent in
  let* raw_views := getitem data "views" in
  let* views := py_int raw_views in
  match data !! "project"%string, data !! "article"%string with
  | Some project, Some article =>
      if bool_decide (dom data = fields) then
        Ok (mk project article granularity timestamp access agent views)
      else Raise TypeError
  | _, _ => Raise TypeError
  end.

Section with_interpreter.
Context {I : Interpreter}.

Definition __hash__ (r : t) : Z :=
  tuple_hash (project r, article r, granularity r, timestamp r, access r,
              agent r).

(** Both arguments are records, so [NotImplemented] is never returned. *)
Definition __eq__ (r other : t) : bool :=
  forallb (fun same : t -> t -> bool => same r other)
    [ (fun a b => bool_decide (project a = project b));
      (fun a b => bool_decide (article a = article b));
      (fun a b => bool_decide (granularity a = granularity b));
      (fun a b => bool_decide (timestamp a = timestamp b));
      (fun a b => bool_decide (access a = access b));
      (fun a b => bool_decide (agent a = agent b)) ].

(** [list(set(records))] *)
Definition list_set (records : list t) : list t :=
  set_iter (set_of __eq__ __hash__ records).
End with_interpreter.

End PageStatisticsRecord.

(** ** types.py: PageStatistics *)

(** ** pandas: the column of the views *)

(** The dtype of a column of numbers. *)
Inductive dtype : Type := Int64 | UInt64 | Float64 | Object.

#[global] Instance dtype_eq_dec : EqDecision dtype.
Proof. solve_decision. Defined.

#[global] Instance spec_float_eq_dec : EqDecision SpecFloat.spec_float.
Proof. solve_decision. Defined.

(** A cell of the column: an integer, in a column of fixed-width integers
    or of Python objects, or a double, in a float64 column. *)
Inductive number : Type :=
| Int (z : Z)
| Float (f : SpecFloat.spec_float).

#[global] Instance number_eq_dec : EqDecision number.
Proof. solve_decision. Defined.

(** The dtype that [pd.DataFrame] gives a column of Python ints: [int64]
    when all of them fit, [uint64] when one is above the signed range and
    all are between 0 and 2^64 - 1, else [object]. *)
Definition infer_dtype (values : list Z) : dtype :=
  if forallb (fun v => (- 2 ^ 63 <=? v) && (v <? 2 ^ 63)) values then Int64
  else if forallb (fun v => (0 <=? v) && (v <? 2 ^ 64)) values then UInt64
  else Object.

(** The dtype that [pd.concat] gives the column made of columns of these
    dtypes: [object] when one of them is, a signed and an unsigned column
    together give [float64], and columns of one dtype keep it. *)
Definition common_dtype (dtypes : list dtype) : dtype :=
  if bool_decide (Object ∈ dtypes) then Object
  else if bool_decide (Float64 ∈ dtypes)
          || (bool_decide (Int64 ∈ dtypes) && bool_decide (UInt64 ∈ dtypes))
       then Float64
  else if bool_decide (UInt64 ∈ dtypes) then UInt64
  else Int64.

(** The double nearest to an integer, ties to even. *)
Definition float64_of_int (z : Z) : SpecFloat.spec_float :=
  SpecFloat.binary_normalize 53 1024 z 0 false.

(** The cast of a cell to the dtype of its column. *)
Definition astype (d : dtype) (c : number) : number :=
  match d, c with
  | Float64, Int z => Float (float64_of_int z)
  | _, _ => c
  end.

(** A row of the data frame: the seven columns of [record._asdict()]. *)
Definition row : Type :=
  string * string * DateGranularity * date * AccessType * UserAgent * number.

(** A data frame: its rows and the dtype of its column of views. *)
Record frame : Type := mk_frame {
  views_dtype : dtype;
  rows : list row
}.

Definition row_astype (d : dtype) (r : row) : row :=
  let '(project, article, granularity, timestamp, access, agent, views) := r in
  (project, article, granularity, timestamp, access, agent, astype d views).

Definition last_item {A : Type} (l : list A) : result A :=
  match last l with
  | Some x => Ok x
  | None => Raise IndexError
  end.

Module PageStatistics.

Record t : Type := mk {
  article : string;
  granularity : DateGranularity;
  access : AccessType;
  agent : UserAgent;
  project : string;
  records : list PageStatisticsRecord.t
}.

Section with_interpreter.
Context {I : Interpreter}.

(** [records[0]] raises [IndexError] on no records. *)
Definition __init__ (records : list PageStatisticsRecord.t) : result t :=
  match records with
  | [] => Raise IndexError
  | first :: _ =>
      let article := PageStatisticsRecord.article first in
      let granularity := PageStatisticsRecord.granularity first in
      let access := PageStatisticsRecord.access first in
      let agent := PageStatisticsRecord.agent first in
      let project := PageStatisticsRecord.project first in
      if existsb
           (fun record =>
              bool_decide (PageStatisticsRecord.article record <> article)
              || bool_decide
                   (PageStatisticsRecord.granularity record <> granularity)
              || bool_decide (PageStatisticsRecord.access record <> access)
              || bool_decide (PageStatisticsRecord.agent record <> agent)
              || bool_decide
                   (PageStatisticsRecord.project record <> project))
           records
      then Raise (ValueError "Inconsistent records")
      else
        Ok (mk article granularity access agent project
              (sorted PageStatisticsRecord.timestamp date_ltb
                 (PageStatisticsRecord.list_set records)))
  end.
End with_interpreter.

Definition _asdict (r : PageStatisticsRecord.t) : row :=
  (PageStatisticsRecord.project r, PageStatisticsRecord.article r,
   PageStatisticsRecord.granularity r, PageStatisticsRecord.timestamp r,
   PageStatisticsRecord.access r, PageStatisticsRecord.agent r,
   Int (PageStatisticsRecord.views r)).

(** The frame of the records, one row each.  A frame built from no records
    has no columns, and selecting one raises [KeyError].  The categorical
    columns hold the values of the records, and so do the timestamps:
    [pd.to_datetime] is taken at a resolution that holds every date. *)
Definition to_df (self : t) : result frame :=
  match records self with
  | [] => Raise (KeyError "granularity")
  | rs =>
      Ok (mk_frame (infer_dtype (map PageStatisticsRecord.views rs))
            (map _asdict rs))
  end.

Definition records_count (self : t) : Z := Z.of_nat (length (records self)).

Definition start_date (self : t) : result date :=
  match sorted PageStatisticsRecord.timestamp date_ltb (records self) with
  | r :: _ => Ok (PageStatisticsRecord.timestamp r)
  | [] => Raise IndexError
  end.

Definition end_date (self : t) : result date :=
  let* r :=
    last_item (sorted PageStatisticsRecord.timestamp date_ltb (records self))
  in Ok (PageStatisticsRecord.timestamp r).

Definition top_views_record (self : t) : result PageStatisticsRecord.t :=
  last_item (sorted PageStatisticsRecord.views Z.ltb (records self)).

Definition url (self : t) : string :=
  "https://" +:+ project self +:+ ".org/wiki/" +:+ article self.

End PageStatistics.

(** ** Ranges, slices and [for] over a list of fallible calls *)

(** [list(range(start, stop, step))] *)
Definition py_range (start stop step : Z) : result (list Z) :=
  if step =? 0 then Raise (ValueError "range() arg 3 must not be zero")
  else
    let count :=
      if 0 <? step then (stop - start + step - 1) / step
      else (start - stop - step - 1) / (- step) in
    Ok (map (fun i => start + Z.of_nat i * step) (seq 0 (Z.to_nat count))).

(** [l[lo:hi]]: a negative bound counts from the end, and both are clipped to
    the list. *)
Definition py_slice {A : Type} (l : list A) (lo hi : Z) : list A :=
  let n := Z.of_nat (length l) in
  let clip i := if i <? 0 then Z.max 0 (i + n) else Z.min i n in
  take (Z.to_nat (clip hi - clip lo)) (drop (Z.to_nat (clip lo)) l).

Fixpoint map_result {A B : Type} (f : A -> result B) (l : list A)
    : result (list B) :=
  match l with
  | [] => Ok []
  | x :: l' =>
      let* y := f x in
      let* ys := map_result f l' in
      Ok (y :: ys)
  end.

(** ** The event loop *)

(** A response of the HTTP client: the status code and, when the body is a
    JSON object with an [items] list, that list. *)
Record response : Type := mk_response {
  status_code : Z;
  items : option (list (gmap string string))
}.

(** The remote side: what [client.get(path)] gives (a response, or an
    exception of the client), after how many ticks of the clock, and how many
    further tasks get to finish between the failure of a task and the moment
    the coroutine that awaits the group runs again. *)
Record network : Type := mk_network {
  get : string -> result response;
  latency : string -> nat;
  overrun : nat
}.

Inductive task_state : Type :=
| Pending
| Done (outcome : result PageStatistics.t)
| Cancelled.

Record task : Type := mk_task {
  coro : WikimediaRequest.t;
  state : task_state
}.

(** The tasks of the loop, a task being named by its position. *)
Abbreviation world := (list task).

(** A computation of the orchestrating coroutine: it sees and changes the
    tasks and may raise; the tasks survive the exception. *)
Definition M (A : Type) : Type := world -> result A * world.

Definition ret {A : Type} (a : A) : M A := fun w => (Ok a, w).

Definition raise {A : Type} (e : exn) : M A := fun w => (Raise e, w).

Definition bindM {A B : Type} (m : M A) (f : A -> M B) : M B :=
  fun w =>
    match m w with
    | (Ok a, w') => f a w'
    | (Raise e, w') => (Raise e, w')
    end.

(** [try: m except Exception as e: h e] *)
Definition try_except {A : Type} (m : M A) (h : exn -> M A) : M A :=
  fun w =>
    match m w with
    | (Ok a, w') => (Ok a, w')
    | (Raise e, w') => h e w'
    end.

Declare Scope loop_scope.
Delimit Scope loop_scope with loop.
Notation "'let!' x ':=' c 'in' k" := (bindM c (fun x => k))
  (at level 10, x name, k at level 200) : loop_scope.

Fixpoint for_each {A B : Type} (f : A -> M B) (l : list A) : M (list B) :=
  match l with
  | [] => ret []
  | x :: l' =>
      (let! y := f x in
       let! ys := for_each f l' in
       ret (y :: ys))%loop
  end.

(** ** parser.py: WikimediaParser *)

Module WikimediaParser.

(** [concat_statistics] needs neither the network nor the interpreter. *)

(** [DataFrame.drop_duplicates()]: of rows equal in every column the first
    is kept. *)
Fixpoint drop_duplicates_seen (seen rows : list row) : list row :=
  match rows with
  | [] => []
  | r :: rows' =>
      if bool_decide (r ∈ seen) then drop_duplicates_seen seen rows'
      else r :: drop_duplicates_seen (r :: seen) rows'
  end.

Definition drop_duplicates (rows : list row) : list row :=
  drop_duplicates_seen [] rows.

(** [pd.concat] raises [ValueError] on an empty list of frames; it casts
    the views of all frames to their common dtype.  [ignore_index] and
    [reset_index(drop=True)] renumber the rows, which are numbered here by
    their position. *)
Definition concat_statistics (statistics : list PageStatistics.t)
    : result (list row) :=
  let* frames := map_result PageStatistics.to_df statistics in
  match frames with
  | [] => Raise (ValueError "No objects to concatenate")
  | _ =>
      let dtype := common_dtype (map views_dtype frames) in
      Ok (drop_duplicates
            (map (row_astype dtype) (concat (map rows frames))))
  end.

Section with_network.
Context {I : Interpreter} (net : network).

(** What the coroutine [get_page_statistics(request)] returns or raises
    once it has run. *)
Definition get_page_statistics (request : WikimediaRequest.t)
    : result PageStatistics.t :=
  let* path := WikimediaRequest.as_url request in
  let* response := get net path in
  if negb (status_code response =? 200) then
    Raise (ConnectionError (status_code response))
  else
    let* elems :=
      match items response with
      | Some l => Ok l
      | None => Raise (KeyError "items")
      end in
    let* records := map_result PageStatisticsRecord.from_dict elems in
    PageStatistics.__init__ records.

(** When it is done: at once if the request has no path (no call is
    made), else when the answer arrives. *)
Definition finish_time (request : WikimediaRequest.t) : nat :=
  match WikimediaRequest.as_url request with
  | Raise _ => 0
  | Ok path => S (latency net path)
  end.

(** [asyncio.create_task(coro)] *)
Definition create_task (request : WikimediaRequest.t) : M nat :=
  fun w => (Ok (length w), w ++ [mk_task request Pending]).

(** [task.done()] *)
Definition task_done (tid : nat) : M bool :=
  fun w =>
    (Ok (match w !! tid with
         | Some (mk_task _ Pending) => false
         | _ => true
         end), w).

(** [task.cancel()] *)
Definition task_cancel (tid : nat) : M bool :=
  fun w =>
    match w !! tid with
    | Some (mk_task request Pending) =>
        (Ok true, <[tid := mk_task request Cancelled]> w)
    | _ => (Ok false, w)
    end.

(** A pending task runs to its end. *)
Definition settle (w : world) (tid : nat) : world :=
  match w !! tid with
  | Some (mk_task request Pending) =>
      <[tid := mk_task request (Done (get_page_statistics request))]> w
  | _ => w
  end.

Definition outcome_of (w : world) (tid : nat)
    : option (result PageStatistics.t) :=
  match w !! tid with
  | Some (mk_task _ (Done o)) => Some o
  | _ => None
  end.

Definition when_done (w : world) (tid : nat) : nat :=
  match w !! tid with
  | Some t => finish_time (coro t)
  | None => 0
  end.

(** The tasks finish in [order]; the first that raises stops the wait. *)
Fixpoint run_until_failure (order : list nat) (w : world)
    : option exn * list nat * world :=
  match order with
  | [] => (None, [], w)
  | tid :: rest =>
      let w' := settle w tid in
      match outcome_of w' tid with
      | Some (Raise e) => (Some e, rest, w')
      | _ => run_until_failure rest w'
      end
  end.

(** [await asyncio.gather] of the tasks: they finish in the order of their
    finish times, those of equal time in the order they were created.
    When none raises, the results come back in the order of [tids].  The
    first exception is raised into the awaiting coroutine; the other
    tasks are left alone, and [overrun net] of them still finish before
    that coroutine runs. *)
Definition gather (tids : list nat) : M (list PageStatistics.t) :=
  fun w =>
    let order := sorted (when_done w) Nat.ltb tids in
    match run_until_failure order w with
    | (None, _, w') =>
        (Ok (omap (fun tid =>
                     match outcome_of w' tid with
                     | Some (Ok st) => Some st
                     | _ => None
                     end) tids), w')
    | (Some e, rest, w') =>
        (Raise e, fold_left settle (take (overrun net) rest) w')
    end.

(** [list(set(pages))] and the generator of its slices. *)
Definition unique_pages (pages : list string) : list string :=
  set_iter (set_of String.eqb str_hash pages).

Definition page_chunks (pages : list string) (chunk_size : Z)
    : result (list (list string)) :=
  let pages := unique_pages pages in
  let* starts := py_range 0 (Z.of_nat (length pages)) chunk_size in
  Ok (map (fun i => py_slice pages i (i + chunk_size)) starts).

Section with_arguments.
Context (start_date end_date : date) (granularity : DateGranularity)
        (access : AccessType) (agent : UserAgent).

Definition request_for (page : string) : WikimediaRequest.t :=
  WikimediaRequest.mk page start_date end_date granularity access agent.

(** The body of the [for chunk in ...] loop. *)
Fixpoint for_chunks (chunks : list (list string))
    (collected : list PageStatistics.t) : M (list PageStatistics.t) :=
  match chunks with
  | [] => ret collected
  | chunk :: later =>
      (let requests := map request_for chunk in
       let! tasks := for_each create_task requests in
       let! collected' :=
         try_except
           (let! chunk_results := gather tasks in
            ret (collected ++ chunk_results))
           (fun e =>
              let! _ :=
                for_each
                  (fun task =>
                     let! finished := task_done task in
                     if negb finished then task_cancel task
                     else ret false)
                  tasks in
              raise e) in
       for_chunks later collected')%loop
  end.

Definition get_multiple_pages_statistics (pages : list string)
    (chunk_size : Z) : M (list PageStatistics.t) :=
  match page_chunks pages chunk_size with
  | Raise e => raise e
  | Ok chunks => for_chunks chunks []
  end.
End with_arguments.
End with_network.

End WikimediaParser.

(** ** Notions used in the statements *)

(** The fields that [__eq__] and [__hash__] of a record look at. *)
Definition record_key (r : PageStatisticsRecord.t)
    : string * string * DateGranularity * date * AccessType * UserAgent :=
  (PageStatisticsRecord.project r, PageStatisticsRecord.article r,
   PageStatisticsRecord.granularity r, PageStatisticsRecord.timestamp r,
   PageStatisticsRecord.access r, PageStatisticsRecord.agent r).

(** The fields that the records of one statistics object share. *)
Definition record_identity (r : PageStatisticsRecord.t)
    : string * string * DateGranularity * AccessType * UserAgent :=
  (PageStatisticsRecord.project r, PageStatisticsRecord.article r,
   PageStatisticsRecord.granularity r, PageStatisticsRecord.access r,
   PageStatisticsRecord.agent r).

(** [a <= b] on dates, as [not (b < a)]. *)
Definition date_leb (a b : date) : bool := negb (date_ltb b a).

(** An interpreter to run the definitions with: a set hands out its elements
    in the reverse of the order they came in. *)
Definition reversing_interpreter : Interpreter := {|
  str_hash := fun s => Z.of_nat (String.length s);
  tuple_hash := fun k => year (k.1.1.2) + month (k.1.1.2) + day (k.1.1.2);
  set_iter := fun A l => rev l
|}.

(** A max-scan that keeps the last of equal maxima. *)
Section LastMax.
Context {A K : Type} (key : A -> K) (ltb : K -> K -> bool).

Fixpoint last_max (l : list A) : option A :=
  match l with
  | [] => None
  | x :: l' =>
      match last_max l' with
      | None => Some x
      | Some y => if ltb (key y) (key x) then Some x else Some y
      end
  end.
End LastMax.

(** No two elements of the list have the same hash and compare equal, the
    earlier being asked about the later. *)
Inductive distinct {A : Type} (eqb : A -> A -> bool) (hash : A -> Z)
    : list A -> Prop :=
| distinct_nil : distinct eqb hash []
| distinct_snoc s x :
    distinct eqb hash s ->
    existsb (fun y => (hash y =? hash x) && eqb y x) s = false ->
    distinct eqb hash (s ++ [x]).

(** Records to run the definitions with: the first two differ in views only,
    the third is of another project. *)
Definition record_a : PageStatisticsRecord.t :=
  PageStatisticsRecord.mk "project" "article" Daily (mkdate 2025 1 1)
    Access_Any Agent_Any 10.

Definition record_b : PageStatisticsRecord.t :=
  PageStatisticsRecord.mk "project" "article" Daily (mkdate 2025 1 1)
    Access_Any Agent_Any 15.

Definition record_c : PageStatisticsRecord.t :=
  PageStatisticsRecord.mk "project-1" "article" Daily (mkdate 2025 1 1)
    Access_Any Agent_Any 10.

(** Three days of one article, the first and the last with the most views. *)
Definition three_days : list PageStatisticsRecord.t :=
  [ PageStatisticsRecord.mk "project" "article" Daily (mkdate 2025 1 2)
      Access_Any Agent_Any 5;
    PageStatisticsRecord.mk "project" "article" Daily (mkdate 2025 1 3)
      Access_Any Agent_Any 7;
    PageStatisticsRecord.mk "project" "article" Daily (mkdate 2025 1 1)
      Access_Any Agent_Any 7 ].

(** Two statistics objects of the same article and day, one scrape with 10
    views and one with 15. *)
Definition statistics_a : PageStatistics.t :=
  PageStatistics.mk "article" Daily Access_Any Agent_Any "project" [record_a].

Definition statistics_b : PageStatistics.t :=
  PageStatistics.mk "article" Daily Access_Any Agent_Any "project" [record_b].

(** A response item, as the test of [from_dict] builds it. *)
Definition response_item (granularity : string) : gmap string string :=
  list_to_map
    [("timestamp", "2025010100"); ("access", "all-access");
     ("granularity", granularity); ("agent", "user"); ("views", "100");
     ("project", "ru.wikipedia"); ("article", "test-article")]%string.

(** The pattern as the specification writes it, with the dot before [org]
    escaped as well: [https://(\w+\.wikipedia)\.org/wiki/([^/#]+)]. *)
Definition spec_url_pattern : regex :=
  lits "https://"
  $$ Group 1 (Repeat1 is_word $$ lits ".wikipedia")
  $$ lits ".org/wiki/"
  $$ Group 2 (Repeat1 WikimediaRequest.not_slash_hash).

(** [.] accepts every character but the newline. *)
Definition any_but_newline (c : ascii) : bool := negb (Ascii.eqb c newline).

(** [s] without its prefix [p], when it has that prefix. *)
Fixpoint strip_prefix (p s : list ascii) : option (list ascii) :=
  match p, s with
  | [], _ => Some s
  | c :: p', c' :: s' => if Ascii.eqb c c' then strip_prefix p' s' else None
  | _ :: _, [] => None
  end.

(** A scan of a URL from left to right, without going back: the scheme, the
    longest run of word characters, [.wikipedia], one character that
    [separator] accepts, [org/wiki/], the longest run of characters other
    than [/] and [#].  It gives the two groups and the rest of the URL. *)
Definition url_scan (separator : ascii -> bool) (u : list ascii)
    : option (list ascii * list ascii * list ascii) :=
  s1 ← strip_prefix (list_ascii_of_string "https://") u;
  match take_while is_word s1 with
  | [] => None
  | w =>
      s2 ← strip_prefix (list_ascii_of_string ".wikipedia")
             (drop_while is_word s1);
      match s2 with
      | c :: s3 =>
          if separator c then
            s4 ← strip_prefix (list_ascii_of_string "org/wiki/") s3;
            match take_while WikimediaRequest.not_slash_hash s4 with
            | [] => None
            | a =>
                Some (w ++ list_ascii_of_string ".wikipedia", a,
                      drop_while WikimediaRequest.not_slash_hash s4)
            end
          else None
      | [] => None
      end
  end.

(** What running to its end and what cancelling do to one task. *)
Definition settle_task (run : WikimediaRequest.t -> result PageStatistics.t)
    (t : task) : task :=
  match state t with
  | Pending => mk_task (coro t) (Done (run (coro t)))
  | _ => t
  end.

Definition cancel_task (t : task) : task :=
  match state t with
  | Pending => mk_task (coro t) Cancelled
  | _ => t
  end.

(** The tasks of a chunk when they have just been created. *)
Definition pending (requests : list WikimediaRequest.t) : world :=
  map (fun r => mk_task r Pending) requests.

(** The tasks of a chunk when all of them have run to their end. *)
Definition finished (run : WikimediaRequest.t -> result PageStatistics.t)
    (requests : list WikimediaRequest.t) : world :=
  map (fun r => mk_task r (Done (run r))) requests.

(** The tasks of a chunk after a failure has been handled: those of
    [settled] have run to their end, the others are cancelled. *)
Definition handled (run : WikimediaRequest.t -> result PageStatistics.t)
    (offset : nat) (settled : list nat) (requests : list WikimediaRequest.t)
    : world :=
  imap (fun j r =>
          mk_task r (if bool_decide ((offset + j)%nat ∈ settled)
                     then Done (run r) else Cancelled))
       requests.

(** Seven pages, one of them listed twice, and a remote side that answers
    404 for page C and the same item for every other page, C after 2 ticks,
    D after 5, B after 9 and the others after 1; one more task finishes
    before a failure is handled. *)
Definition sample_page (name : string) : string :=
  "https://en.wikipedia.org/wiki/" +:+ name.

Definition sample_pages : list string :=
  map sample_page ["A"; "B"; "C"; "B"; "D"; "E"; "F"; "G"]%string.

Definition sample_path (name : string) : string :=
  "/en.wikipedia/all-access/user/" +:+ name +:+ "/daily/2025010100/2025011000".

Definition sample_network : network := {|
  get := fun path =>
    if String.eqb path (sample_path "C") then Ok (mk_response 404 None)
    else Ok (mk_response 200 (Some [response_item "daily"]));
  latency := fun path =>
    if String.eqb path (sample_path "C") then 2%nat
    else if String.eqb path (sample_path "D") then 5%nat
    else if String.eqb path (sample_path "B") then 9%nat
    else 1%nat;
  overrun := 1
|}.

(** The first [k] slices of [n] elements of a list. *)
Definition slices {A : Type} (n k : nat) (l : list A) : list (list A) :=
  map (fun i => take n (drop (i * n) l)) (seq 0 k).

(** Twenty-five pages, named A to Y. *)
Definition lettered_pages : list string :=
  map (fun n => sample_page (String (ascii_of_nat (65 + n)) EmptyString))
      (seq 0 25).

(** The earlier and the later of two dates, as [sorted] orders them. *)
Definition date_min (a b : date) : date := if date_ltb b a then b else a.
Definition date_max (a b : date) : date := if date_ltb b a then a else b.

(** The URLs that the scan accepts: the scheme, a run [w] of word characters,
    [.wikipedia], a separator, [org/wiki/], a run [article] of characters
    other than [/] and [#], and a rest that is empty or starts with [/] or
    [#]. *)
Definition url_shape (separator : ascii -> bool)
    (u project article rest : list ascii) : Prop :=
  exists w c,
    u = list_ascii_of_string "https://" ++ w
        ++ list_ascii_of_string ".wikipedia"
        ++ c :: list_ascii_of_string "org/wiki/" ++ article ++ rest
    /\ project = w ++ list_ascii_of_string ".wikipedia"
    /\ w <> [] /\ forallb is_word w = true
    /\ separator c = true
    /\ article <> []
    /\ forallb WikimediaRequest.not_slash_hash article = true
    /\ match rest with
       | [] => True
       | c' :: _ => WikimediaRequest.not_slash_hash c' = false
       end.

(** The tasks [tids] in the order in which they finish: by the time their
    requests take, tasks of equal time in the order of [tids]. *)
Definition finish_order (net : network) (w : world) (tids : list nat)
    : list nat :=
  sorted (WikimediaParser.when_done net w) Nat.ltb tids.

(** One day of one article, scraped with [views] views. *)
Definition one_day (views : Z) : PageStatistics.t :=
  PageStatistics.mk "article" Daily Access_Any Agent_Any "project"
    [PageStatisticsRecord.mk "project" "article" Daily (mkdate 2025 1 1)
       Access_Any Agent_Any views].

(** * Properties *)

Lemma reversing_interpreter_lawful : iter_lawful reversing_interpreter.
Proof. intros A l. symmetry. apply Permutation_rev. Qed.

(** ** Sets *)

Section PySetFacts.
Context {A : Type} (eqb : A -> A -> bool) (hash : A -> Z).

Lemma fold_set_add_prefix (l s : list A) :
  exists s', fold_left (set_add eqb hash) l s = s ++ s'.
Proof.
  revert s. induction l as [|x l IH]; intros s; simpl.
  - exists []. by rewrite app_nil_r.
  - unfold set_add at 2.
    destruct (existsb _ s); [apply IH|].
    destruct (IH (s ++ [x])) as [s' ->]. exists (x :: s').
    by rewrite <- app_assoc.
Qed.

Lemma fold_set_add_subset (l s : list A) (x : A) :
  x ∈ fold_left (set_add eqb hash) l s -> x ∈ s \/ x ∈ l.
Proof.
  revert s. induction l as [|y l IH]; intros s; simpl; [by left|].
  intros Hx. apply IH in Hx as [Hx|Hx]; [|right; by constructor].
  unfold set_add in Hx. destruct (existsb _ s); [by left|].
  apply elem_of_app in Hx as [Hx|Hx]; [by left|].
  apply list_elem_of_singleton in Hx as ->. right. constructor.
Qed.

(** Elements that the set already matches leave it as it is. *)
Lemma fold_set_add_absorbed (l s : list A) :
  Forall (fun x => existsb (fun y => (hash y =? hash x) && eqb y x) s = true) l ->
  fold_left (set_add eqb hash) l s = s.
Proof.
  induction 1 as [|x l Hx _ IH]; simpl; [done|].
  unfold set_add at 2. by rewrite Hx.
Qed.

Lemma set_of_cons_nonempty (x : A) (l : list A) :
  set_of eqb hash (x :: l) <> [].
Proof.
  unfold set_of. simpl. unfold set_add at 2. simpl.
  destruct (fold_set_add_prefix l [x]) as [s' ->]. done.
Qed.

Lemma set_of_subset (l : list A) (x : A) :
  x ∈ set_of eqb hash l -> x ∈ l.
Proof.
  intros Hx. apply fold_set_add_subset in Hx as [Hx|Hx]; [|done].
  by apply elem_of_nil in Hx.
Qed.

Lemma fold_set_add_distinct (l s : list A) :
  distinct eqb hash s -> distinct eqb hash (fold_left (set_add eqb hash) l s).
Proof.
  revert s. induction l as [|x l IH]; intros s Hs; simpl; [done|].
  apply IH. unfold set_add.
  destruct (existsb _ s) eqn:E; [done|]. by constructor.
Qed.

Lemma set_of_distinct (l : list A) : distinct eqb hash (set_of eqb hash l).
Proof. apply fold_set_add_distinct. constructor. Qed.

Section with_equality.
Hypothesis eqb_eq : forall x y, eqb x y = true <-> x = y.

Lemma existsb_match_elem (s : list A) (x : A) :
  existsb (fun y => (hash y =? hash x) && eqb y x) s = true <-> x ∈ s.
Proof.
  rewrite existsb_exists. split.
  - intros (y & Hy & Hm). apply andb_true_iff in Hm as [_ Hm].
    apply eqb_eq in Hm as <-. by apply list_elem_of_In.
  - intros Hx. exists x. split; [by apply list_elem_of_In|].
    apply andb_true_iff. split; [apply Z.eqb_refl|by apply eqb_eq].
Qed.

Lemma fold_set_add_NoDup (l s : list A) :
  NoDup s ->
  NoDup (fold_left (set_add eqb hash) l s)
  /\ forall x, x ∈ fold_left (set_add eqb hash) l s <-> x ∈ s \/ x ∈ l.
Proof.
  revert s. induction l as [|y l IH]; intros s Hs; simpl.
  - split; [done|]. intros x. split; [by left|].
    intros [?|Hx]; [done|]. by apply elem_of_nil in Hx.
  - unfold set_add at 2 4.
    destruct (existsb _ s) eqn:E.
    + apply existsb_match_elem in E.
      destruct (IH s Hs) as [Hnd Hel]. split; [done|].
      intros x. rewrite Hel, elem_of_cons.
      intuition (subst; auto).
    + assert (y ∉ s) as Hy.
      { intros Hy. apply existsb_match_elem in Hy. congruence. }
      destruct (IH (s ++ [y])) as [Hnd Hel].
      { apply NoDup_app. split_and!; [done| |apply NoDup_singleton].
        intros x Hx Hx'. apply list_elem_of_singleton in Hx' as ->. done. }
      split; [done|]. intros x.
      rewrite Hel, elem_of_app, list_elem_of_singleton, elem_of_cons.
      tauto.
Qed.

Lemma set_of_NoDup (l : list A) : NoDup (set_of eqb hash l).
Proof. apply fold_set_add_NoDup, NoDup_nil_2. Qed.

Lemma set_of_elem (l : list A) (x : A) : x ∈ set_of eqb hash l <-> x ∈ l.
Proof.
  unfold set_of.
  destruct (fold_set_add_NoDup l [] (NoDup_nil_2)) as [_ ->].
  split; [|by right]. intros [Hx|Hx]; [by apply elem_of_nil in Hx|done].
Qed.
End with_equality.
End PySetFacts.

(** ** Sorting *)

Ltac bool_cases :=
  repeat match goal with
    | |- context [?a <? ?b] => destruct (Z.ltb_spec a b)
    | |- context [?a =? ?b] => destruct (Z.eqb_spec a b)
    | H : context [?a <? ?b] |- _ => destruct (Z.ltb_spec a b)
    | H : context [?a =? ?b] |- _ => destruct (Z.eqb_spec a b)
    end;
  simpl in *; try lia; try congruence.

Lemma date_ltb_lt (a b : date) :
  date_ltb a b = true
  <-> year a < year b
      \/ (year a = year b
          /\ (month a < month b \/ (month a = month b /\ day a < day b))).
Proof.
  unfold date_ltb.
  rewrite !orb_true_iff, !andb_true_iff, !orb_true_iff, !andb_true_iff.
  rewrite !Z.ltb_lt, !Z.eqb_eq. tauto.
Qed.

Lemma date_ltb_ge (a b : date) :
  date_ltb a b = false
  <-> ~ (year a < year b
         \/ (year a = year b
             /\ (month a < month b \/ (month a = month b /\ day a < day b)))).
Proof. rewrite <- date_ltb_lt. by destruct (date_ltb a b). Qed.

Lemma date_ltb_asym (a b : date) : date_ltb a b = true -> date_ltb b a = false.
Proof. rewrite date_ltb_lt, date_ltb_ge. lia. Qed.

Lemma date_leb_trans (a b c : date) :
  date_ltb b a = false -> date_ltb c b = false -> date_ltb c a = false.
Proof. rewrite !date_ltb_ge. lia. Qed.

Lemma date_ltb_total (a b : date) :
  date_ltb a b = false -> date_ltb b a = false -> a = b.
Proof.
  rewrite !date_ltb_ge. destruct a, b. simpl. intros H1 H2. f_equal; lia.
Qed.

Lemma Z_ltb_asym (a b : Z) : (a <? b) = true -> (b <? a) = false.
Proof. bool_cases. Qed.

Lemma Z_leb_trans (a b c : Z) :
  (b <? a) = false -> (c <? b) = false -> (c <? a) = false.
Proof. bool_cases. Qed.

Section SortedFacts.
Context {A K : Type} (key : A -> K) (ltb : K -> K -> bool).

(** [a] may stand before [b]. *)
Definition in_order (a b : A) : Prop := ltb (key b) (key a) = false.

Lemma insert_sorted_perm (x : A) (s : list A) :
  Permutation (insert_sorted key ltb x s) (x :: s).
Proof.
  induction s as [|y s IH]; simpl; [done|].
  destruct (ltb (key y) (key x)); [|done].
  rewrite IH. apply perm_swap.
Qed.

Lemma sorted_perm (l : list A) : Permutation (sorted key ltb l) l.
Proof.
  induction l as [|x l IH]; simpl; [done|].
  rewrite insert_sorted_perm. by constructor.
Qed.

Lemma sorted_nil_inv (l : list A) : sorted key ltb l = [] -> l = [].
Proof.
  intros E. apply Permutation_nil. rewrite <- E. apply sorted_perm.
Qed.

Hypothesis asym : forall a b, ltb a b = true -> ltb b a = false.
Hypothesis leb_trans :
  forall a b c, ltb b a = false -> ltb c b = false -> ltb c a = false.

Lemma insert_sorted_sorted (x : A) (s : list A) :
  StronglySorted in_order s ->
  StronglySorted in_order (insert_sorted key ltb x s).
Proof.
  induction 1 as [|y s Hs IH Hy]; simpl.
  - repeat constructor.
  - destruct (ltb (key y) (key x)) eqn:E.
    + constructor; [done|].
      rewrite insert_sorted_perm. constructor; [by apply asym|done].
    + constructor; [by constructor|].
      constructor; [done|].
      eapply Forall_impl; [exact Hy|]. intros z Hz.
      unfold in_order in *. by apply (leb_trans _ (key y)).
Qed.

Lemma sorted_sorted (l : list A) : StronglySorted in_order (sorted key ltb l).
Proof.
  induction l as [|x l IH]; simpl; [constructor|].
  by apply insert_sorted_sorted.
Qed.

Lemma last_in_order (s : list A) (y z : A) :
  StronglySorted in_order (y :: s) -> last (y :: s) = Some z ->
  in_order y z \/ z = y.
Proof.
  intros Hs Hl. inversion Hs as [|? ? _ Hy]; subst.
  destruct s as [|y' s]; [right; by inversion Hl|].
  left. rewrite Forall_forall in Hy. apply Hy.
  apply last_Some_elem_of. exact Hl.
Qed.

Lemma last_insert_sorted (x : A) (s : list A) :
  StronglySorted in_order s ->
  last (insert_sorted key ltb x s)
  = match last s with
    | None => Some x
    | Some y => if ltb (key y) (key x) then Some x else Some y
    end.
Proof.
  induction 1 as [|y s Hs IH Hy]; simpl; [done|].
  destruct (ltb (key y) (key x)) eqn:E.
  - rewrite (last_cons y (insert_sorted key ltb x s)), IH, (last_cons y s).
    destruct (last s) as [z|] eqn:El; [by destruct (ltb (key z) (key x))|].
    by rewrite E.
  - rewrite (last_cons x (y :: s)).
    destruct (last (y :: s)) as [z|] eqn:El; [|done].
    destruct (last_in_order s y z) as [Hz| ->];
      [by constructor|done| |by rewrite E].
    unfold in_order in Hz.
    by rewrite (leb_trans (key x) (key y) (key z)).
Qed.

Lemma sorted_app_in_order (l1 l2 : list A) (a b : A) :
  StronglySorted in_order (l1 ++ l2) -> a ∈ l1 -> b ∈ l2 -> in_order a b.
Proof.
  induction l1 as [|x l1 IH]; simpl; intros Hs Ha Hb.
  - by apply elem_of_nil in Ha.
  - inversion Hs as [|? ? Hs' Hx]; subst.
    apply elem_of_cons in Ha as [->|Ha]; [|by apply IH].
    rewrite Forall_forall in Hx. apply Hx, elem_of_app. by right.
Qed.

(** The last element of the stable sort is the last of the maxima. *)
Lemma last_sorted (l : list A) : last (sorted key ltb l) = last_max key ltb l.
Proof.
  induction l as [|x l IH]; simpl; [done|].
  rewrite last_insert_sorted by apply sorted_sorted. by rewrite IH.
Qed.

Lemma last_max_None (l : list A) : last_max key ltb l = None -> l = [].
Proof.
  destruct l as [|x l]; simpl; [done|].
  destruct (last_max key ltb l); [destruct (ltb _ _)|]; done.
Qed.

(** Nothing before it is greater, everything after it is smaller. *)
Lemma last_max_split (l : list A) (top : A) :
  last_max key ltb l = Some top ->
  exists l1 l2,
    l = l1 ++ top :: l2
    /\ Forall (fun r => ltb (key top) (key r) = false) l1
    /\ Forall (fun r => ltb (key r) (key top) = true) l2.
Proof.
  revert top. induction l as [|x l IH]; intros top; simpl; [done|].
  destruct (last_max key ltb l) as [y|] eqn:El.
  - destruct (IH y eq_refl) as (l1 & l2 & -> & H1 & H2).
    destruct (ltb (key y) (key x)) eqn:E; intros [= <-].
    + exists [], (l1 ++ y :: l2). split_and!; [done|constructor|].
      apply Forall_app. split; [|constructor; [done|]].
      * eapply Forall_impl; [exact H1|]. intros r Hr. simpl in Hr.
        destruct (ltb (key r) (key x)) eqn:Er; [done|].
        by rewrite (leb_trans (key x) (key r) (key y)) in E.
      * eapply Forall_impl; [exact H2|]. intros r Hr. simpl in Hr.
        destruct (ltb (key r) (key x)) eqn:Er; [done|].
        apply asym in Hr.
        by rewrite (leb_trans (key x) (key r) (key y)) in E.
    + exists (x :: l1), l2. split_and!; [done|by constructor|done].
  - apply last_max_None in El as ->. intros [= <-].
    exists [], []. split_and!; [done|constructor|constructor].
Qed.
End SortedFacts.

Lemma insert_sorted_ext {A K : Type} (key1 key2 : A -> K)
    (ltb : K -> K -> bool) (x : A) (s : list A) :
  key1 x = key2 x -> (forall y, y ∈ s -> key1 y = key2 y) ->
  insert_sorted key1 ltb x s = insert_sorted key2 ltb x s.
Proof.
  intros Hx. induction s as [|y s IH]; intros Hs; simpl; [done|].
  rewrite Hx, (Hs y) by constructor.
  destruct (ltb (key2 y) (key2 x)); [|done].
  f_equal. apply IH. intros z Hz. apply Hs. by constructor.
Qed.

(** Sorting looks at the keys of the elements of the list only. *)
Lemma sorted_ext {A K : Type} (key1 key2 : A -> K) (ltb : K -> K -> bool)
    (l : list A) :
  (forall x, x ∈ l -> key1 x = key2 x) ->
  sorted key1 ltb l = sorted key2 ltb l.
Proof.
  induction l as [|x l IH]; intros Hl; [done|].
  unfold sorted in *. cbn [foldr]. rewrite IH.
  - apply insert_sorted_ext; [apply Hl; constructor|].
    intros y Hy. apply Hl. constructor.
    pose proof (sorted_perm key2 ltb l) as Hperm. unfold sorted in Hperm.
    by rewrite Hperm in Hy.
  - intros y Hy. apply Hl. by constructor.
Qed.

(** ** Records *)

Section RecordFacts.
Context (I : Interpreter).

Lemma record_eq_key (r o : PageStatisticsRecord.t) :
  PageStatisticsRecord.__eq__ r o = true <-> record_key r = record_key o.
Proof.
  unfold PageStatisticsRecord.__eq__, record_key. simpl.
  rewrite !andb_true_iff, !bool_decide_eq_true. split.
  - intros (-> & -> & -> & -> & -> & -> & _). done.
  - intros [= -> -> -> -> -> ->]. done.
Qed.

Lemma record_hash_key (r o : PageStatisticsRecord.t) :
  record_key r = record_key o ->
  PageStatisticsRecord.__hash__ r = PageStatisticsRecord.__hash__ o.
Proof.
  unfold PageStatisticsRecord.__hash__, record_key. by intros ->.
Qed.

Lemma record_match_key (r o : PageStatisticsRecord.t) :
  record_key r = record_key o ->
  (PageStatisticsRecord.__hash__ r =? PageStatisticsRecord.__hash__ o)
  && PageStatisticsRecord.__eq__ r o = true.
Proof.
  intros E. apply andb_true_iff. split.
  - apply Z.eqb_eq. by apply record_hash_key.
  - by apply record_eq_key.
Qed.

Lemma record_set_collapses (r : PageStatisticsRecord.t)
    (rs : list PageStatisticsRecord.t) :
  Forall (fun r' => record_key r' = record_key r) rs ->
  set_of PageStatisticsRecord.__eq__ PageStatisticsRecord.__hash__ (r :: rs)
  = [r].
Proof.
  intros Hrs. unfold set_of. simpl. unfold set_add at 2. simpl.
  apply fold_set_add_absorbed.
  eapply Forall_impl; [exact Hrs|]. intros r' E. simpl.
  rewrite record_match_key; [done|by symmetry].
Qed.

Lemma list_set_nonempty (r : PageStatisticsRecord.t)
    (rs : list PageStatisticsRecord.t) :
  iter_lawful I -> PageStatisticsRecord.list_set (r :: rs) <> [].
Proof.
  intros HI E. unfold PageStatisticsRecord.list_set in E.
  pose proof (HI _ (set_of PageStatisticsRecord.__eq__
                      PageStatisticsRecord.__hash__ (r :: rs))) as HP.
  rewrite E in HP. apply Permutation_nil in HP.
  by apply set_of_cons_nonempty in HP.
Qed.

(** What the constructor checks of a record against the first. *)
Lemma inconsistent_iff (first r : PageStatisticsRecord.t) :
  bool_decide (PageStatisticsRecord.article r
               <> PageStatisticsRecord.article first)
  || bool_decide (PageStatisticsRecord.granularity r
                  <> PageStatisticsRecord.granularity first)
  || bool_decide (PageStatisticsRecord.access r
                  <> PageStatisticsRecord.access first)
  || bool_decide (PageStatisticsRecord.agent r
                  <> PageStatisticsRecord.agent first)
  || bool_decide (PageStatisticsRecord.project r
                  <> PageStatisticsRecord.project first) = true
  <-> record_identity r <> record_identity first.
Proof.
  unfold record_identity.
  rewrite !orb_true_iff, !bool_decide_eq_true. split.
  - intros Hd [= E1 E2 E3 E4 E5]. tauto.
  - intros Hne.
    destruct (decide (PageStatisticsRecord.article r
                      = PageStatisticsRecord.article first)); [|tauto].
    destruct (decide (PageStatisticsRecord.granularity r
                      = PageStatisticsRecord.granularity first)); [|tauto].
    destruct (decide (PageStatisticsRecord.access r
                      = PageStatisticsRecord.access first)); [|tauto].
    destruct (decide (PageStatisticsRecord.agent r
                      = PageStatisticsRecord.agent first)); [|tauto].
    destruct (decide (PageStatisticsRecord.project r
                      = PageStatisticsRecord.project first)); [|tauto].
    exfalso. apply Hne. congruence.
Qed.

Lemma init_cons (first : PageStatisticsRecord.t)
    (rest : list PageStatisticsRecord.t) :
  PageStatistics.__init__ (first :: rest)
  = if existsb (fun r => bool_decide (record_identity r <> record_identity first))
         rest
    then Raise (ValueError "Inconsistent records")
    else Ok (PageStatistics.mk
               (PageStatisticsRecord.article first)
               (PageStatisticsRecord.granularity first)
               (PageStatisticsRecord.access first)
               (PageStatisticsRecord.agent first)
               (PageStatisticsRecord.project first)
               (sorted PageStatisticsRecord.timestamp date_ltb
                  (PageStatisticsRecord.list_set (first :: rest)))).
Proof.
  unfold PageStatistics.__init__.
  set (check := fun record => _ || _).
  assert (forall r, check r
                    = bool_decide (record_identity r <> record_identity first))
    as Hcheck.
  { intros r. apply eq_true_iff_eq. subst check. cbv beta.
    rewrite inconsistent_iff, bool_decide_eq_true. done. }
  cbn [existsb]. rewrite (Hcheck first).
  rewrite bool_decide_eq_false_2 by tauto. cbn [orb].
  replace (existsb check rest) with
    (existsb (fun r => bool_decide (record_identity r <> record_identity first))
       rest); [done|].
  induction rest as [|r rest IH]; simpl; [done|]. by rewrite Hcheck, IH.
Qed.
End RecordFacts.

(** C3.  Two records that agree on project, article, granularity, timestamp,
    access and agent compare equal and have the same hash, whatever their
    views; a set built from any number of such records holds one element,
    the first; and two records that differ in one of the six fields compare
    unequal. *)
Theorem record_equality_ignores_views (I : Interpreter) :
  (forall r1 r2 : PageStatisticsRecord.t,
      record_key r1 = record_key r2 ->
      PageStatisticsRecord.__eq__ r1 r2 = true
      /\ PageStatisticsRecord.__hash__ r1 = PageStatisticsRecord.__hash__ r2)
  /\ (forall (r : PageStatisticsRecord.t) (rs : list PageStatisticsRecord.t),
         Forall (fun r' => record_key r' = record_key r) rs ->
         set_of PageStatisticsRecord.__eq__ PageStatisticsRecord.__hash__
           (r :: rs) = [r])
  /\ (forall r1 r2 : PageStatisticsRecord.t,
         record_key r1 <> record_key r2 ->
         PageStatisticsRecord.__eq__ r1 r2 = false).
Proof.
  split_and!.
  - intros r1 r2 E. split; [by apply record_eq_key|by apply record_hash_key].
  - apply record_set_collapses.
  - intros r1 r2 Hne.
    destruct (PageStatisticsRecord.__eq__ r1 r2) eqn:E; [|done].
    by apply record_eq_key in E.
Qed.

Lemma record_equality_ignores_views_witness :
  (PageStatisticsRecord.__eq__ record_a record_b
   = true
   /\ PageStatisticsRecord.__hash__ (I := reversing_interpreter) record_a
      = PageStatisticsRecord.__hash__ (I := reversing_interpreter) record_b)
  /\ set_of (PageStatisticsRecord.__eq__)
       (PageStatisticsRecord.__hash__ (I := reversing_interpreter))
       (record_a :: replicate 49 record_b ++ replicate 50 record_a)
     = [record_a]
  /\ PageStatisticsRecord.__eq__ record_c record_a
     = false.
Proof.
  destruct (record_equality_ignores_views reversing_interpreter)
    as (H1 & H2 & H3).
  split; [|split].
  - apply H1. reflexivity.
  - apply H2. apply Forall_app. split; apply Forall_replicate; reflexivity.
  - apply H3. discriminate.
Defined.

(** C6.  Building a statistics object from records of which one disagrees
    with the first on project, article, granularity, access or agent raises
    [ValueError("Inconsistent records")]; it succeeds when all agree with the
    first on the five fields. *)
Theorem init_checks_consistency (I : Interpreter)
    (first : PageStatisticsRecord.t) (rest : list PageStatisticsRecord.t) :
  (Exists (fun r => record_identity r <> record_identity first) rest ->
   PageStatistics.__init__ (first :: rest)
   = Raise (ValueError "Inconsistent records"))
  /\ (Forall (fun r => record_identity r = record_identity first) rest ->
      exists st,
        PageStatistics.__init__ (first :: rest) = Ok st
        /\ (PageStatistics.project st, PageStatistics.article st,
            PageStatistics.granularity st, PageStatistics.access st,
            PageStatistics.agent st) = record_identity first).
Proof.
  rewrite init_cons. split.
  - intros Hex.
    assert (existsb (fun r => bool_decide (record_identity r
                                           <> record_identity first)) rest
            = true) as ->; [|done].
    apply existsb_exists. apply Exists_exists in Hex as (r & Hr & Hne).
    exists r. split; [by apply list_elem_of_In|by apply bool_decide_eq_true].
  - intros Hall.
    assert (existsb (fun r => bool_decide (record_identity r
                                           <> record_identity first)) rest
            = false) as ->.
    { apply not_true_is_false. intros Hex.
      apply existsb_exists in Hex as (r & Hr & Hne).
      apply bool_decide_eq_true in Hne. apply Hne.
      rewrite Forall_forall in Hall. apply Hall. by apply list_elem_of_In. }
    eexists. split; [done|]. done.
Qed.

Lemma init_checks_consistency_witness :
  PageStatistics.__init__ (I := reversing_interpreter)
    [record_a; record_b; record_c]
  = Raise (ValueError "Inconsistent records")
  /\ exists st,
      PageStatistics.__init__ (I := reversing_interpreter)
        [record_a; record_b; record_a] = Ok st
      /\ (PageStatistics.project st, PageStatistics.article st,
          PageStatistics.granularity st, PageStatistics.access st,
          PageStatistics.agent st) = record_identity record_a.
Proof.
  split.
  - apply (init_checks_consistency reversing_interpreter record_a
             [record_b; record_c]).
    apply Exists_cons_tl, Exists_cons_hd. discriminate.
  - apply (init_checks_consistency reversing_interpreter record_a
             [record_b; record_a]).
    repeat constructor.
Defined.

Lemma init_nonempty (I : Interpreter) (records : list PageStatisticsRecord.t)
    (st : PageStatistics.t) :
  iter_lawful I ->
  PageStatistics.__init__ records = Ok st ->
  PageStatistics.records st <> [].
Proof.
  intros HI. destruct records as [|first rest]; [done|].
  rewrite init_cons. destruct (existsb _ rest); [done|].
  intros [= <-]. simpl. intros E. apply sorted_nil_inv in E.
  by apply list_set_nonempty in E.
Qed.

(** C7.  Building a statistics object from no records raises [IndexError];
    no call of the constructor returns an object without records. *)
Theorem init_rejects_no_records (I : Interpreter) :
  PageStatistics.__init__ [] = Raise IndexError
  /\ (iter_lawful I ->
      forall records st,
        PageStatistics.__init__ records = Ok st ->
        PageStatistics.records st <> []).
Proof.
  split; [done|]. intros HI [|first rest] st; [done|].
  rewrite init_cons. destruct (existsb _ rest); [done|].
  intros [= <-]. simpl. intros E. apply sorted_nil_inv in E.
  by apply list_set_nonempty in E.
Qed.

Lemma init_rejects_no_records_witness :
  PageStatistics.__init__ (I := reversing_interpreter) [] = Raise IndexError
  /\ forall st,
      PageStatistics.__init__ (I := reversing_interpreter) [record_a; record_b]
      = Ok st ->
      PageStatistics.records st <> [].
Proof.
  destruct (init_rejects_no_records reversing_interpreter) as [H1 H2].
  split; [exact H1|].
  intros st. apply (H2 reversing_interpreter_lawful).
Defined.

(** ** The record with the most views *)

(** Whatever the records are, [top_views_record] is the last of those with
    the most views. *)
Lemma top_views_record_split (st : PageStatistics.t) :
  PageStatistics.records st <> [] ->
  exists top l1 l2,
    PageStatistics.top_views_record st = Ok top
    /\ PageStatistics.records st = l1 ++ top :: l2
    /\ Forall (fun r => PageStatisticsRecord.views r
                        <= PageStatisticsRecord.views top) l1
    /\ Forall (fun r => PageStatisticsRecord.views r
                        < PageStatisticsRecord.views top) l2.
Proof.
  intros Hne. unfold PageStatistics.top_views_record, last_item.
  rewrite (last_sorted _ _ Z_ltb_asym Z_leb_trans).
  destruct (last_max PageStatisticsRecord.views Z.ltb
              (PageStatistics.records st)) as [top|] eqn:E.
  - apply (last_max_split _ _ Z_ltb_asym Z_leb_trans) in E
      as (l1 & l2 & E & H1 & H2).
    exists top, l1, l2. split_and!; [done|done| |].
    + eapply Forall_impl; [exact H1|]. intros r Hr. simpl in Hr. lia.
    + eapply Forall_impl; [exact H2|]. intros r Hr. simpl in Hr. lia.
  - by apply last_max_None in E.
Qed.

Lemma init_records (I : Interpreter) (records : list PageStatisticsRecord.t)
    (st : PageStatistics.t) :
  PageStatistics.__init__ records = Ok st ->
  PageStatistics.records st
  = sorted PageStatisticsRecord.timestamp date_ltb
      (PageStatisticsRecord.list_set records)
  /\ records <> [].
Proof.
  destruct records as [|first rest]; [done|].
  rewrite init_cons. destruct (existsb _ rest); [done|].
  by intros [= <-].
Qed.

(** C2.  [top_views_record] of a statistics object returns a record of the
    object of which no record has more views, and every record with as many
    views has a timestamp that is not later. *)
Theorem top_views_record_latest_maximum (I : Interpreter)
    (records : list PageStatisticsRecord.t) (st : PageStatistics.t) :
  iter_lawful I ->
  PageStatistics.__init__ records = Ok st ->
  exists top,
    PageStatistics.top_views_record st = Ok top
    /\ top ∈ PageStatistics.records st
    /\ (forall r, r ∈ PageStatistics.records st ->
                  PageStatisticsRecord.views r <= PageStatisticsRecord.views top)
    /\ (forall r, r ∈ PageStatistics.records st ->
                  PageStatisticsRecord.views r = PageStatisticsRecord.views top ->
                  date_leb (PageStatisticsRecord.timestamp r)
                           (PageStatisticsRecord.timestamp top) = true).
Proof.
  intros HI Hinit.
  pose proof (init_nonempty I records st HI Hinit) as Hne.
  destruct (top_views_record_split st Hne)
    as (top & l1 & l2 & Htop & Hsplit & H1 & H2).
  exists top. rewrite Hsplit. split_and!; [done| | |].
  - apply elem_of_app. right. constructor.
  - intros r Hr. rewrite Forall_forall in H1, H2.
    apply elem_of_app in Hr as [Hr|Hr]; [by apply H1|].
    apply elem_of_cons in Hr as [->|Hr]; [lia|].
    apply H2 in Hr. lia.
  - intros r Hr Hv. rewrite Forall_forall in H2.
    apply elem_of_app in Hr as [Hr|Hr].
    + apply init_records in Hinit as [Hrec _].
      pose proof (sorted_sorted PageStatisticsRecord.timestamp date_ltb
                    date_ltb_asym date_leb_trans
                    (PageStatisticsRecord.list_set records)) as Hs.
      rewrite <- Hrec, Hsplit in Hs.
      assert (in_order PageStatisticsRecord.timestamp date_ltb r top) as Ho.
      { eapply sorted_app_in_order; [exact Hs|done|constructor]. }
      unfold in_order in Ho. unfold date_leb. by rewrite Ho.
    + apply elem_of_cons in Hr as [->|Hr].
      * unfold date_leb.
        destruct (date_ltb (PageStatisticsRecord.timestamp top)
                    (PageStatisticsRecord.timestamp top)) eqn:E; [|done].
        pose proof (date_ltb_asym _ _ E). congruence.
      * apply H2 in Hr. lia.
Qed.

Lemma top_views_record_latest_maximum_witness :
  exists st top,
    PageStatistics.__init__ (I := reversing_interpreter) three_days = Ok st
    /\ PageStatistics.top_views_record st = Ok top
    /\ top ∈ PageStatistics.records st
    /\ (forall r, r ∈ PageStatistics.records st ->
                  PageStatisticsRecord.views r <= PageStatisticsRecord.views top)
    /\ (forall r, r ∈ PageStatistics.records st ->
                  PageStatisticsRecord.views r = PageStatisticsRecord.views top ->
                  date_leb (PageStatisticsRecord.timestamp r)
                           (PageStatisticsRecord.timestamp top) = true).
Proof.
  destruct (top_views_record_latest_maximum reversing_interpreter three_days _
              reversing_interpreter_lawful eq_refl) as (top & H).
  eexists _, top. split; [reflexivity|exact H].
Defined.

Example top_views_record_three_days :
  (let* st := PageStatistics.__init__ (I := reversing_interpreter) three_days in
   PageStatistics.top_views_record st)
  = Ok (PageStatisticsRecord.mk "project" "article" Daily (mkdate 2025 1 3)
          Access_Any Agent_Any 7).
Proof. reflexivity. Qed.

(** ** Requests *)

Lemma sorted_two_dates (a b : date) :
  map strftime_Ymd00 (sorted (fun x => x) date_ltb [a; b])
  = map strftime_Ymd00 (sorted (fun x => x) date_ltb [b; a]).
Proof.
  simpl.
  destruct (date_ltb b a) eqn:Eba, (date_ltb a b) eqn:Eab; try done.
  - apply date_ltb_asym in Eba. congruence.
  - by rewrite (date_ltb_total a b Eab Eba).
Qed.

(** C5.  The path of a request does not change when its start and end dates
    are swapped (nor does its failure, when the URL has no path). *)
Theorem as_url_swap_dates (u : string) (a b : date) (g : DateGranularity)
    (ac : AccessType) (ag : UserAgent) :
  WikimediaRequest.as_url (WikimediaRequest.mk u a b g ac ag)
  = WikimediaRequest.as_url (WikimediaRequest.mk u b a g ac ag).
Proof.
  unfold WikimediaRequest.as_url, WikimediaRequest._parse_url.
  cbn [WikimediaRequest.url WikimediaRequest.start_timestamp
       WikimediaRequest.end_timestamp WikimediaRequest.granularity
       WikimediaRequest.access WikimediaRequest.agent].
  destruct (re_match WikimediaRequest.url_pattern u) as [m|]; [|done].
  cbn [bind]. by rewrite (sorted_two_dates a b).
Qed.

Example as_url_article_yes :
  WikimediaRequest.as_url
    (WikimediaRequest.mk "https://ru.wikipedia.org/wiki/article-yes"
       (mkdate 2025 1 10) (mkdate 2025 1 1) Daily Access_Any Agent_User)
  = Ok "/ru.wikipedia/all-access/user/article-yes/daily/2025010100/2025011000".
Proof. reflexivity. Qed.

(** ** The exporter *)







Lemma row_astype_id (d : dtype) (r : row) :
  d <> Float64 -> row_astype d r = r.
Proof.
  intros Hd. destruct r as [[[[[[project article] g] ts] ac] ag] views].
  unfold row_astype. f_equal. by destruct d, views.
Qed.

Lemma map_row_astype_id (d : dtype) (l : list row) :
  d <> Float64 -> map (row_astype d) l = l.
Proof.
  intros Hd. rewrite <- (map_id l) at 2. apply map_ext.
  intros r. by apply row_astype_id.
Qed.



(** Outside that range the cast shows: of three scrapes of a day with 2^63,
    2^63 + 1 and 10 views the first two make unsigned columns and the third
    a signed one, the views are cast to doubles, 2^63 + 1 becomes 2^63, and
    the table has two rows. *)
Example concat_statistics_casts_mixed_views :
  WikimediaParser.concat_statistics
    [one_day (2 ^ 63); one_day (2 ^ 63 + 1); one_day 10]
  = Ok [("project"%string, "article"%string, Daily, mkdate 2025 1 1,
         Access_Any, Agent_Any, Float (float64_of_int (2 ^ 63)));
        ("project"%string, "article"%string, Daily, mkdate 2025 1 1,
         Access_Any, Agent_Any, Float (float64_of_int 10))]
  /\ WikimediaParser.concat_statistics
       [one_day (2 ^ 63); one_day (2 ^ 63 + 1)]
     = Ok [PageStatistics._asdict
             (PageStatisticsRecord.mk "project" "article" Daily
                (mkdate 2025 1 1) Access_Any Agent_Any (2 ^ 63));
           PageStatistics._asdict
             (PageStatisticsRecord.mk "project" "article" Daily
                (mkdate 2025 1 1) Access_Any Agent_Any (2 ^ 63 + 1))].
Proof. split; vm_compute; reflexivity. Qed.

(** ** The value of the monthly granularity *)

Lemma from_dict_lowercase_monthly (data : gmap string string) :
  data !! "granularity"%string = Some "monthly"%string ->
  (exists e, PageStatisticsRecord.from_dict data = Raise e)
  /\ (forall ts ac,
         (let* raw := PageStatisticsRecord.getitem data "timestamp" in
          strptime_Ymd00 raw) = Ok ts ->
         (let* raw := PageStatisticsRecord.getitem data "access" in
          AccessType_of_value raw) = Ok ac ->
         PageStatisticsRecord.from_dict data
         = Raise (ValueError "'monthly' is not a valid DateGranularity")).
Proof.
  intros Hg. unfold PageStatisticsRecord.from_dict.
  assert (PageStatisticsRecord.getitem data "granularity" = Ok "monthly"%string)
    as Hget by (unfold PageStatisticsRecord.getitem; by rewrite Hg).
  split.
  - destruct (PageStatisticsRecord.getitem data "timestamp") as [raw_ts|e];
      [|by eexists]. cbn [bind].
    destruct (strptime_Ymd00 raw_ts) as [ts|e]; [|by eexists]. cbn [bind].
    destruct (PageStatisticsRecord.getitem data "access") as [raw_ac|e];
      [|by eexists]. cbn [bind].
    destruct (AccessType_of_value raw_ac) as [ac|e]; [|by eexists]. cbn [bind].
    rewrite Hget. by eexists.
  - intros ts ac Hts Hac.
    destruct (PageStatisticsRecord.getitem data "timestamp") as [raw_ts|e];
      [|done]. cbn [bind] in *. rewrite Hts. cbn [bind].
    destruct (PageStatisticsRecord.getitem data "access") as [raw_ac|e];
      [|done]. cbn [bind] in *. rewrite Hac. cbn [bind].
    by rewrite Hget.
Qed.

Lemma from_dict_capital_monthly (data : gmap string string)
    (raw_ts raw_ac raw_ag raw_views project article : string)
    (ts : date) (ac : AccessType) (ag : UserAgent) (views : Z) :
  data !! "granularity"%string = Some "Monthly"%string ->
  data !! "timestamp"%string = Some raw_ts -> strptime_Ymd00 raw_ts = Ok ts ->
  data !! "access"%string = Some raw_ac -> AccessType_of_value raw_ac = Ok ac ->
  data !! "agent"%string = Some raw_ag -> UserAgent_of_value raw_ag = Ok ag ->
  data !! "views"%string = Some raw_views -> py_int raw_views = Ok views ->
  data !! "project"%string = Some project ->
  data !! "article"%string = Some article ->
  dom data = PageStatisticsRecord.fields ->
  PageStatisticsRecord.from_dict data
  = Ok (PageStatisticsRecord.mk project article Monthly ts ac ag views).
Proof.
  intros Hg Hts Hts' Hac Hac' Hag Hag' Hv Hv' Hp Ha Hdom.
  unfold PageStatisticsRecord.from_dict, PageStatisticsRecord.getitem.
  rewrite Hts. cbn [bind]. rewrite Hts'. cbn [bind].
  rewrite Hac. cbn [bind]. rewrite Hac'. cbn [bind].
  rewrite Hg. cbn [bind].
  change (DateGranularity_of_value "Monthly") with (Ok Monthly). cbn [bind].
  rewrite Hag. cbn [bind]. rewrite Hag'. cbn [bind].
  rewrite Hv. cbn [bind]. rewrite Hv'. cbn [bind].
  rewrite Hp, Ha. by rewrite bool_decide_eq_true_2.
Qed.

Lemma as_url_segments (r : WikimediaRequest.t) (path : string) :
  WikimediaRequest.as_url r = Ok path ->
  exists project article start_ts end_ts,
    WikimediaRequest._parse_url r = Ok (project, article)
    /\ path = "/" +:+ project
              +:+ "/" +:+ AccessType_value (WikimediaRequest.access r)
              +:+ "/" +:+ UserAgent_value (WikimediaRequest.agent r)
              +:+ "/" +:+ article
              +:+ "/" +:+ DateGranularity_value (WikimediaRequest.granularity r)
              +:+ "/" +:+ start_ts +:+ "/" +:+ end_ts.
Proof.
  unfold WikimediaRequest.as_url.
  destruct (WikimediaRequest._parse_url r) as [[project article]|e]; [|done].
  cbn [bind].
  destruct (map strftime_Ymd00 _) as [|s [|e [|]]]; try done.
  intros [= <-]. by exists project, article, s, e.
Qed.

Lemma as_url_of_parse (r : WikimediaRequest.t) (project article : string) :
  WikimediaRequest._parse_url r = Ok (project, article) ->
  WikimediaRequest.as_url r
  = Ok ("/" +:+ project
        +:+ "/" +:+ AccessType_value (WikimediaRequest.access r)
        +:+ "/" +:+ UserAgent_value (WikimediaRequest.agent r)
        +:+ "/" +:+ article
        +:+ "/" +:+ DateGranularity_value (WikimediaRequest.granularity r)
        +:+ "/" +:+ strftime_Ymd00
                      (date_min (WikimediaRequest.start_timestamp r)
                         (WikimediaRequest.end_timestamp r))
        +:+ "/" +:+ strftime_Ymd00
                      (date_max (WikimediaRequest.start_timestamp r)
                         (WikimediaRequest.end_timestamp r))).
Proof.
  intros Hparse. unfold WikimediaRequest.as_url, date_min, date_max.
  rewrite Hparse. cbn [bind]. simpl.
  by destruct (date_ltb _ _).
Qed.

(** C10.  The value of the monthly granularity is ["Monthly"] and that of the
    daily one is ["daily"]; a monthly request whose URL parses renders to a
    path, and every path of a monthly request has ["Monthly"] as its
    granularity segment, between the article and the two timestamps;
    [from_dict] raises on an item whose granularity is ["monthly"], with the
    invalid-value error when the fields read before it are valid; and it
    accepts ["Monthly"]. *)
Theorem monthly_value_is_capitalised :
  (DateGranularity_value Monthly = "Monthly"%string
   /\ DateGranularity_value Daily = "daily"%string)
  /\ (forall r path,
         WikimediaRequest.granularity r = Monthly ->
         (WikimediaRequest.as_url r = Ok path
          <-> exists project article,
              WikimediaRequest._parse_url r = Ok (project, article)
              /\ path
                 = "/" +:+ project
                   +:+ "/" +:+ AccessType_value (WikimediaRequest.access r)
                   +:+ "/" +:+ UserAgent_value (WikimediaRequest.agent r)
                   +:+ "/" +:+ article
                   +:+ "/" +:+ "Monthly"
                   +:+ "/" +:+ strftime_Ymd00
                                 (date_min (WikimediaRequest.start_timestamp r)
                                    (WikimediaRequest.end_timestamp r))
                   +:+ "/" +:+ strftime_Ymd00
                                 (date_max (WikimediaRequest.start_timestamp r)
                                    (WikimediaRequest.end_timestamp r))))
  /\ (forall data : gmap string string,
         data !! "granularity"%string = Some "monthly"%string ->
         (exists e, PageStatisticsRecord.from_dict data = Raise e)
         /\ (forall ts ac,
                (let* raw := PageStatisticsRecord.getitem data "timestamp" in
                 strptime_Ymd00 raw) = Ok ts ->
                (let* raw := PageStatisticsRecord.getitem data "access" in
                 AccessType_of_value raw) = Ok ac ->
                PageStatisticsRecord.from_dict data
                = Raise (ValueError "'monthly' is not a valid DateGranularity")))
  /\ (forall (data : gmap string string)
             raw_ts raw_ac raw_ag raw_views project article ts ac ag views,
         data !! "granularity"%string = Some "Monthly"%string ->
         data !! "timestamp"%string = Some raw_ts ->
         strptime_Ymd00 raw_ts = Ok ts ->
         data !! "access"%string = Some raw_ac ->
         AccessType_of_value raw_ac = Ok ac ->
         data !! "agent"%string = Some raw_ag ->
         UserAgent_of_value raw_ag = Ok ag ->
         data !! "views"%string = Some raw_views ->
         py_int raw_views = Ok views ->
         data !! "project"%string = Some project ->
         data !! "article"%string = Some article ->
         dom data = PageStatisticsRecord.fields ->
         PageStatisticsRecord.from_dict data
         = Ok (PageStatisticsRecord.mk project article Monthly ts ac ag views)).
Proof.
  split; [done|]. split; [|split].
  - intros r path Hg. split.
    + intros Hpath.
      destruct (as_url_segments r path Hpath)
        as (project & article & s & e & Hparse & _).
      exists project, article. split; [done|].
      rewrite (as_url_of_parse r project article Hparse), Hg in Hpath.
      by injection Hpath as <-.
    + intros (project & article & Hparse & ->).
      rewrite (as_url_of_parse r project article Hparse). by rewrite Hg.
  - apply from_dict_lowercase_monthly.
  - apply from_dict_capital_monthly.
Qed.

Lemma monthly_value_is_capitalised_witness :
  WikimediaRequest.as_url
    (WikimediaRequest.mk "https://ru.wikipedia.org/wiki/article-yes"
       (mkdate 2025 1 10) (mkdate 2025 1 1) Monthly Access_Any Agent_User)
  = Ok "/ru.wikipedia/all-access/user/article-yes/Monthly/2025010100/2025011000"
  /\ PageStatisticsRecord.from_dict (response_item "monthly")
     = Raise (ValueError "'monthly' is not a valid DateGranularity")
  /\ PageStatisticsRecord.from_dict (response_item "Monthly")
     = Ok (PageStatisticsRecord.mk "ru.wikipedia" "test-article" Monthly
             (mkdate 2025 1 1) Access_Any Agent_User 100).
Proof.
  destruct monthly_value_is_capitalised as (_ & Hpath & Hlower & Hupper).
  split; [|split].
  - apply (Hpath (WikimediaRequest.mk
                    "https://ru.wikipedia.org/wiki/article-yes"
                    (mkdate 2025 1 10) (mkdate 2025 1 1) Monthly Access_Any
                    Agent_User)); [reflexivity|].
    exists "ru.wikipedia"%string, "article-yes"%string.
    split; reflexivity.
  - destruct (Hlower (response_item "monthly")) as [_ H]; [reflexivity|].
    apply (H (mkdate 2025 1 1) Access_Any); reflexivity.
  - apply (Hupper (response_item "Monthly")
             "2025010100"%string "all-access"%string "user"%string
             "100"%string); reflexivity.
Defined.

(** ** The URL pattern *)

Section MatcherFacts.
Context {R : Type}.

Lemma strip_prefix_app (p s s' : list ascii) :
  strip_prefix p s = Some s' -> s = p ++ s'.
Proof.
  revert s. induction p as [|c p IH]; intros [|c' s]; simpl; try done.
  - by intros [= ->].
  - by intros [= ->].
  - destruct (Ascii.eqb_spec c c') as [->|]; [|done].
    intros H. by rewrite (IH _ H).
Qed.

Lemma take_drop_while (p : ascii -> bool) (s : list ascii) :
  take_while p s ++ drop_while p s = s.
Proof.
  induction s as [|c s IH]; simpl; [done|].
  destruct (p c); simpl; [by rewrite IH|done].
Qed.

Lemma exec_Cat (r1 r2 : regex) (s : list ascii) (caps : captures)
    (k : list ascii -> captures -> option R) :
  exec (r1 $$ r2) s caps k
  = exec r1 s caps (fun s' caps' => exec r2 s' caps' k).
Proof. reflexivity. Qed.

Lemma exec_Group (i : nat) (r : regex) (s : list ascii) (caps : captures)
    (k : list ascii -> captures -> option R) :
  exec (Group i r) s caps k
  = exec r s caps
      (fun s' caps' => k s' (<[i := take (length s - length s') s]> caps')).
Proof. reflexivity. Qed.

Lemma exec_lits (t : string) (s : list ascii) (caps : captures)
    (k : list ascii -> captures -> option R) :
  exec (lits t) s caps k
  = match strip_prefix (list_ascii_of_string t) s with
    | Some s' => k s' caps
    | None => None
    end.
Proof.
  unfold lits. revert s.
  induction (list_ascii_of_string t) as [|c l IH]; intros s; simpl; [done|].
  destruct s as [|c' s]; [done|].
  destruct (Ascii.eqb c c'); [apply IH|done].
Qed.

(** When what follows cannot start with a character of the run, the
    longest run is the only one tried with success. *)
Lemma greedy_longest (p : ascii -> bool) (s : list ascii)
    (k : list ascii -> option R) :
  (forall c s', p c = true -> k (c :: s') = None) ->
  greedy p s k = k (drop_while p s).
Proof.
  intros Hk. induction s as [|c s IH]; simpl; [done|].
  destruct (p c) eqn:E; [|done]. rewrite IH.
  destruct (k (drop_while p s)); [done|]. by apply Hk.
Qed.

(** The longest run is tried first. *)
Lemma greedy_first (p : ascii -> bool) (s : list ascii)
    (k : list ascii -> option R) (x : R) :
  k (drop_while p s) = Some x -> greedy p s k = Some x.
Proof.
  induction s as [|c s IH]; simpl; [done|].
  destruct (p c) eqn:E; [|done]. intros H. by rewrite (IH H).
Qed.

Lemma exec_repeat1_longest (p : ascii -> bool) (s : list ascii)
    (caps : captures) (k : list ascii -> captures -> option R) :
  (forall c s', p c = true -> k (c :: s') caps = None) ->
  exec (Repeat1 p) s caps k
  = match take_while p s with
    | [] => None
    | _ => k (drop_while p s) caps
    end.
Proof.
  intros Hk. destruct s as [|c s]; simpl; [done|].
  destruct (p c); [|done]. by apply greedy_longest.
Qed.
End MatcherFacts.

Lemma take_length_app {A : Type} (l1 l2 : list A) :
  take (length (l1 ++ l2) - length l2) (l1 ++ l2) = l1.
Proof.
  rewrite length_app.
  replace (length l1 + length l2 - length l2)%nat with (length l1) by lia.
  by rewrite take_app_length.
Qed.

Lemma is_word_dot : is_word "." = false.
Proof. reflexivity. Qed.

(** Matching a URL against the pattern with [separator] in the place of the
    dot before [org] is the scan from left to right. *)
Lemma exec_url_pattern (separator : regex) (sep : ascii -> bool) (u : list ascii) :
  (forall (s : list ascii) (caps : captures)
          (k : list ascii -> captures -> option (captures * list ascii)),
      exec separator s caps k
      = match s with
        | c :: s' => if sep c then k s' caps else None
        | [] => None
        end) ->
  exec (lits "https://"
        $$ Group 1 (Repeat1 is_word $$ lits ".wikipedia")
        $$ separator
        $$ lits "org/wiki/"
        $$ Group 2 (Repeat1 WikimediaRequest.not_slash_hash))
       u ∅ (fun rest caps => Some (caps, rest))
  = match url_scan sep u with
    | Some (project, article, rest) =>
        Some (<[2%nat := article]> (<[1%nat := project]> ∅), rest)
    | None => None
    end.
Proof.
  intros Hsep. unfold url_scan.
  rewrite exec_Cat, exec_lits.
  destruct (strip_prefix (list_ascii_of_string "https://") u) as [s1|] eqn:E1;
    [|done].
  cbn [mbind option_bind].
  rewrite exec_Cat, exec_Group, exec_Cat, exec_repeat1_longest.
  2:{ intros c s' Hc. rewrite exec_lits.
      change (list_ascii_of_string ".wikipedia")
        with ("."%char :: list_ascii_of_string "wikipedia").
      cbn [strip_prefix].
      destruct (Ascii.eqb_spec "." c) as [<-|]; [|done].
      by rewrite is_word_dot in Hc. }
  pose proof (take_drop_while is_word s1) as Hs1.
  destruct (take_while is_word s1) as [|w0 w] eqn:Ew; [done|].
  rewrite exec_lits.
  destruct (strip_prefix (list_ascii_of_string ".wikipedia")
              (drop_while is_word s1)) as [s2|] eqn:E2; [|done].
  cbn [mbind option_bind].
  apply strip_prefix_app in E2. rewrite E2 in Hs1.
  rewrite exec_Cat, Hsep. destruct s2 as [|c s3]; [done|].
  destruct (sep c); [|done].
  rewrite exec_Cat, exec_lits.
  destruct (strip_prefix (list_ascii_of_string "org/wiki/") s3) as [s4|] eqn:E4;
    [|done].
  cbn [mbind option_bind]. rewrite exec_Group.
  pose proof (take_drop_while WikimediaRequest.not_slash_hash s4) as Hs4.
  destruct s4 as [|a0 s4']; [done|]. cbn [take_while drop_while exec] in *.
  destruct (WikimediaRequest.not_slash_hash a0) eqn:Ea; [|done].
  erewrite greedy_first; [|reflexivity].
  do 2 f_equal.
  rewrite <- Hs4 at 1 2. rewrite take_length_app.
  f_equal. rewrite <- Hs1 at 1 2.
  rewrite (app_assoc (w0 :: w)), take_length_app. done.
Qed.

Lemma re_match_url_pattern (u : string) :
  re_match WikimediaRequest.url_pattern u
  = match url_scan any_but_newline (list_ascii_of_string u) with
    | Some (project, article, rest) =>
        Some (<[2%nat := article]> (<[1%nat := project]> ∅), rest)
    | None => None
    end.
Proof.
  unfold re_match, WikimediaRequest.url_pattern.
  apply exec_url_pattern. intros [|c s] caps k; [done|]. simpl.
  unfold any_but_newline. by destruct (Ascii.eqb c newline).
Qed.

Lemma re_match_spec_url_pattern (u : string) :
  re_match spec_url_pattern u
  = match url_scan (Ascii.eqb ".") (list_ascii_of_string u) with
    | Some (project, article, rest) =>
        Some (<[2%nat := article]> (<[1%nat := project]> ∅), rest)
    | None => None
    end.
Proof.
  unfold re_match.
  rewrite <- (exec_url_pattern (Lit ".") (Ascii.eqb ".")); [reflexivity|].
  by intros [|c s] caps k.
Qed.

Lemma parse_url_scan (r : WikimediaRequest.t) :
  WikimediaRequest._parse_url r
  = match url_scan any_but_newline
            (list_ascii_of_string (WikimediaRequest.url r)) with
    | Some (project, article, _) =>
        Ok (string_of_list_ascii project, string_of_list_ascii article)
    | None => Raise (WikimediaRequest.unprocessable (WikimediaRequest.url r))
    end.
Proof.
  unfold WikimediaRequest._parse_url. rewrite re_match_url_pattern.
  destruct (url_scan _ _) as [[[project article] rest]|]; [|done].
  unfold group. cbn [fst].
  rewrite lookup_insert_ne by done. by rewrite !lookup_insert_eq.
Qed.

Lemma url_scan_mono (sep1 sep2 : ascii -> bool) (u : list ascii)
    (x : list ascii * list ascii * list ascii) :
  (forall c, sep1 c = true -> sep2 c = true) ->
  url_scan sep1 u = Some x -> url_scan sep2 u = Some x.
Proof.
  intros Hsep. unfold url_scan.
  destruct (strip_prefix _ u) as [s1|]; [|done]. cbn [mbind option_bind].
  destruct (take_while is_word s1); [done|].
  destruct (strip_prefix _ (drop_while is_word s1)) as [[|c s3]|]; try done.
  cbn [mbind option_bind].
  destruct (sep1 c) eqn:E; [|done]. by rewrite (Hsep c E).
Qed.

(** On a URL that the pattern of the specification matches, the code returns
    the groups of that match. *)
Lemma parse_url_of_spec_match (r : WikimediaRequest.t)
    (m : captures * list ascii) :
  re_match spec_url_pattern (WikimediaRequest.url r) = Some m ->
  WikimediaRequest._parse_url r = Ok (group m 1, group m 2).
Proof.
  rewrite re_match_spec_url_pattern, parse_url_scan.
  destruct (url_scan (Ascii.eqb ".") _) as [[[project article] rest]|] eqn:E;
    [|done].
  intros [= <-].
  assert (forall c, Ascii.eqb "." c = true -> any_but_newline c = true) as Hsep.
  { intros c Hc. apply Ascii.eqb_eq in Hc as <-. reflexivity. }
  rewrite (url_scan_mono _ _ _ _ Hsep E).
  unfold group. cbn [fst].
  rewrite lookup_insert_ne by done. by rewrite !lookup_insert_eq.
Qed.

(** A URL that the code rejects is rejected with the unprocessable-URL
    error, and the pattern of the specification does not match it. *)
Lemma parse_url_failure (r : WikimediaRequest.t) (e : exn) :
  WikimediaRequest._parse_url r = Raise e ->
  e = WikimediaRequest.unprocessable (WikimediaRequest.url r)
  /\ re_match spec_url_pattern (WikimediaRequest.url r) = None.
Proof.
  intros He. split.
  - unfold WikimediaRequest._parse_url in He.
    destruct (re_match _ _); [done|]. by injection He as <-.
  - destruct (re_match spec_url_pattern _) as [m|] eqn:E; [|done].
    apply parse_url_of_spec_match in E. congruence.
Qed.

(** C1.  The code accepts a URL that the pattern of the claim does not match:
    any character but a newline may stand where the claim has the dot before
    [org]. *)
Theorem parse_url_accepts_any_separator :
  re_match spec_url_pattern "https://en.wikipediaXorg/wiki/Foo" = None
  /\ WikimediaRequest._parse_url
       (WikimediaRequest.mk_default "https://en.wikipediaXorg/wiki/Foo"
          (mkdate 2025 1 1) (mkdate 2025 1 10))
     = Ok ("en.wikipedia"%string, "Foo"%string)
  /\ WikimediaRequest.as_url
       (WikimediaRequest.mk_default "https://en.wikipediaXorg/wiki/Foo"
          (mkdate 2025 1 1) (mkdate 2025 1 10))
     = Ok "/en.wikipedia/all-access/user/Foo/daily/2025010100/2025011000"%string.
Proof. split; [|split]; reflexivity. Qed.

(** ** The event loop *)

Section AlterFacts.
Context (f : task -> task) (f_idem : forall t, f (f t) = f t).

Lemma lookup_alter_all (l : list nat) (w : world) (i : nat) :
  fold_left (fun w tid => alter f tid w) l w !! i
  = if bool_decide (i ∈ l) then f <$> w !! i else w !! i.
Proof.
  revert w. induction l as [|tid l IH]; intros w; simpl; [done|].
  rewrite IH. destruct (decide (i = tid)) as [->|Hne].
  - rewrite list_lookup_alter_eq.
    rewrite (bool_decide_eq_true_2 (tid ∈ tid :: l)) by constructor.
    destruct (w !! tid) as [t|]; simpl; [|by destruct (bool_decide _)].
    destruct (bool_decide (tid ∈ l)); simpl; by rewrite ?f_idem.
  - rewrite list_lookup_alter_ne by done.
    destruct (bool_decide (i ∈ l)) eqn:E.
    + apply bool_decide_eq_true in E.
      by rewrite bool_decide_eq_true_2 by by constructor.
    + apply bool_decide_eq_false in E.
      rewrite bool_decide_eq_false_2; [done|].
      rewrite elem_of_cons. tauto.
Qed.

Lemma length_alter_all (l : list nat) (w : world) :
  length (fold_left (fun w tid => alter f tid w) l w) = length w.
Proof.
  revert w. induction l as [|tid l IH]; intros w; simpl; [done|].
  by rewrite IH, length_alter.
Qed.
End AlterFacts.

Section LoopFacts.
Context (I : Interpreter) (net : network).

Local Abbreviation run := (WikimediaParser.get_page_statistics net).

Lemma settle_alter (w : world) (tid : nat) :
  WikimediaParser.settle net w tid = alter (settle_task run) tid w.
Proof.
  unfold WikimediaParser.settle.
  destruct (w !! tid) as [[req st]|] eqn:E.
  - destruct st.
    + apply list_eq. intros i. destruct (decide (i = tid)) as [->|].
      * rewrite list_lookup_alter_eq, E.
        rewrite list_lookup_insert_eq by (by eapply lookup_lt_Some). done.
      * by rewrite list_lookup_alter_ne, list_lookup_insert_ne.
    + apply list_eq. intros i. destruct (decide (i = tid)) as [->|].
      * by rewrite list_lookup_alter_eq, E.
      * by rewrite list_lookup_alter_ne.
    + apply list_eq. intros i. destruct (decide (i = tid)) as [->|].
      * by rewrite list_lookup_alter_eq, E.
      * by rewrite list_lookup_alter_ne.
  - apply list_eq. intros i. destruct (decide (i = tid)) as [->|].
    + by rewrite list_lookup_alter_eq, E.
    + by rewrite list_lookup_alter_ne.
Qed.

Lemma settle_task_idem (t : task) :
  settle_task run (settle_task run t) = settle_task run t.
Proof. destruct t as [req []]; done. Qed.

Lemma cancel_task_idem (t : task) : cancel_task (cancel_task t) = cancel_task t.
Proof. destruct t as [req []]; done. Qed.

Lemma settle_all_alter (l : list nat) (w : world) :
  fold_left (WikimediaParser.settle net) l w
  = fold_left (fun w tid => alter (settle_task run) tid w) l w.
Proof.
  revert w. induction l as [|tid l IH]; intros w; simpl; [done|].
  by rewrite settle_alter, IH.
Qed.

Lemma create_tasks (requests : list WikimediaRequest.t) (w : world) :
  for_each WikimediaParser.create_task requests w
  = (Ok (seq (length w) (length requests)),
     w ++ map (fun r => mk_task r Pending) requests).
Proof.
  revert w. induction requests as [|r rs IH]; intros w; simpl.
  - unfold ret. by rewrite app_nil_r.
  - unfold bindM at 1. unfold WikimediaParser.create_task at 1.
    unfold bindM. rewrite IH. unfold ret.
    rewrite length_app. simpl.
    replace (length w + 1)%nat with (S (length w)) by lia.
    by rewrite <- app_assoc.
Qed.

(** The handler of the [except] clause cancels what is pending. *)
Lemma cancel_loop (tids : list nat) (w : world) :
  exists flags,
    for_each
      (fun task =>
         bindM (WikimediaParser.task_done task)
           (fun finished =>
              if negb finished then WikimediaParser.task_cancel task
              else ret false))
      tids w
    = (Ok flags, fold_left (fun w tid => alter cancel_task tid w) tids w).
Proof.
  revert w. induction tids as [|tid tids IH]; intros w; simpl.
  - by exists [].
  - assert (exists b,
               bindM (WikimediaParser.task_done tid)
                 (fun finished =>
                    if negb finished then WikimediaParser.task_cancel tid
                    else ret false) w
               = (Ok b, alter cancel_task tid w)) as [b Hb].
    { unfold bindM, WikimediaParser.task_done, WikimediaParser.task_cancel,
        ret.
      destruct (w !! tid) as [[req st]|] eqn:E.
      - destruct st; simpl; rewrite ?E; eexists; f_equal.
        + apply list_eq. intros i. destruct (decide (i = tid)) as [->|].
          * rewrite list_lookup_alter_eq, E.
            by rewrite list_lookup_insert_eq by (by eapply lookup_lt_Some).
          * by rewrite list_lookup_alter_ne, list_lookup_insert_ne.
        + apply list_eq. intros i. destruct (decide (i = tid)) as [->|].
          * by rewrite list_lookup_alter_eq, E.
          * by rewrite list_lookup_alter_ne.
        + apply list_eq. intros i. destruct (decide (i = tid)) as [->|].
          * by rewrite list_lookup_alter_eq, E.
          * by rewrite list_lookup_alter_ne.
      - simpl. eexists. f_equal.
        apply list_eq. intros i. destruct (decide (i = tid)) as [->|].
        + by rewrite list_lookup_alter_eq, E.
        + by rewrite list_lookup_alter_ne. }
    destruct (IH (alter cancel_task tid w)) as [flags Hflags].
    exists (b :: flags). unfold bindM at 1. rewrite Hb.
    unfold bindM at 1. rewrite Hflags. done.
Qed.

Lemma settle_pending (w : world) (tid : nat) (req : WikimediaRequest.t) :
  w !! tid = Some (mk_task req Pending) ->
  WikimediaParser.outcome_of (WikimediaParser.settle net w tid) tid
  = Some (run req).
Proof.
  intros E. unfold WikimediaParser.outcome_of. rewrite settle_alter.
  by rewrite list_lookup_alter_eq, E.
Qed.

Lemma settle_other (w : world) (tid i : nat) :
  i <> tid -> WikimediaParser.settle net w tid !! i = w !! i.
Proof. intros Hne. rewrite settle_alter. by rewrite list_lookup_alter_ne. Qed.

(** No task of [order] raises: all of them finish. *)
Lemma run_until_failure_ok (order : list nat) (w : world) :
  NoDup order ->
  (forall tid, tid ∈ order ->
     exists req, w !! tid = Some (mk_task req Pending)
                 /\ is_ok (run req) = true) ->
  WikimediaParser.run_until_failure net order w
  = (None, [], fold_left (WikimediaParser.settle net) order w).
Proof.
  revert w. induction order as [|tid order IH]; intros w Hnd Hall; [done|].
  apply NoDup_cons in Hnd as [Hnotin Hnd].
  destruct (Hall tid) as (req & Hreq & Hok); [constructor|].
  cbn [WikimediaParser.run_until_failure fold_left].
  rewrite (settle_pending _ _ _ Hreq).
  destruct (run req) as [st|e] eqn:Erun; [|done].
  apply IH; [done|]. intros j Hj.
  destruct (Hall j) as (reqj & Hreqj & Hokj); [by constructor|].
  exists reqj. split; [|done].
  rewrite settle_other; [done|]. intros ->. done.
Qed.

(** The tasks of [pre] finish, then [f] raises [e]. *)
Lemma run_until_failure_fail (pre post : list nat) (f : nat) (w : world)
    (req : WikimediaRequest.t) (e : exn) :
  NoDup (pre ++ f :: post) ->
  (forall tid, tid ∈ pre ->
     exists req, w !! tid = Some (mk_task req Pending)
                 /\ is_ok (run req) = true) ->
  w !! f = Some (mk_task req Pending) ->
  run req = Raise e ->
  WikimediaParser.run_until_failure net (pre ++ f :: post) w
  = (Some e, post, fold_left (WikimediaParser.settle net) (pre ++ [f]) w).
Proof.
  revert w. induction pre as [|tid pre IH]; intros w Hnd Hall Hf He.
  - cbn [app WikimediaParser.run_until_failure fold_left].
    by rewrite (settle_pending _ _ _ Hf), He.
  - cbn [app] in Hnd. apply NoDup_cons in Hnd as [Hnotin Hnd].
    destruct (Hall tid) as (reqt & Hreqt & Hok); [constructor|].
    cbn [app WikimediaParser.run_until_failure fold_left].
    rewrite (settle_pending _ _ _ Hreqt).
    destruct (run reqt) as [st|e'] eqn:Erun; [|done].
    apply IH; [done| | |done].
    + intros j Hj.
      destruct (Hall j) as (reqj & Hreqj & Hokj); [by constructor|].
      exists reqj. split; [|done].
      rewrite settle_other; [done|]. intros ->.
      apply Hnotin, elem_of_app. by left.
    + rewrite settle_other; [done|]. intros ->.
      apply Hnotin, elem_of_app. right. constructor.
Qed.

Lemma alter_all_suffix (f : task -> task) (l : list nat) (w ts : world) :
  (forall t, f (f t) = f t) ->
  (forall tid, tid ∈ l -> (length w <= tid)%nat) ->
  fold_left (fun w tid => alter f tid w) l (w ++ ts)
  = w ++ imap (fun j t =>
                 if bool_decide ((length w + j)%nat ∈ l) then f t else t) ts.
Proof.
  intros Hidem Hl. apply list_eq. intros i.
  rewrite (lookup_alter_all f Hidem).
  destruct (decide (i < length w)%nat) as [Hi|Hi].
  - rewrite !lookup_app_l by done.
    rewrite bool_decide_eq_false_2; [done|].
    intros Hin. apply Hl in Hin. lia.
  - rewrite !lookup_app_r by lia. rewrite list_lookup_imap.
    replace (length w + (i - length w))%nat with i by lia.
    destruct (bool_decide (i ∈ l)); [done|].
    by destruct (ts !! (i - length w)%nat).
Qed.

Lemma first_failing_split {A : Type} (bad : A -> bool) (l : list A) :
  Exists (fun x => bad x = true) l ->
  exists pre f post,
    l = pre ++ f :: post
    /\ Forall (fun x => bad x = false) pre /\ bad f = true.
Proof.
  induction 1 as [x l Hx|x l _ IH].
  - exists [], x, l. split_and!; [done|constructor|done].
  - destruct (bad x) eqn:E.
    + exists [], x, l. split_and!; [done|constructor|done].
    + destruct IH as (pre & f & post & -> & Hpre & Hf).
      exists (x :: pre), f, post. split_and!; [done|by constructor|done].
Qed.

Lemma Nat_ltb_asym (a b : nat) : (a <? b)%nat = true -> (b <? a)%nat = false.
Proof.
  intros H. apply Nat.ltb_lt in H. apply Nat.ltb_ge. lia.
Qed.

Lemma Nat_leb_trans (a b c : nat) :
  (b <? a)%nat = false -> (c <? b)%nat = false -> (c <? a)%nat = false.
Proof. rewrite !Nat.ltb_ge. lia. Qed.

Lemma lookup_pending (w : world) (requests : list WikimediaRequest.t)
    (tid : nat) :
  tid ∈ seq (length w) (length requests) ->
  exists req,
    (w ++ pending requests) !! tid = Some (mk_task req Pending)
    /\ requests !! (tid - length w)%nat = Some req.
Proof.
  rewrite elem_of_seq. intros [Hlo Hhi].
  destruct (lookup_lt_is_Some_2 requests (tid - length w)%nat) as [req Hreq];
    [lia|].
  exists req. split; [|done].
  rewrite lookup_app_r by lia. unfold pending.
  change (map ?f ?l) with (f <$> l). by rewrite list_lookup_fmap, Hreq.
Qed.

Lemma when_done_pending (w : world) (tid : nat) (req : WikimediaRequest.t)
    (st : task_state) :
  w !! tid = Some (mk_task req st) ->
  WikimediaParser.when_done net w tid = WikimediaParser.finish_time net req.
Proof. intros E. unfold WikimediaParser.when_done. by rewrite E. Qed.

(** A task of the chunk raises: the wait ends with the exception of the
    one that raises first, and only tasks of the chunk have finished. *)
Lemma gather_fail (w : world) (requests : list WikimediaRequest.t) :
  Exists (fun r => is_ok (run r) = false) requests ->
  exists e settled first jf pre post,
    WikimediaParser.gather net (seq (length w) (length requests))
      (w ++ pending requests)
    = (Raise e,
       fold_left (fun w tid => alter (settle_task run) tid w) settled
         (w ++ pending requests))
    /\ (forall tid, tid ∈ settled ->
                    tid ∈ seq (length w) (length requests))
    /\ (length w + jf)%nat ∈ settled
    /\ requests !! jf = Some first
    /\ run first = Raise e
    /\ (forall r, r ∈ requests -> is_ok (run r) = false ->
                  (WikimediaParser.finish_time net first
                   <= WikimediaParser.finish_time net r)%nat)
    /\ finish_order net (w ++ pending requests)
         (seq (length w) (length requests))
       = pre ++ (length w + jf)%nat :: post
    /\ settled = (pre ++ [(length w + jf)%nat]) ++ take (overrun net) post
    /\ Forall (fun tid =>
                 exists req, requests !! (tid - length w)%nat = Some req
                             /\ is_ok (run req) = true) pre.
Proof.
  intros Hex.
  set (w1 := w ++ pending requests).
  set (tids := seq (length w) (length requests)).
  set (order := sorted (WikimediaParser.when_done net w1) Nat.ltb tids).
  assert (Permutation order tids) as Hperm by apply sorted_perm.
  assert (NoDup order) as Hnd.
  { rewrite Hperm. apply NoDup_seq. }
  set (bad := fun tid =>
                match w1 !! tid with
                | Some t => negb (is_ok (run (coro t)))
                | None => false
                end).
  assert (Exists (fun tid => bad tid = true) order) as Hbad.
  { apply Exists_exists in Hex as (r & Hr & Hfail).
    apply list_elem_of_lookup in Hr as [j Hj].
    apply Exists_exists. exists (length w + j)%nat. split.
    - rewrite Hperm. apply elem_of_seq.
      apply lookup_lt_Some in Hj. lia.
    - subst bad. cbv beta. subst w1.
      rewrite lookup_app_r by lia.
      replace (length w + j - length w)%nat with j by lia.
      unfold pending. change (map ?f ?l) with (f <$> l).
      rewrite list_lookup_fmap, Hj. simpl. by rewrite Hfail. }
  apply first_failing_split in Hbad as (pre & f & post & Horder & Hpre & Hf).
  assert (forall tid, tid ∈ order -> tid ∈ tids) as Hin.
  { intros tid. by rewrite Hperm. }
  destruct (lookup_pending w requests f) as (first & Hfirst & Hjf).
  { apply Hin. rewrite Horder. apply elem_of_app. right. constructor. }
  fold w1 in Hfirst.
  assert (exists e, run first = Raise e) as [e He].
  { subst bad. cbv beta in Hf. rewrite Hfirst in Hf. simpl in Hf.
    destruct (run first) as [|e]; [done|by exists e]. }
  exists e, ((pre ++ [f]) ++ take (overrun net) post), first,
    (f - length w)%nat, pre, post.
  assert (length w <= f)%nat as Hflo.
  { assert (f ∈ tids) as Hft.
    { apply Hin. rewrite Horder. apply elem_of_app. right. constructor. }
    apply elem_of_seq in Hft. lia. }
  replace (length w + (f - length w))%nat with f by lia.
  split_and!.
  - unfold WikimediaParser.gather. fold w1 tids order. rewrite Horder.
    rewrite (run_until_failure_fail pre post f w1 first e);
      [|by rewrite <- Horder| |done|done].
    + f_equal. rewrite <- fold_left_app. apply settle_all_alter.
    + intros tid Htid.
      destruct (lookup_pending w requests tid) as (req & Hreq & _).
      { apply Hin. rewrite Horder. apply elem_of_app. by left. }
      exists req. split; [done|].
      rewrite Forall_forall in Hpre. specialize (Hpre tid Htid).
      subst bad. cbv beta in Hpre. fold w1 in Hreq. rewrite Hreq in Hpre.
      simpl in Hpre. by destruct (is_ok (run req)).
  - intros tid Htid. apply Hin. rewrite Horder.
    rewrite !elem_of_app in Htid. rewrite elem_of_app, elem_of_cons.
    destruct Htid as [[Htid|Htid]|Htid]; [by left| |].
    + apply list_elem_of_singleton in Htid. by right; left.
    + apply elem_of_take in Htid as (i & Hi & _).
      right; right. by eapply list_elem_of_lookup_2.
  - rewrite !elem_of_app. left; right. constructor.
  - done.
  - done.
  - intros r Hr Hfail.
    apply list_elem_of_lookup in Hr as [j Hj].
    set (tid := (length w + j)%nat).
    assert (w1 !! tid = Some (mk_task r Pending)) as Hlook.
    { subst w1 tid. rewrite lookup_app_r by lia.
      replace (length w + j - length w)%nat with j by lia.
      unfold pending. change (map ?f ?l) with (f <$> l).
      by rewrite list_lookup_fmap, Hj. }
    assert (tid ∈ order) as Htid.
    { rewrite Hperm. apply elem_of_seq.
      apply lookup_lt_Some in Hj. subst tid. lia. }
    rewrite Horder in Htid.
    apply elem_of_app in Htid as [Htid|Htid].
    { rewrite Forall_forall in Hpre. specialize (Hpre tid Htid).
      subst bad. cbv beta in Hpre. rewrite Hlook in Hpre. simpl in Hpre.
      by rewrite Hfail in Hpre. }
    apply elem_of_cons in Htid as [Htid|Htid].
    { rewrite Htid in Hlook. rewrite Hfirst in Hlook.
      by injection Hlook as ->. }
    pose proof (sorted_sorted (WikimediaParser.when_done net w1) Nat.ltb
                  Nat_ltb_asym Nat_leb_trans tids) as Hs.
    fold order in Hs. rewrite Horder in Hs.
    replace (pre ++ f :: post) with ((pre ++ [f]) ++ post) in Hs
      by by rewrite <- app_assoc.
    assert (in_order (WikimediaParser.when_done net w1) Nat.ltb f tid) as Ho.
    { eapply sorted_app_in_order; [exact Hs| |done].
      apply elem_of_app. right. constructor. }
    unfold in_order in Ho.
    rewrite (when_done_pending _ _ _ _ Hlook) in Ho.
    rewrite (when_done_pending _ _ _ _ Hfirst) in Ho.
    by apply Nat.ltb_ge in Ho.
  - done.
  - done.
  - apply Forall_forall. intros tid Htid.
    destruct (lookup_pending w requests tid) as (req & Hreq & Hlook).
    { apply Hin. rewrite Horder. apply elem_of_app. by left. }
    exists req. split; [done|].
    rewrite Forall_forall in Hpre. specialize (Hpre tid Htid).
    subst bad. cbv beta in Hpre. fold w1 in Hreq. rewrite Hreq in Hpre.
    simpl in Hpre. by destruct (is_ok (run req)).
Qed.

Lemma omap_cons_Some {A B : Type} (g : A -> option B) (x : A) (l : list A)
    (y : B) :
  g x = Some y -> omap g (x :: l) = y :: omap g l.
Proof. intros H. simpl. by rewrite H. Qed.

Lemma results_of_finished (w : world) (requests : list WikimediaRequest.t) :
  Forall (fun r => is_ok (run r) = true) requests ->
  exists results,
    omap (fun tid =>
            match WikimediaParser.outcome_of (w ++ finished run requests) tid
            with
            | Some (Ok st) => Some st
            | _ => None
            end) (seq (length w) (length requests)) = results
    /\ map Ok results = map run requests.
Proof.
  intros Hall. revert w.
  induction Hall as [|r rs Hr _ IH]; intros w; [by exists []|].
  destruct (run r) as [st|] eqn:Er; [|done].
  destruct (IH (w ++ [mk_task r (Done (run r))])) as (results & Hres & Hmap).
  exists (st :: results). split; [|simpl; by rewrite Er, Hmap].
  cbn [length seq].
  rewrite (omap_cons_Some _ _ _ st).
  - f_equal. rewrite <- Hres. rewrite length_app. cbn [length].
    replace (length w + 1)%nat with (S (length w)) by lia.
    unfold finished. rewrite <- app_assoc. reflexivity.
  - unfold WikimediaParser.outcome_of, finished. cbn [map].
    rewrite lookup_app_r by lia. rewrite Nat.sub_diag. simpl. by rewrite Er.
Qed.

(** No task of the chunk raises: all finish, and the results come back in
    the order of the requests. *)
Lemma gather_ok (w : world) (requests : list WikimediaRequest.t) :
  Forall (fun r => is_ok (run r) = true) requests ->
  exists results,
    WikimediaParser.gather net (seq (length w) (length requests))
      (w ++ pending requests)
    = (Ok results, w ++ finished run requests)
    /\ map Ok results = map run requests.
Proof.
  intros Hall.
  set (w1 := w ++ pending requests).
  set (tids := seq (length w) (length requests)).
  set (order := sorted (WikimediaParser.when_done net w1) Nat.ltb tids).
  assert (Permutation order tids) as Hperm by apply sorted_perm.
  assert (NoDup order) as Hnd by (rewrite Hperm; apply NoDup_seq).
  assert (fold_left (WikimediaParser.settle net) order w1
          = w ++ finished run requests) as Hworld.
  { rewrite settle_all_alter. subst w1.
    rewrite (alter_all_suffix _ _ _ _ settle_task_idem).
    2:{ intros tid Htid. rewrite Hperm in Htid.
        apply elem_of_seq in Htid. lia. }
    f_equal. apply list_eq. intros j.
    rewrite list_lookup_imap. unfold pending, finished.
    change (map ?f ?l) with (f <$> l). rewrite !list_lookup_fmap.
    destruct (requests !! j) as [r|] eqn:Ej; [|done]. simpl.
    rewrite bool_decide_eq_true_2; [done|].
    rewrite Hperm. apply elem_of_seq. apply lookup_lt_Some in Ej. lia. }
  destruct (results_of_finished w requests Hall) as (results & Hres & Hmap).
  exists results. split; [|done].
  unfold WikimediaParser.gather. fold w1 tids order.
  rewrite run_until_failure_ok; [|done|].
  - rewrite Hworld. subst order tids. by rewrite Hres.
  - intros tid Htid. rewrite Hperm in Htid.
    destruct (lookup_pending w requests tid Htid) as (req & Hreq & Hj).
    exists req. split; [done|].
    rewrite Forall_forall in Hall. apply Hall.
    by eapply list_elem_of_lookup_2.
Qed.

Section with_arguments.
Context (start_date end_date : date) (granularity : DateGranularity)
        (access : AccessType) (agent : UserAgent).

Local Abbreviation request_for :=
  (WikimediaParser.request_for start_date end_date granularity access agent).
Local Abbreviation for_chunks :=
  (WikimediaParser.for_chunks net start_date end_date granularity access
     agent).

(** A chunk without failure: its results are collected and the loop goes
    on with the next chunk. *)
Lemma chunk_ok (chunk : list string) (later : list (list string))
    (collected : list PageStatistics.t) (w : world) :
  Forall (fun r => is_ok (run r) = true) (map request_for chunk) ->
  exists results,
    for_chunks (chunk :: later) collected w
    = for_chunks later (collected ++ results)
        (w ++ finished run (map request_for chunk))
    /\ map Ok results = map run (map request_for chunk).
Proof.
  intros Hall.
  destruct (gather_ok w _ Hall) as (results & Hgather & Hmap).
  exists results. split; [|done].
  cbn [WikimediaParser.for_chunks]. unfold bindM at 1.
  rewrite create_tasks. fold (pending (map request_for chunk)).
  unfold bindM at 1. unfold try_except. unfold bindM at 1.
  rewrite Hgather. done.
Qed.

(** A chunk with a failure: the loop ends there. *)
Lemma chunk_fail (chunk : list string) (later : list (list string))
    (collected : list PageStatistics.t) (w : world) :
  Exists (fun r => is_ok (run r) = false) (map request_for chunk) ->
  exists e settled first jf pre post,
    for_chunks (chunk :: later) collected w
    = (Raise e,
       w ++ handled run (length w) settled (map request_for chunk))
    /\ (length w + jf)%nat ∈ settled
    /\ map request_for chunk !! jf = Some first
    /\ run first = Raise e
    /\ (forall r, r ∈ map request_for chunk -> is_ok (run r) = false ->
                  (WikimediaParser.finish_time net first
                   <= WikimediaParser.finish_time net r)%nat)
    /\ finish_order net (w ++ pending (map request_for chunk))
         (seq (length w) (length (map request_for chunk)))
       = pre ++ (length w + jf)%nat :: post
    /\ settled = (pre ++ [(length w + jf)%nat]) ++ take (overrun net) post
    /\ Forall (fun tid =>
                 exists req,
                   map request_for chunk !! (tid - length w)%nat = Some req
                   /\ is_ok (run req) = true) pre.
Proof.
  intros Hex.
  destruct (gather_fail w _ Hex)
    as (e & settled & first & jf & pre & post & Hgather & Hsub & Hjf
        & Hfirst & He & Hmin & Horder & Hsettled & Hpre).
  exists e, settled, first, jf, pre, post. split_and!; try done.
  cbn [WikimediaParser.for_chunks]. unfold bindM at 1.
  rewrite create_tasks. fold (pending (map request_for chunk)).
  unfold bindM at 1. unfold try_except. unfold bindM at 1.
  rewrite Hgather.
  set (tids := seq (length w) (length (map request_for chunk))).
  set (w2 := fold_left _ settled _).
  destruct (cancel_loop tids w2) as [flags Hflags].
  unfold bindM at 1. rewrite Hflags. unfold raise. f_equal.
  subst w2.
  rewrite (alter_all_suffix _ _ _ _ settle_task_idem).
  2:{ intros tid Htid. apply Hsub, elem_of_seq in Htid. lia. }
  rewrite (alter_all_suffix _ _ _ _ cancel_task_idem).
  2:{ intros tid Htid. apply elem_of_seq in Htid. lia. }
  f_equal. apply list_eq. intros j. unfold handled, pending.
  rewrite !list_lookup_imap. change (map ?f ?l) with (f <$> l).
  rewrite !list_lookup_fmap.
  destruct (chunk !! j) as [page|] eqn:Ej; [|done]. simpl.
  rewrite (bool_decide_eq_true_2 (_ ∈ tids)).
  2:{ apply elem_of_seq. apply lookup_lt_Some in Ej.
      rewrite length_fmap. lia. }
  by destruct (bool_decide (_ ∈ settled)).
Qed.

Lemma ok_or_fail (requests : list WikimediaRequest.t) :
  Forall (fun r => is_ok (run r) = true) requests
  \/ Exists (fun r => is_ok (run r) = false) requests.
Proof.
  induction requests as [|r rs [IH|IH]].
  - left. constructor.
  - destruct (is_ok (run r)) eqn:E.
    + left. by constructor.
    + right. by constructor.
  - right. by constructor.
Qed.

(** The chunks before the first failure are collected in order. *)
Lemma for_chunks_ok_prefix (done_chunks rest : list (list string))
    (collected : list PageStatistics.t) (w : world) :
  Forall (fun r => is_ok (run r) = true)
    (map request_for (concat done_chunks)) ->
  exists results,
    for_chunks (done_chunks ++ rest) collected w
    = for_chunks rest (collected ++ results)
        (w ++ finished run (map request_for (concat done_chunks)))
    /\ map Ok results = map run (map request_for (concat done_chunks)).
Proof.
  revert collected w.
  induction done_chunks as [|chunk done_chunks IH]; intros collected w Hall.
  - exists []. by rewrite !app_nil_r.
  - cbn [concat] in Hall. rewrite map_app in Hall.
    apply Forall_app in Hall as [Hchunk Hrest].
    destruct (chunk_ok chunk (done_chunks ++ rest) collected w Hchunk)
      as (results1 & Hrun1 & Hmap1).
    destruct (IH (collected ++ results1)
                (w ++ finished run (map request_for chunk)) Hrest)
      as (results2 & Hrun2 & Hmap2).
    exists (results1 ++ results2). split.
    + cbn [app]. rewrite Hrun1, Hrun2. cbn [concat].
      unfold finished. rewrite !map_app, <- !app_assoc. done.
    + cbn [concat]. rewrite !map_app. by rewrite Hmap1, Hmap2.
Qed.

Lemma handled_coro (offset : nat) (settled : list nat)
    (requests : list WikimediaRequest.t) :
  map coro (handled run offset settled requests) = requests.
Proof.
  apply list_eq. intros j. unfold handled.
  change (map ?f ?l) with (f <$> l).
  rewrite list_lookup_fmap, list_lookup_imap.
  by destruct (requests !! j).
Qed.

Lemma finished_coro (requests : list WikimediaRequest.t) :
  map coro (finished run requests) = requests.
Proof.
  unfold finished. rewrite map_map. simpl. apply map_id.
Qed.

Lemma handled_states (offset : nat) (settled : list nat)
    (requests : list WikimediaRequest.t) :
  Forall (fun t => state t = Done (run (coro t)) \/ state t = Cancelled)
    (handled run offset settled requests).
Proof.
  apply Forall_lookup. intros j t. unfold handled.
  rewrite list_lookup_imap.
  destruct (requests !! j) as [r|]; [|done]. simpl. intros [= <-]. simpl.
  destruct (bool_decide _); tauto.
Qed.

Lemma handled_settled (offset : nat) (settled : list nat)
    (requests : list WikimediaRequest.t) (j : nat)
    (r : WikimediaRequest.t) :
  requests !! j = Some r -> (offset + j)%nat ∈ settled ->
  mk_task r (Done (run r)) ∈ handled run offset settled requests.
Proof.
  intros Hj Hin. apply list_elem_of_lookup. exists j. unfold handled.
  rewrite list_lookup_imap, Hj. simpl.
  by rewrite bool_decide_eq_true_2.
Qed.

Lemma lookup_handled (w : world) (settled : list nat)
    (requests : list WikimediaRequest.t) (tid : nat) :
  tid ∈ seq (length w) (length requests) ->
  exists r,
    requests !! (tid - length w)%nat = Some r
    /\ (w ++ handled run (length w) settled requests) !! tid
       = Some (mk_task r (if bool_decide (tid ∈ settled)
                          then Done (run r) else Cancelled)).
Proof.
  rewrite elem_of_seq. intros [Hlo Hhi].
  destruct (lookup_lt_is_Some_2 requests (tid - length w)%nat) as [r Hr];
    [lia|].
  exists r. split; [done|].
  rewrite lookup_app_r by lia. unfold handled.
  rewrite list_lookup_imap, Hr. simpl.
  by replace (length w + (tid - length w))%nat with tid by lia.
Qed.

(** Handling the failure does not change the order in which the tasks
    finish: it depends on their requests only. *)
Lemma finish_order_handled (w : world) (settled : list nat)
    (requests : list WikimediaRequest.t) :
  finish_order net (w ++ handled run (length w) settled requests)
    (seq (length w) (length requests))
  = finish_order net (w ++ pending requests)
      (seq (length w) (length requests)).
Proof.
  apply sorted_ext. intros tid Htid.
  destruct (lookup_handled w settled requests tid Htid) as (r & Hr & Hlook).
  destruct (lookup_pending w requests tid Htid) as (r' & Hlook' & Hr').
  rewrite Hr in Hr'. injection Hr' as <-.
  by rewrite (when_done_pending _ _ _ _ Hlook),
    (when_done_pending _ _ _ _ Hlook').
Qed.

(** Whatever happens, the tasks that the loop creates are those of the
    pages of the chunks, in order, up to some page; of all pages when
    the loop returns. *)
Lemma for_chunks_tasks (chunks : list (list string))
    (collected : list PageStatistics.t) (w : world) :
  exists res ts fetched,
    for_chunks chunks collected w = (res, w ++ ts)
    /\ map coro ts = map request_for fetched
    /\ fetched `prefix_of` concat chunks
    /\ (is_ok res = true -> fetched = concat chunks).
Proof.
  revert collected w.
  induction chunks as [|chunk chunks IH]; intros collected w.
  - exists (Ok collected), [], []. cbn. unfold ret.
    rewrite app_nil_r. split_and!; done.
  - destruct (ok_or_fail (map request_for chunk)) as [Hok|Hfail].
    + destruct (chunk_ok chunk chunks collected w Hok)
        as (results & Hrun & _).
      destruct (IH (collected ++ results)
                  (w ++ finished run (map request_for chunk)))
        as (res & ts & fetched & Hrest & Hcoro & Hpre & Hall).
      exists res, (finished run (map request_for chunk) ++ ts),
        (chunk ++ fetched).
      split_and!.
      * by rewrite Hrun, Hrest, <- app_assoc.
      * by rewrite !map_app, finished_coro, Hcoro.
      * cbn [concat]. by apply prefix_app.
      * intros Hres. cbn [concat]. by rewrite Hall.
    + destruct (chunk_fail chunk chunks collected w Hfail)
        as (e & settled & first & jf & pre & post & Hrun & _).
      exists (Raise e),
        (handled run (length w) settled (map request_for chunk)), chunk.
      split_and!; [done|apply handled_coro| |done].
      cbn [concat]. by apply prefix_app_r.
Qed.
End with_arguments.
End LoopFacts.

(** C4.  When a task of a chunk raises while the tasks of all chunks before it
    have returned, the operation raises the exception of the task of that
    chunk that raises first, so it returns no statistics, and no task has
    been created for a page of a later chunk.  Of the tasks of the chunk, in
    the order in which they finish, those before the one that raised have
    returned; of those after it, the first [overrun net], which complete
    before the handler runs, have run to their end, and every other one,
    not completed when the handler runs, is cancelled; none is left
    pending. *)
Theorem failure_cancels_chunk_and_aborts (I : Interpreter) (net : network)
    (start_date end_date : date) (granularity : DateGranularity)
    (access : AccessType) (agent : UserAgent)
    (pages : list string) (chunk_size : Z)
    (done_chunks : list (list string)) (chunk : list string)
    (later : list (list string)) :
  WikimediaParser.page_chunks pages chunk_size
  = Ok (done_chunks ++ chunk :: later) ->
  Forall (fun page =>
            is_ok (WikimediaParser.get_page_statistics net
                     (WikimediaParser.request_for start_date end_date
                        granularity access agent page)) = true)
         (concat done_chunks) ->
  Exists (fun page =>
            is_ok (WikimediaParser.get_page_statistics net
                     (WikimediaParser.request_for start_date end_date
                        granularity access agent page)) = false)
         chunk ->
  exists (e : exn) (first : string) (chunk_tasks table : world)
         (before after : list nat) (f : nat),
    table
    = finished (WikimediaParser.get_page_statistics net)
        (map (WikimediaParser.request_for start_date end_date granularity
                access agent) (concat done_chunks))
      ++ chunk_tasks
    /\ WikimediaParser.get_multiple_pages_statistics net start_date end_date
         granularity access agent pages chunk_size []
       = (Raise e, table)
    /\ first ∈ chunk
    /\ WikimediaParser.get_page_statistics net
         (WikimediaParser.request_for start_date end_date granularity access
            agent first) = Raise e
    /\ (forall page,
           page ∈ chunk ->
           is_ok (WikimediaParser.get_page_statistics net
                    (WikimediaParser.request_for start_date end_date
                       granularity access agent page)) = false ->
           (WikimediaParser.finish_time net
              (WikimediaParser.request_for start_date end_date granularity
                 access agent first)
            <= WikimediaParser.finish_time net
                 (WikimediaParser.request_for start_date end_date granularity
                    access agent page))%nat)
    /\ map coro chunk_tasks
       = map (WikimediaParser.request_for start_date end_date granularity
                access agent) chunk
    /\ Forall (fun t =>
                 state t = Done (WikimediaParser.get_page_statistics net (coro t))
                 \/ state t = Cancelled) chunk_tasks
    /\ finish_order net table
         (seq (length (concat done_chunks)) (length chunk))
       = before ++ f :: after
    /\ table !! f
       = Some (mk_task (WikimediaParser.request_for start_date end_date
                          granularity access agent first) (Done (Raise e)))
    /\ Forall (fun tid =>
                 exists r st,
                   table !! tid = Some (mk_task r (Done (Ok st)))
                   /\ WikimediaParser.get_page_statistics net r = Ok st)
         before
    /\ Forall (fun tid =>
                 exists r,
                   table !! tid
                   = Some (mk_task r
                             (Done (WikimediaParser.get_page_statistics net r))))
         (take (overrun net) after)
    /\ Forall (fun tid => exists r, table !! tid = Some (mk_task r Cancelled))
         (drop (overrun net) after).
Proof.
  intros Hchunks Hdone Hfail.
  set (request_for := WikimediaParser.request_for start_date end_date
                        granularity access agent) in *.
  set (run := WikimediaParser.get_page_statistics net) in *.
  assert (Forall (fun r => is_ok (run r) = true)
            (map request_for (concat done_chunks))) as Hdone'.
  { apply Forall_forall. intros r Hr.
    apply list_elem_of_In, in_map_iff in Hr as (page & <- & Hpage).
    rewrite Forall_forall in Hdone. apply Hdone. by apply list_elem_of_In. }
  assert (Exists (fun r => is_ok (run r) = false) (map request_for chunk))
    as Hfail'.
  { apply Exists_exists in Hfail as (page & Hpage & Hbad).
    apply Exists_exists. exists (request_for page). split; [|done].
    apply list_elem_of_In, in_map, list_elem_of_In, Hpage. }
  destruct (for_chunks_ok_prefix I net start_date end_date granularity access
              agent done_chunks (chunk :: later) [] [] Hdone')
    as (results & Hprefix & _).
  destruct (chunk_fail I net start_date end_date granularity access agent
              chunk later ([] ++ results)
              ([] ++ finished run (map request_for (concat done_chunks)))
              Hfail')
    as (e & settled & first & jf & pre & post & Hrun & Hjf & Hfirst & He
        & Hmin & Horder & Hsettled & Hpre).
  change (map ?f ?l !! jf) with ((f <$> l) !! jf) in Hfirst.
  rewrite list_lookup_fmap in Hfirst.
  destruct (chunk !! jf) as [page|] eqn:Epage; [|done].
  injection Hfirst as <-.
  fold request_for run in Hrun, Horder, Hpre.
  assert (WikimediaParser.get_multiple_pages_statistics net start_date
            end_date granularity access agent pages chunk_size []
          = (Raise e,
             ([] ++ finished run (map request_for (concat done_chunks)))
             ++ handled run
                  (length ([] ++ finished run
                                   (map request_for (concat done_chunks))))
                  settled (map request_for chunk))) as Hfull.
  { unfold WikimediaParser.get_multiple_pages_statistics.
    rewrite Hchunks. fold request_for. rewrite Hprefix. exact Hrun. }
  set (w := [] ++ finished run (map request_for (concat done_chunks))) in *.
  set (requests := map request_for chunk) in *.
  assert (length w = length (concat done_chunks)) as Hw.
  { subst w. cbn [app]. unfold finished. by rewrite !length_map. }
  assert (length requests = length chunk) as Hrequests.
  { subst requests. by rewrite length_map. }
  rewrite <- (finish_order_handled I net w settled requests) in Horder.
  set (table := w ++ handled run (length w) settled requests) in *.
  assert (Permutation (pre ++ (length w + jf)%nat :: post)
            (seq (length w) (length requests))) as Hperm.
  { rewrite <- Horder. apply sorted_perm. }
  assert (NoDup ((pre ++ [(length w + jf)%nat])
                 ++ take (overrun net) post ++ drop (overrun net) post))
    as Hnd.
  { rewrite take_drop, <- app_assoc. cbn [app]. rewrite Hperm.
    apply NoDup_seq. }
  assert (forall tid, tid ∈ pre ++ (length w + jf)%nat :: post ->
            exists r,
              requests !! (tid - length w)%nat = Some r
              /\ table !! tid
                 = Some (mk_task r (if bool_decide (tid ∈ settled)
                                    then Done (run r) else Cancelled)))
    as Hlook.
  { intros tid Htid. apply (lookup_handled I net). by rewrite <- Hperm. }
  exists e, page, (handled run (length w) settled requests), table, pre, post,
    (length w + jf)%nat.
  split_and!.
  - done.
  - exact Hfull.
  - by eapply list_elem_of_lookup_2.
  - done.
  - intros page' Hpage' Hbad. apply Hmin; [|done].
    apply list_elem_of_In, in_map, list_elem_of_In, Hpage'.
  - apply handled_coro.
  - apply handled_states.
  - by rewrite <- Hw, <- Hrequests.
  - destruct (Hlook (length w + jf)%nat) as (r & Hr & ->).
    { apply elem_of_app. right. constructor. }
    replace (length w + jf - length w)%nat with jf in Hr by lia.
    subst requests. change (map ?f ?l !! jf) with ((f <$> l) !! jf) in Hr.
    rewrite list_lookup_fmap, Epage in Hr. injection Hr as <-.
    rewrite bool_decide_eq_true_2 by done.
    change (run (request_for page) = Raise e) in He. by rewrite He.
  - apply Forall_forall. intros tid Htid.
    destruct (Hlook tid) as (r & Hr & Htable).
    { apply elem_of_app. by left. }
    rewrite bool_decide_eq_true_2 in Htable.
    2:{ rewrite Hsettled, !elem_of_app. by left; left. }
    rewrite Forall_forall in Hpre.
    destruct (Hpre tid Htid) as (r' & Hr' & Hok).
    rewrite Hr in Hr'. injection Hr' as <-.
    destruct (run r) as [st|] eqn:Er; [|done].
    by exists r, st.
  - apply Forall_forall. intros tid Htid.
    destruct (Hlook tid) as (r & Hr & Htable).
    { apply elem_of_app. right. constructor.
      apply elem_of_take in Htid as (i & Hi & _).
      by eapply list_elem_of_lookup_2. }
    rewrite bool_decide_eq_true_2 in Htable.
    2:{ rewrite Hsettled, !elem_of_app. by right. }
    by exists r.
  - apply Forall_forall. intros tid Htid.
    destruct (Hlook tid) as (r & Hr & Htable).
    { apply elem_of_app. right. constructor.
      rewrite <- (take_drop (overrun net) post). apply elem_of_app.
      by right. }
    rewrite bool_decide_eq_false_2 in Htable; [by exists r|].
    rewrite Hsettled. intros Hin.
    rewrite app_assoc in Hnd. apply NoDup_app in Hnd as (_ & Hdisj & _).
    by apply (Hdisj tid).
Qed.

Example sample_fetch_fails :
  let '(res, w) :=
    WikimediaParser.get_multiple_pages_statistics (I := reversing_interpreter)
      sample_network (mkdate 2025 1 1) (mkdate 2025 1 10) Daily Access_Any
      Agent_User sample_pages 3 [] in
  res = Raise (ConnectionError 404)
  /\ map (fun t => WikimediaRequest.url (coro t)) w
     = map sample_page ["G"; "F"; "E"; "D"; "C"; "B"]%string
  /\ map (fun t => match state t with
                   | Pending => "pending"
                   | Done (Ok _) => "returned"
                   | Done (Raise _) => "raised"
                   | Cancelled => "cancelled"
                   end) w
     = ["returned"; "returned"; "returned"; "returned"; "raised"; "cancelled"]%string.
Proof. vm_compute. done. Qed.

Lemma failure_cancels_chunk_and_aborts_witness :
  exists (table : world),
    WikimediaParser.get_multiple_pages_statistics (I := reversing_interpreter)
      sample_network (mkdate 2025 1 1) (mkdate 2025 1 10) Daily Access_Any
      Agent_User sample_pages 3 []
    = (Raise (ConnectionError 404), table)
    /\ map (fun t => WikimediaRequest.url (coro t)) table
       = map sample_page ["G"; "F"; "E"; "D"; "C"; "B"]%string
    /\ finish_order sample_network table (seq 3 3) = [4; 3; 5]%nat
    /\ (exists r,
          table !! 4%nat
          = Some (mk_task r (Done (Raise (ConnectionError 404)))))
    /\ (exists r,
          table !! 3%nat
          = Some (mk_task r
                    (Done (WikimediaParser.get_page_statistics
                             (I := reversing_interpreter) sample_network r))))
    /\ (exists r, table !! 5%nat = Some (mk_task r Cancelled)).
Proof.
  destruct (failure_cancels_chunk_and_aborts reversing_interpreter
              sample_network (mkdate 2025 1 1) (mkdate 2025 1 10) Daily
              Access_Any Agent_User sample_pages 3
              [map sample_page ["G"; "F"; "E"]%string]
              (map sample_page ["D"; "C"; "B"]%string)
              [map sample_page ["A"]%string])
    as (e & first & chunk_tasks & table & before & after & f & _ & Hrun & _
        & _ & _ & _ & _ & Horder & Hf & Hbefore & Htake & Hdrop).
  - vm_compute. reflexivity.
  - repeat (constructor; [vm_compute; reflexivity|]). constructor.
  - apply Exists_cons_tl, Exists_cons_hd. vm_compute. reflexivity.
  - remember (WikimediaParser.get_multiple_pages_statistics
                (I := reversing_interpreter) sample_network (mkdate 2025 1 1)
                (mkdate 2025 1 10) Daily Access_Any Agent_User sample_pages 3
                []) as out eqn:Hout.
    vm_compute in Hout. rewrite Hrun in Hout.
    injection Hout as He Htable.
    assert (finish_order sample_network table (seq 3 3) = [4; 3; 5]%nat)
      as Ho by (rewrite Htable; vm_compute; reflexivity).
    change (finish_order sample_network table (seq 3 3) = before ++ f :: after)
      in Horder.
    rewrite Ho in Horder.
    destruct before as [|b0 before].
    + cbn [app] in Horder. injection Horder as <- <-.
      exists table. rewrite He in Hrun, Hf.
      split; [exact Hrun|].
      split; [rewrite Htable; vm_compute; reflexivity|].
      split; [exact Ho|].
      split; [by eexists|].
      change (take (overrun sample_network) [3; 5]%nat) with [3%nat] in Htake.
      change (drop (overrun sample_network) [3; 5]%nat) with [5%nat] in Hdrop.
      apply Forall_cons_1 in Htake as [Hoverrun _].
      apply Forall_cons_1 in Hdrop as [Hcancelled _].
      split; [exact Hoverrun|exact Hcancelled].
    + exfalso. cbn [app] in Horder. injection Horder as <- _.
      apply Forall_cons_1 in Hbefore as [(r & st & Hr & _) _].
      rewrite Htable in Hr. vm_compute in Hr. discriminate.
Defined.

(** ** Chunks *)

Section SliceFacts.
Context {A : Type}.

Lemma py_slice_take (l : list A) (lo n : Z) :
  0 <= lo -> 0 <= n ->
  py_slice l lo (lo + n) = take (Z.to_nat n) (drop (Z.to_nat lo) l).
Proof.
  intros Hlo Hn. unfold py_slice.
  destruct (Z.ltb_spec lo 0) as [|_]; [lia|].
  destruct (Z.ltb_spec (lo + n) 0) as [|_]; [lia|].
  destruct (Z.le_gt_cases lo (Z.of_nat (length l))) as [Hle|Hgt].
  - rewrite (Z.min_l lo) by lia.
    destruct (Z.le_gt_cases (lo + n) (Z.of_nat (length l))) as [Hle'|Hgt'].
    + rewrite Z.min_l by lia. f_equal. lia.
    + rewrite Z.min_r by lia.
      rewrite !take_ge; [done| |]; rewrite length_drop; lia.
  - rewrite !Z.min_r by lia. rewrite Z.sub_diag.
    rewrite !drop_ge by lia. by rewrite !take_nil.
Qed.

Lemma slices_S (n k : nat) (l : list A) :
  slices n (S k) l = slices n k l ++ [take n (drop (k * n) l)].
Proof. unfold slices. by rewrite seq_S, map_app. Qed.

Lemma concat_slices (n k : nat) (l : list A) :
  concat (slices n k l) = take (k * n) l.
Proof.
  induction k as [|k IH]; [done|].
  rewrite slices_S, concat_app, IH. simpl. rewrite app_nil_r.
  rewrite take_take_drop. f_equal. lia.
Qed.

Lemma lookup_slices (n k i : nat) (l : list A) (chunk : list A) :
  slices n k l !! i = Some chunk ->
  (i < k)%nat /\ chunk = take n (drop (i * n) l).
Proof.
  unfold slices. change (map ?f ?x) with (f <$> x).
  rewrite list_lookup_fmap.
  destruct (seq 0 k !! i) as [j|] eqn:E; [|done].
  apply lookup_seq in E as [-> Hi]. simpl. by intros [= <-].
Qed.

Lemma length_slices (n k : nat) (l : list A) : length (slices n k l) = k.
Proof. unfold slices. by rewrite length_map, length_seq. Qed.
End SliceFacts.

Lemma page_chunks_slices (I : Interpreter) (pages : list string)
    (chunk_size : Z) :
  1 <= chunk_size ->
  WikimediaParser.page_chunks pages chunk_size
  = Ok (slices (Z.to_nat chunk_size)
          (Z.to_nat ((Z.of_nat (length (WikimediaParser.unique_pages pages))
                      + chunk_size - 1) / chunk_size))
          (WikimediaParser.unique_pages pages)).
Proof.
  intros Hc. unfold WikimediaParser.page_chunks, py_range.
  destruct (Z.eqb_spec chunk_size 0) as [|_]; [lia|].
  destruct (Z.ltb_spec 0 chunk_size) as [_|]; [|lia].
  cbn [bind]. f_equal. unfold slices. rewrite map_map.
  rewrite Z.sub_0_r. apply map_ext. intros i.
  rewrite py_slice_take by lia. f_equal. f_equal. lia.
Qed.

Lemma unique_pages_NoDup (I : Interpreter) (pages : list string) :
  iter_lawful I ->
  NoDup (WikimediaParser.unique_pages pages)
  /\ forall page, page ∈ WikimediaParser.unique_pages pages <-> page ∈ pages.
Proof.
  intros HI. unfold WikimediaParser.unique_pages.
  pose proof (HI _ (set_of String.eqb str_hash pages)) as Hperm.
  split.
  - rewrite Hperm. apply set_of_NoDup. apply String.eqb_eq.
  - intros page. rewrite Hperm. apply set_of_elem. apply String.eqb_eq.
Qed.

Lemma ceil_div_bounds (n c : Z) :
  0 <= n -> 1 <= c ->
  0 <= (n + c - 1) / c
  /\ n <= (n + c - 1) / c * c
  /\ ((n + c - 1) / c - 1) * c < n.
Proof.
  intros Hn Hc.
  pose proof (Z.div_mod (n + c - 1) c ltac:(lia)) as Hdm.
  pose proof (Z.mod_pos_bound (n + c - 1) c ltac:(lia)) as Hmod.
  assert (0 <= (n + c - 1) / c) by (apply Z.div_pos; lia).
  split_and!; [done| |]; nia.
Qed.

Lemma request_for_url (sd ed : date) (g : DateGranularity) (ac : AccessType)
    (ag : UserAgent) (fetched : list string) :
  map WikimediaRequest.url
    (map (WikimediaParser.request_for sd ed g ac ag) fetched) = fetched.
Proof. rewrite map_map. simpl. apply map_id. Qed.

(** C8.  For a chunk size of at least one, the pages are deduplicated and
    the unique pages are cut into consecutive chunks: each chunk has between
    one and [chunk_size] pages, every chunk but the last has [chunk_size],
    there are ceil(n / chunk_size) chunks, and 25 unique pages with chunk size
    10 give chunks of 10, 10 and 5.  The tasks that a call creates request
    pairwise different pages of the list, all unique pages when it returns. *)
Theorem pages_are_deduplicated_and_chunked (I : Interpreter)
    (pages : list string) (chunk_size : Z) :
  iter_lawful I ->
  1 <= chunk_size ->
  exists chunks,
    WikimediaParser.page_chunks pages chunk_size = Ok chunks
    /\ concat chunks = WikimediaParser.unique_pages pages
    /\ NoDup (concat chunks)
    /\ (forall page, page ∈ concat chunks <-> page ∈ pages)
    /\ Z.of_nat (length chunks)
       = (Z.of_nat (length (WikimediaParser.unique_pages pages))
          + chunk_size - 1) / chunk_size
    /\ (forall i chunk,
           chunks !! i = Some chunk ->
           1 <= Z.of_nat (length chunk) <= chunk_size
           /\ ((S i < length chunks)%nat ->
               Z.of_nat (length chunk) = chunk_size))
    /\ (length (WikimediaParser.unique_pages pages) = 25%nat ->
        chunk_size = 10 ->
        map length chunks = [10; 10; 5]%nat)
    /\ (forall net sd ed g ac ag,
           exists res w,
             WikimediaParser.get_multiple_pages_statistics net sd ed g ac ag
               pages chunk_size [] = (res, w)
             /\ NoDup (map (fun t => WikimediaRequest.url (coro t)) w)
             /\ (forall t, t ∈ w -> WikimediaRequest.url (coro t) ∈ pages)
             /\ (is_ok res = true ->
                 map (fun t => WikimediaRequest.url (coro t)) w
                 = concat chunks)).
Proof.
  intros HI Hc.
  destruct (unique_pages_NoDup I pages HI) as [Hnd Hel].
  set (up := WikimediaParser.unique_pages pages) in *.
  set (q := (Z.of_nat (length up) + chunk_size - 1) / chunk_size).
  destruct (ceil_div_bounds (Z.of_nat (length up)) chunk_size)
    as (Hq0 & Hq1 & Hq2); [lia|done|]. fold q in Hq0, Hq1, Hq2.
  assert (concat (slices (Z.to_nat chunk_size) (Z.to_nat q) up) = up)
    as Hconcat.
  { rewrite concat_slices. apply take_ge. nia. }
  exists (slices (Z.to_nat chunk_size) (Z.to_nat q) up).
  split; [by apply page_chunks_slices|].
  split; [done|]. rewrite Hconcat.
  split; [done|]. split; [done|].
  split; [rewrite length_slices; lia|].
  split; [|split].
  - intros i chunk Hi. apply lookup_slices in Hi as [Hi ->].
    rewrite length_slices, length_take, length_drop.
    assert (Z.of_nat i <= q - 1) by lia.
    split; [nia|]. intros HS.
    assert (Z.of_nat (S i) <= q - 1) by lia. nia.
  - intros Hlen ->. subst q. rewrite Hlen. simpl.
    do 26 (destruct up as [|? up]; [by simpl in Hlen|]). done.
  - intros net sd ed g ac ag.
    unfold WikimediaParser.get_multiple_pages_statistics.
    rewrite page_chunks_slices by done. fold up q.
    destruct (for_chunks_tasks I net sd ed g ac ag
                (slices (Z.to_nat chunk_size) (Z.to_nat q) up) [] [])
      as (res & ts & fetched & Hrun & Hcoro & [rest Hpre] & Hall).
    rewrite Hconcat in Hpre, Hall.
    exists res, ts. split; [exact Hrun|].
    assert (map (fun t => WikimediaRequest.url (coro t)) ts = fetched) as Hurl.
    { rewrite <- (map_map coro WikimediaRequest.url), Hcoro.
      apply request_for_url. }
    rewrite Hurl. rewrite Hpre in Hnd. apply NoDup_app in Hnd as (Hnd & _ & _).
    split; [done|]. split; [|done].
    intros t Ht. apply Hel. rewrite Hpre. apply elem_of_app. left.
    rewrite <- Hurl. apply list_elem_of_In, in_map_iff. exists t.
    split; [done|]. by apply list_elem_of_In.
Qed.

Lemma pages_are_deduplicated_and_chunked_witness :
  exists chunks,
    WikimediaParser.page_chunks (I := reversing_interpreter)
      (lettered_pages ++ lettered_pages) 10 = Ok chunks
    /\ concat chunks
       = WikimediaParser.unique_pages (I := reversing_interpreter)
           (lettered_pages ++ lettered_pages)
    /\ NoDup (concat chunks)
    /\ map length chunks = [10; 10; 5]%nat.
Proof.
  destruct (pages_are_deduplicated_and_chunked reversing_interpreter
              (lettered_pages ++ lettered_pages) 10
              reversing_interpreter_lawful ltac:(lia))
    as (chunks & Hchunks & Hconcat & Hnd & _ & _ & _ & Hsizes & _).
  exists chunks. split; [exact Hchunks|]. split; [exact Hconcat|].
  split; [exact Hnd|]. apply Hsizes; reflexivity.
Defined.

(** * Further properties of the code *)

(** ** enums.py: values and members *)

Lemma enum_of_value_inv {E : Type} (members : list E) (value : E -> string)
    (cls v : string) (m : E) :
  enum_of_value members value cls v = Ok m -> value m = v.
Proof.
  unfold enum_of_value.
  destruct (List.find _ members) as [m'|] eqn:E'; [|done].
  intros [= <-]. apply find_some in E' as [_ E']. by apply String.eqb_eq.
Qed.

Lemma enum_of_value_iff :
  (forall a, AccessType_of_value (AccessType_value a) = Ok a)
  /\ (forall a, UserAgent_of_value (UserAgent_value a) = Ok a)
  /\ (forall g, DateGranularity_of_value (DateGranularity_value g) = Ok g)
  /\ (forall s a, AccessType_of_value s = Ok a <-> AccessType_value a = s)
  /\ (forall s a, UserAgent_of_value s = Ok a <-> UserAgent_value a = s)
  /\ (forall s g,
         DateGranularity_of_value s = Ok g <-> DateGranularity_value g = s).
Proof.
  assert (forall a, AccessType_of_value (AccessType_value a) = Ok a) as H1
    by (by intros []).
  assert (forall a, UserAgent_of_value (UserAgent_value a) = Ok a) as H2
    by (by intros []).
  assert (forall g, DateGranularity_of_value (DateGranularity_value g) = Ok g)
    as H3 by (by intros []).
  split; [done|]. split; [done|]. split; [done|].
  split; [|split]; intros s x; (split; [apply enum_of_value_inv|by intros <-]).
Qed.

(** X1.  For each of the three enumerations, looking a member up by its value
    gives that member back, and a lookup that succeeds returns a member with
    the value asked for; so a member is known by its value. *)
Theorem enum_value_round_trip :
  (forall a, AccessType_of_value (AccessType_value a) = Ok a)
  /\ (forall a, UserAgent_of_value (UserAgent_value a) = Ok a)
  /\ (forall g, DateGranularity_of_value (DateGranularity_value g) = Ok g)
  /\ (forall s a, AccessType_of_value s = Ok a <-> AccessType_value a = s)
  /\ (forall s a, UserAgent_of_value s = Ok a <-> UserAgent_value a = s)
  /\ (forall s g,
         DateGranularity_of_value s = Ok g <-> DateGranularity_value g = s).
Proof. exact (enum_of_value_iff). Qed.

(** ** types.py: from_dict *)

Lemma getitem_Ok (d : gmap string string) (k v : string) :
  PageStatisticsRecord.getitem d k = Ok v <-> d !! k = Some v.
Proof.
  unfold PageStatisticsRecord.getitem. destruct (d !! k); split; congruence.
Qed.

(** X2.  [from_dict] returns a record exactly when the item has the seven
    fields and no other key, its timestamp and views parse, and its access,
    granularity and agent are values of the enumerations; the record then
    holds the project and the article as they are, the parsed timestamp and
    views, and the members with those values. *)
Theorem from_dict_Ok (data : gmap string string) (r : PageStatisticsRecord.t) :
  PageStatisticsRecord.from_dict data = Ok r
  <-> dom data = PageStatisticsRecord.fields
      /\ data !! "project"%string = Some (PageStatisticsRecord.project r)
      /\ data !! "article"%string = Some (PageStatisticsRecord.article r)
      /\ (exists raw, data !! "timestamp"%string = Some raw
                      /\ strptime_Ymd00 raw
                         = Ok (PageStatisticsRecord.timestamp r))
      /\ data !! "access"%string
         = Some (AccessType_value (PageStatisticsRecord.access r))
      /\ data !! "granularity"%string
         = Some (DateGranularity_value (PageStatisticsRecord.granularity r))
      /\ data !! "agent"%string
         = Some (UserAgent_value (PageStatisticsRecord.agent r))
      /\ (exists raw, data !! "views"%string = Some raw
                      /\ py_int raw = Ok (PageStatisticsRecord.views r)).
Proof.
  destruct enum_of_value_iff as (Hac & Hag & Hg & Hac' & Hag' & Hg').
  unfold PageStatisticsRecord.from_dict. split.
  - destruct (PageStatisticsRecord.getitem data "timestamp") as [raw_ts|]
      eqn:E1; [|done]. cbn [bind].
    destruct (strptime_Ymd00 raw_ts) as [ts|] eqn:E2; [|done]. cbn [bind].
    destruct (PageStatisticsRecord.getitem data "access") as [raw_ac|]
      eqn:E3; [|done]. cbn [bind].
    destruct (AccessType_of_value raw_ac) as [ac|] eqn:E4; [|done]. cbn [bind].
    destruct (PageStatisticsRecord.getitem data "granularity") as [raw_g|]
      eqn:E5; [|done]. cbn [bind].
    destruct (DateGranularity_of_value raw_g) as [g|] eqn:E6; [|done].
    cbn [bind].
    destruct (PageStatisticsRecord.getitem data "agent") as [raw_ag|]
      eqn:E7; [|done]. cbn [bind].
    destruct (UserAgent_of_value raw_ag) as [ag|] eqn:E8; [|done]. cbn [bind].
    destruct (PageStatisticsRecord.getitem data "views") as [raw_v|]
      eqn:E9; [|done]. cbn [bind].
    destruct (py_int raw_v) as [v|] eqn:E10; [|done]. cbn [bind].
    destruct (data !! "project"%string) as [p|] eqn:E11; [|done].
    destruct (data !! "article"%string) as [a|] eqn:E12; [|done].
    destruct (bool_decide (dom data = PageStatisticsRecord.fields)) eqn:E13;
      [|done].
    apply bool_decide_eq_true in E13. intros [= <-]. simpl.
    apply getitem_Ok in E1, E3, E5, E7, E9.
    apply Hac' in E4 as <-. apply Hg' in E6 as <-. apply Hag' in E8 as <-.
    split_and!; try done; by eexists.
  - intros (Hdom & Hp & Ha & (raw_ts & Hts & Hts') & Hacc & Hgr & Hagt
            & (raw_v & Hv & Hv')).
    apply getitem_Ok in Hts, Hacc, Hgr, Hagt, Hv.
    rewrite Hts. cbn [bind]. rewrite Hts'. cbn [bind].
    rewrite Hacc. cbn [bind]. rewrite Hac. cbn [bind].
    rewrite Hgr. cbn [bind]. rewrite Hg. cbn [bind].
    rewrite Hagt. cbn [bind]. rewrite Hag. cbn [bind].
    rewrite Hv. cbn [bind]. rewrite Hv'. cbn [bind].
    rewrite Hp, Ha. rewrite bool_decide_eq_true_2 by done. by destruct r.
Qed.

Lemma from_dict_Ok_witness :
  PageStatisticsRecord.from_dict (response_item "daily")
  = Ok (PageStatisticsRecord.mk "ru.wikipedia" "test-article" Daily
          (mkdate 2025 1 1) Access_Any Agent_User 100).
Proof.
  apply from_dict_Ok. simpl.
  split; [reflexivity|]. split; [reflexivity|]. split; [reflexivity|].
  split; [exists "2025010100"%string; split; reflexivity|].
  split; [reflexivity|]. split; [reflexivity|]. split; [reflexivity|].
  exists "100"%string. split; reflexivity.
Defined.

(** ** types.py: what the constructor stores *)

Section SetOrderFacts.
Context {A : Type} (eqb : A -> A -> bool) (hash : A -> Z).

Lemma find_app_first (same : A -> bool) (l1 l2 : list A) :
  List.find same (l1 ++ l2)
  = match List.find same l1 with
    | Some x => Some x
    | None => List.find same l2
    end.
Proof.
  induction l1 as [|x l1 IH]; simpl; [done|]. by destruct (same x).
Qed.

Lemma fold_set_add_length (l s : list A) :
  (length (fold_left (set_add eqb hash) l s) <= length s + length l)%nat.
Proof.
  revert s. induction l as [|x l IH]; intros s; simpl; [lia|].
  specialize (IH (set_add eqb hash s x)). unfold set_add in *.
  destruct (existsb _ s); [lia|]. rewrite length_app in IH. simpl in IH. lia.
Qed.

Lemma set_of_length (l : list A) :
  (length (set_of eqb hash l) <= length l)%nat.
Proof. apply (fold_set_add_length l []). Qed.

(** The set keeps, of the elements that a test [same] of the key singles
    out, the first of the list. *)
Lemma fold_set_add_find (same : A -> bool) (l s : list A) :
  (forall x y, (hash y =? hash x) && eqb y x = true -> same y = same x) ->
  (forall x y, same x = true -> same y = true ->
               (hash y =? hash x) && eqb y x = true) ->
  List.find same (fold_left (set_add eqb hash) l s)
  = match List.find same s with
    | Some x => Some x
    | None => List.find same l
    end.
Proof.
  intros Hsame Hmatch. revert s.
  induction l as [|x l IH]; intros s; simpl.
  - by destruct (List.find same s).
  - rewrite IH. unfold set_add.
    destruct (existsb _ s) eqn:E.
    + destruct (List.find same s) as [y|] eqn:Ef; [done|].
      apply existsb_exists in E as (y & Hy & Hyx).
      destruct (same x) eqn:Ex; [|done].
      rewrite <- (Hsame _ _ Hyx) in Ex.
      by rewrite (find_none _ _ Ef y Hy) in Ex.
    + rewrite find_app_first. destruct (List.find same s); [done|]. simpl.
      by destruct (same x).
Qed.
End SetOrderFacts.

Lemma distinct_records_NoDup (I : Interpreter)
    (s : list PageStatisticsRecord.t) :
  distinct PageStatisticsRecord.__eq__ PageStatisticsRecord.__hash__ s ->
  NoDup (map record_key s).
Proof.
  induction 1 as [|s x _ IH Hx]; [constructor|].
  rewrite map_app. apply NoDup_app. split; [done|]. split.
  - intros k Hk Hk'. simpl in Hk'. apply list_elem_of_singleton in Hk' as ->.
    apply list_elem_of_In, in_map_iff in Hk as (y & Hy & Hin).
    assert (existsb (fun y => (PageStatisticsRecord.__hash__ y
                               =? PageStatisticsRecord.__hash__ x)
                              && PageStatisticsRecord.__eq__ y x) s = true)
      as Hex; [|congruence].
    apply existsb_exists. exists y. split; [done|].
    by apply record_match_key.
  - simpl. apply NoDup_singleton.
Qed.

Lemma NoDup_map_finer {A B C : Type} (f : A -> B) (g : A -> C) (l : list A) :
  NoDup (map f l) ->
  (forall x y, x ∈ l -> y ∈ l -> g x = g y -> f x = f y) ->
  NoDup (map g l).
Proof.
  induction l as [|x l IH]; simpl; intros Hnd Hfg; [constructor|].
  apply NoDup_cons in Hnd as [Hx Hnd]. apply NoDup_cons. split.
  - intros Hin. apply list_elem_of_In, in_map_iff in Hin as (y & Hy & Hin).
    apply Hx. apply list_elem_of_In, in_map_iff. exists y. split; [|done].
    apply Hfg; [by constructor; apply list_elem_of_In|constructor|done].
  - apply IH; [done|]. intros a b Ha Hb. apply Hfg; by constructor.
Qed.

Lemma strictly_sorted (l : list PageStatisticsRecord.t) :
  StronglySorted (in_order PageStatisticsRecord.timestamp date_ltb) l ->
  NoDup (map PageStatisticsRecord.timestamp l) ->
  StronglySorted
    (fun a b => date_ltb (PageStatisticsRecord.timestamp a)
                         (PageStatisticsRecord.timestamp b) = true) l.
Proof.
  induction 1 as [|x l Hs IH Hx]; simpl; intros Hnd; [constructor|].
  apply NoDup_cons in Hnd as [Hnotin Hnd]. constructor; [by apply IH|].
  apply Forall_forall. intros y Hy.
  rewrite Forall_forall in Hx. specialize (Hx y Hy). unfold in_order in Hx.
  destruct (date_ltb (PageStatisticsRecord.timestamp x)
              (PageStatisticsRecord.timestamp y)) eqn:E; [done|].
  exfalso. apply Hnotin. rewrite (date_ltb_total _ _ E Hx).
  apply list_elem_of_In, in_map, list_elem_of_In, Hy.
Qed.

Lemma init_consistent (I : Interpreter) (records : list PageStatisticsRecord.t)
    (st : PageStatistics.t) :
  PageStatistics.__init__ records = Ok st ->
  forall a b, a ∈ records -> b ∈ records ->
              record_identity a = record_identity b.
Proof.
  destruct records as [|first rest]; [done|].
  rewrite init_cons. destruct (existsb _ rest) eqn:E; [done|]. intros _.
  assert (forall a, a ∈ first :: rest ->
                    record_identity a = record_identity first) as Hall.
  { intros a Ha. apply elem_of_cons in Ha as [->|Ha]; [done|].
    destruct (decide (record_identity a = record_identity first)); [done|].
    assert (existsb (fun r => bool_decide (record_identity r
                                           <> record_identity first)) rest
            = true) as Hex; [|congruence].
    apply existsb_exists. exists a.
    split; [by apply list_elem_of_In|by apply bool_decide_eq_true]. }
  intros a b Ha Hb. by rewrite (Hall a Ha), (Hall b Hb).
Qed.

Lemma init_stored_records (I : Interpreter)
    (records : list PageStatisticsRecord.t) (st : PageStatistics.t) :
  iter_lawful I ->
  PageStatistics.__init__ records = Ok st ->
  StronglySorted
    (fun a b => date_ltb (PageStatisticsRecord.timestamp a)
                         (PageStatisticsRecord.timestamp b) = true)
    (PageStatistics.records st)
  /\ (forall r, r ∈ PageStatistics.records st -> r ∈ records)
  /\ (forall r,
         r ∈ records ->
         exists kept,
           kept ∈ PageStatistics.records st
           /\ List.find (fun x => bool_decide (record_key x = record_key r))
                records = Some kept)
  /\ 1 <= PageStatistics.records_count st <= Z.of_nat (length records).
Proof.
  intros HI Hinit.
  pose proof (init_consistent I records st Hinit) as Hcons.
  pose proof (init_nonempty I records st HI Hinit) as Hne.
  destruct (init_records I records st Hinit) as [Hrec _].
  set (S := set_of PageStatisticsRecord.__eq__ PageStatisticsRecord.__hash__
              records).
  assert (Permutation (PageStatistics.records st) S) as Hperm.
  { rewrite Hrec, sorted_perm. apply HI. }
  assert (forall r, r ∈ PageStatistics.records st -> r ∈ records) as Hsub.
  { intros r Hr. rewrite Hperm in Hr. by apply set_of_subset in Hr. }
  assert (NoDup (map PageStatisticsRecord.timestamp (PageStatistics.records st)))
    as Hnd.
  { apply (NoDup_map_finer record_key).
    - rewrite (Permutation_map record_key Hperm).
      apply (distinct_records_NoDup I), set_of_distinct.
    - intros a b Ha Hb Hts.
      pose proof (Hcons a b (Hsub a Ha) (Hsub b Hb)) as Hid.
      unfold record_identity in Hid. unfold record_key. congruence. }
  split; [|split; [done|split]].
  - apply strictly_sorted; [|done]. rewrite Hrec.
    apply sorted_sorted; [apply date_ltb_asym|apply date_leb_trans].
  - intros r Hr.
    set (same := fun x => bool_decide (record_key x = record_key r)).
    assert (List.find same S = List.find same records) as Hfind.
    { apply (fold_set_add_find _ _ same records []).
      - intros x y Hxy. apply andb_true_iff in Hxy as [_ Hxy].
        apply record_eq_key in Hxy. subst same. cbv beta. by rewrite Hxy.
      - intros x y Hx Hy. subst same. cbv beta in Hx, Hy.
        apply bool_decide_eq_true in Hx, Hy. apply record_match_key.
        congruence. }
    destruct (List.find same records) as [kept|] eqn:Ef.
    + exists kept. split; [|done]. rewrite Hperm.
      apply find_some in Hfind as [Hin _]. by apply list_elem_of_In.
    + exfalso. apply list_elem_of_In in Hr.
      pose proof (find_none _ _ Ef r Hr) as Hr'. subst same. cbv beta in Hr'.
      by rewrite bool_decide_eq_true_2 in Hr'.
  - unfold PageStatistics.records_count.
    rewrite (Permutation_length Hperm).
    pose proof (set_of_length PageStatisticsRecord.__eq__
                  PageStatisticsRecord.__hash__ records) as Hlen. fold S in Hlen.
    assert (length S <> 0%nat); [|lia].
    intros H0. apply Hne. apply Permutation_nil. rewrite Hperm.
    by destruct S.
Qed.

(** X3.  The records that the constructor stores are records it was given,
    in strictly ascending order of timestamp (no two of the same day); for
    every record given, the first given record with the same project,
    article, granularity, timestamp, access and agent is stored, so of two
    scrapes of a day the earlier in the sequence wins; and there are at least
    one and at most as many stored records as given ones. *)
Theorem init_keeps_first_of_each_key (I : Interpreter)
    (records : list PageStatisticsRecord.t) (st : PageStatistics.t) :
  iter_lawful I ->
  PageStatistics.__init__ records = Ok st ->
  StronglySorted
    (fun a b => date_ltb (PageStatisticsRecord.timestamp a)
                         (PageStatisticsRecord.timestamp b) = true)
    (PageStatistics.records st)
  /\ (forall r, r ∈ PageStatistics.records st -> r ∈ records)
  /\ (forall r,
         r ∈ records ->
         exists kept,
           kept ∈ PageStatistics.records st
           /\ List.find (fun x => bool_decide (record_key x = record_key r))
                records = Some kept)
  /\ 1 <= PageStatistics.records_count st <= Z.of_nat (length records).
Proof. exact (init_stored_records I records st). Qed.

Lemma init_keeps_first_of_each_key_witness :
  exists st,
    PageStatistics.__init__ (I := reversing_interpreter)
      [record_b; record_a; record_b] = Ok st
    /\ PageStatistics.records st = [record_b]
    /\ 1 <= PageStatistics.records_count st <= 3.
Proof.
  destruct (init_keeps_first_of_each_key reversing_interpreter
              [record_b; record_a; record_b] _
              reversing_interpreter_lawful eq_refl)
    as (_ & _ & _ & Hcount).
  eexists. split; [reflexivity|]. split; [reflexivity|exact Hcount].
Defined.

(** ** types.py: the date range and the top record *)

Lemma date_ltb_irrefl (a : date) : date_ltb a a = false.
Proof. apply date_ltb_ge. lia. Qed.

(** X4.  On an object without records [start_date] and [end_date] raise
    [IndexError]; otherwise they return the timestamps of two of its records,
    no record being earlier than the first nor later than the second,
    whatever the order of the records. *)
Theorem start_and_end_dates (st : PageStatistics.t) :
  (PageStatistics.records st = [] ->
   PageStatistics.start_date st = Raise IndexError
   /\ PageStatistics.end_date st = Raise IndexError)
  /\ (PageStatistics.records st <> [] ->
      exists first last,
        first ∈ PageStatistics.records st
        /\ last ∈ PageStatistics.records st
        /\ PageStatistics.start_date st
           = Ok (PageStatisticsRecord.timestamp first)
        /\ PageStatistics.end_date st
           = Ok (PageStatisticsRecord.timestamp last)
        /\ forall r,
            r ∈ PageStatistics.records st ->
            date_leb (PageStatisticsRecord.timestamp first)
                     (PageStatisticsRecord.timestamp r) = true
            /\ date_leb (PageStatisticsRecord.timestamp r)
                        (PageStatisticsRecord.timestamp last) = true).
Proof.
  unfold PageStatistics.start_date, PageStatistics.end_date, last_item.
  split; [by intros ->|]. intros Hne.
  pose proof (sorted_perm PageStatisticsRecord.timestamp date_ltb
                (PageStatistics.records st)) as Hperm.
  pose proof (sorted_sorted PageStatisticsRecord.timestamp date_ltb
                date_ltb_asym date_leb_trans (PageStatistics.records st))
    as Hsorted.
  destruct (sorted PageStatisticsRecord.timestamp date_ltb
              (PageStatistics.records st)) as [|h t] eqn:E.
  { by apply sorted_nil_inv in E. }
  destruct (last (h :: t)) as [z|] eqn:El; [|by apply last_None in El].
  exists h, z. split_and!.
  - rewrite <- Hperm. constructor.
  - rewrite <- Hperm. by apply last_Some_elem_of.
  - done.
  - done.
  - intros r Hr. rewrite <- Hperm in Hr. unfold date_leb. split.
    + apply elem_of_cons in Hr as [->|Hr]; [by rewrite date_ltb_irrefl|].
      inversion Hsorted as [|? ? _ Hh]; subst.
      rewrite Forall_forall in Hh. specialize (Hh r Hr).
      unfold in_order in Hh. by rewrite Hh.
    + apply last_Some in El as [l El]. rewrite El in Hr, Hsorted.
      apply elem_of_app in Hr as [Hr|Hr].
      * assert (in_order PageStatisticsRecord.timestamp date_ltb r z) as Ho.
        { eapply sorted_app_in_order; [exact Hsorted|done|constructor]. }
        unfold in_order in Ho. by rewrite Ho.
      * apply list_elem_of_singleton in Hr as ->.
        by rewrite date_ltb_irrefl.
Qed.

Lemma start_and_end_dates_witness :
  exists first last,
    first ∈ three_days /\ last ∈ three_days
    /\ PageStatistics.start_date
         (PageStatistics.mk "article" Daily Access_Any Agent_Any "project"
            three_days)
       = Ok (PageStatisticsRecord.timestamp first)
    /\ PageStatistics.end_date
         (PageStatistics.mk "article" Daily Access_Any Agent_Any "project"
            three_days)
       = Ok (PageStatisticsRecord.timestamp last).
Proof.
  destruct (start_and_end_dates
              (PageStatistics.mk "article" Daily Access_Any Agent_Any "project"
                 three_days)) as [_ H].
  destruct H as (first & last & H1 & H2 & H3 & H4 & _); [discriminate|].
  exists first, last. split; [exact H1|]. split; [exact H2|].
  split; [exact H3|exact H4].
Defined.

(** X5.  In an object that the constructor returns, the record that
    [top_views_record] returns is the only one with the most views and the
    latest day: every other record with as many views has a strictly earlier
    timestamp. *)
Theorem top_views_record_unique (I : Interpreter)
    (records : list PageStatisticsRecord.t) (st : PageStatistics.t)
    (top r : PageStatisticsRecord.t) :
  iter_lawful I ->
  PageStatistics.__init__ records = Ok st ->
  PageStatistics.top_views_record st = Ok top ->
  r ∈ PageStatistics.records st ->
  PageStatisticsRecord.views r = PageStatisticsRecord.views top ->
  r <> top ->
  date_ltb (PageStatisticsRecord.timestamp r)
           (PageStatisticsRecord.timestamp top) = true.
Proof.
  intros HI Hinit Htop Hr Hviews Hne.
  destruct (init_stored_records I records st HI Hinit)
    as (Hsorted & _).
  assert (PageStatistics.records st <> []) as Hnonempty.
  { intros E. rewrite E in Hr. by apply elem_of_nil in Hr. }
  destruct (top_views_record_split st Hnonempty)
    as (top' & l1 & l2 & Htop' & Hsplit & _ & H2).
  rewrite Htop in Htop'. injection Htop' as <-.
  rewrite Hsplit in Hr, Hsorted.
  apply elem_of_app in Hr as [Hr|Hr].
  - revert Hsorted Hr. clear. induction l1 as [|x l1 IH]; intros Hs Hr.
    + by apply elem_of_nil in Hr.
    + inversion Hs as [|? ? Hs' Hx]; subst.
      apply elem_of_cons in Hr as [->|Hr]; [|by apply IH].
      rewrite Forall_forall in Hx. apply Hx, elem_of_app. right. constructor.
  - apply elem_of_cons in Hr as [->|Hr]; [done|].
    rewrite Forall_forall in H2. apply H2 in Hr. lia.
Qed.

Lemma top_views_record_unique_witness :
  date_ltb
    (PageStatisticsRecord.timestamp
       (PageStatisticsRecord.mk "project" "article" Daily (mkdate 2025 1 1)
          Access_Any Agent_Any 7))
    (PageStatisticsRecord.timestamp
       (PageStatisticsRecord.mk "project" "article" Daily (mkdate 2025 1 3)
          Access_Any Agent_Any 7)) = true.
Proof.
  eapply (top_views_record_unique reversing_interpreter three_days _ _ _
            reversing_interpreter_lawful).
  - reflexivity.
  - reflexivity.
  - apply list_elem_of_In. vm_compute. left. reflexivity.
  - reflexivity.
  - discriminate.
Defined.

(** ** parser.py: concat_statistics *)

Lemma drop_duplicates_seen_absorbed (seen rows : list row) :
  Forall (fun x => x ∈ seen) rows ->
  WikimediaParser.drop_duplicates_seen seen rows = [].
Proof.
  induction 1 as [|x rows Hx _ IH]; simpl; [done|].
  by rewrite bool_decide_eq_true_2.
Qed.

Lemma drop_duplicates_seen_app (seen rows more : list row) :
  Forall (fun x => x ∈ seen \/ x ∈ rows) more ->
  WikimediaParser.drop_duplicates_seen seen (rows ++ more)
  = WikimediaParser.drop_duplicates_seen seen rows.
Proof.
  revert seen. induction rows as [|r rows IH]; intros seen Hmore; simpl.
  - apply drop_duplicates_seen_absorbed.
    eapply Forall_impl; [exact Hmore|]. intros x [Hx|Hx]; [done|].
    by apply elem_of_nil in Hx.
  - destruct (bool_decide (r ∈ seen)) eqn:E.
    + apply bool_decide_eq_true in E. apply IH.
      eapply Forall_impl; [exact Hmore|]. intros x [Hx|Hx]; [by left|].
      apply elem_of_cons in Hx as [->|Hx]; [by left|by right].
    + f_equal. apply IH.
      eapply Forall_impl; [exact Hmore|]. intros x [Hx|Hx].
      * left. by constructor.
      * apply elem_of_cons in Hx as [->|Hx]; [left; constructor|by right].
Qed.

Lemma drop_duplicates_seen_NoDup_id (seen rows : list row) :
  NoDup rows -> (forall x, x ∈ rows -> x ∉ seen) ->
  WikimediaParser.drop_duplicates_seen seen rows = rows.
Proof.
  revert seen. induction rows as [|r rows IH]; intros seen Hnd Hseen; simpl.
  - done.
  - apply NoDup_cons in Hnd as [Hr Hnd].
    rewrite bool_decide_eq_false_2 by (apply Hseen; constructor).
    f_equal. apply IH; [done|]. intros x Hx Hin.
    apply elem_of_cons in Hin as [->|Hin]; [done|].
    by apply (Hseen x); [constructor|].
Qed.

Lemma map_result_app {A B : Type} (f : A -> result B) (l1 l2 : list A) :
  map_result f (l1 ++ l2)
  = let* ys1 := map_result f l1 in
    let* ys2 := map_result f l2 in
    Ok (ys1 ++ ys2).
Proof.
  induction l1 as [|x l1 IH]; simpl.
  - by destruct (map_result f l2).
  - destruct (f x) as [y|]; [|done]. simpl. rewrite IH.
    destruct (map_result f l1); [|done]. simpl.
    by destruct (map_result f l2).
Qed.

Lemma map_result_elem {A B : Type} (f : A -> result B) (l : list A)
    (ys : list B) (x : A) :
  map_result f l = Ok ys -> x ∈ l -> exists y, f x = Ok y /\ y ∈ ys.
Proof.
  revert ys. induction l as [|a l IH]; intros ys Hys Hx.
  - by apply elem_of_nil in Hx.
  - simpl in Hys. destruct (f a) as [b|] eqn:Ea; [|done]. simpl in Hys.
    destruct (map_result f l) as [bs|]; [|done]. simpl in Hys.
    injection Hys as <-.
    apply elem_of_cons in Hx as [->|Hx].
    + exists b. split; [done|constructor].
    + destruct (IH bs eq_refl Hx) as (y & Hy & Hin).
      exists y. split; [done|by constructor].
Qed.

Lemma common_dtype_ext (l1 l2 : list dtype) :
  (forall d, d ∈ l1 <-> d ∈ l2) -> common_dtype l1 = common_dtype l2.
Proof.
  intros H. unfold common_dtype.
  by rewrite (bool_decide_ext _ _ (H Object)),
    (bool_decide_ext _ _ (H Float64)), (bool_decide_ext _ _ (H Int64)),
    (bool_decide_ext _ _ (H UInt64)).
Qed.

(** The column of one frame keeps its dtype, which is not [float64]. *)
Lemma common_dtype_single (values : list Z) :
  common_dtype [infer_dtype values] <> Float64.
Proof.
  unfold infer_dtype. by repeat destruct (forallb _ values).
Qed.

(** X6.  Passing some of the statistics objects once more does not change
    the table: the export of a list followed by objects of that list is the
    export of the list, failure included. *)
Theorem concat_statistics_repeated (statistics more : list PageStatistics.t) :
  Forall (fun st => st ∈ statistics) more ->
  WikimediaParser.concat_statistics (statistics ++ more)
  = WikimediaParser.concat_statistics statistics.
Proof.
  intros Hmore. unfold WikimediaParser.concat_statistics.
  rewrite map_result_app.
  destruct (map_result PageStatistics.to_df statistics) as [frames|] eqn:E;
    [|done].
  cbn [bind].
  assert (exists frames', map_result PageStatistics.to_df more = Ok frames'
                          /\ Forall (fun fr => fr ∈ frames) frames')
    as (frames' & -> & Hframes).
  { clear -Hmore E. induction Hmore as [|st more Hst _ IH]; [by exists []|].
    destruct IH as (frames' & Hfr & Hall).
    destruct (map_result_elem _ _ _ _ E Hst) as (fr & Hto & Hin).
    exists (fr :: frames'). simpl. rewrite Hto, Hfr. split; [done|].
    by constructor. }
  cbn [bind].
  destruct frames as [|fr0 frames].
  { destruct frames' as [|fr frames']; [done|].
    apply Forall_cons in Hframes as [Hfr _]. by apply elem_of_nil in Hfr. }
  cbn [app]. f_equal.
  change (fr0 :: frames ++ frames') with ((fr0 :: frames) ++ frames').
  rewrite Forall_forall in Hframes.
  assert (common_dtype (map views_dtype ((fr0 :: frames) ++ frames'))
          = common_dtype (map views_dtype (fr0 :: frames))) as ->.
  { apply common_dtype_ext. intros d. rewrite map_app, elem_of_app.
    split; [|by left]. intros [Hd|Hd]; [done|].
    apply list_elem_of_In, in_map_iff in Hd as (fr & <- & Hfr).
    apply list_elem_of_In, in_map, list_elem_of_In, Hframes.
    by apply list_elem_of_In. }
  unfold WikimediaParser.drop_duplicates.
  rewrite map_app, concat_app, map_app.
  apply (drop_duplicates_seen_app []).
  apply Forall_forall. intros x Hx. right.
  apply list_elem_of_In, in_map_iff in Hx as (y & <- & Hy).
  apply in_concat in Hy as (l & Hl & Hy).
  apply in_map_iff in Hl as (fr & <- & Hfr).
  apply list_elem_of_In, in_map, in_concat. exists (rows fr).
  split; [|done]. apply in_map, list_elem_of_In, Hframes.
  by apply list_elem_of_In.
Qed.

Lemma concat_statistics_repeated_witness :
  WikimediaParser.concat_statistics
    ([statistics_a; statistics_b] ++ [statistics_b; statistics_a])
  = WikimediaParser.concat_statistics [statistics_a; statistics_b].
Proof.
  apply concat_statistics_repeated.
  repeat constructor.
Defined.

Lemma strictly_sorted_NoDup (l : list PageStatisticsRecord.t) :
  StronglySorted
    (fun a b => date_ltb (PageStatisticsRecord.timestamp a)
                         (PageStatisticsRecord.timestamp b) = true) l ->
  NoDup (map PageStatisticsRecord.timestamp l).
Proof.
  induction 1 as [|x l _ IH Hx]; simpl; [constructor|].
  apply NoDup_cons. split; [|done]. intros Hin.
  apply list_elem_of_In, in_map_iff in Hin as (y & Hy & Hin).
  rewrite Forall_forall in Hx. apply list_elem_of_In in Hin.
  specialize (Hx y Hin). rewrite Hy, date_ltb_irrefl in Hx. done.
Qed.

(** X7.  The export of one object that the constructor returns is the rows
    of its records, all of them and in the order of their timestamps:
    nothing is dropped, since its records differ in their timestamps. *)
Theorem concat_statistics_of_one (I : Interpreter)
    (records : list PageStatisticsRecord.t) (st : PageStatistics.t) :
  iter_lawful I ->
  PageStatistics.__init__ records = Ok st ->
  WikimediaParser.concat_statistics [st]
  = Ok (map PageStatistics._asdict (PageStatistics.records st)).
Proof.
  intros HI Hinit.
  destruct (init_stored_records I records st HI Hinit)
    as (Hsorted & _).
  pose proof (init_nonempty I records st HI Hinit) as Hne.
  unfold WikimediaParser.concat_statistics. cbn [map_result].
  unfold PageStatistics.to_df.
  destruct (PageStatistics.records st) as [|r0 rs] eqn:E; [done|].
  cbn [bind map concat rows views_dtype]. rewrite app_nil_r.
  rewrite map_row_astype_id by apply common_dtype_single. f_equal.
  change (PageStatistics._asdict r0 :: map PageStatistics._asdict rs)
    with (map PageStatistics._asdict (r0 :: rs)).
  apply drop_duplicates_seen_NoDup_id; [|intros x _; apply not_elem_of_nil].
  apply (NoDup_map_finer PageStatisticsRecord.timestamp).
  - by apply strictly_sorted_NoDup.
  - intros a b _ _ Hab. unfold PageStatistics._asdict in Hab. congruence.
Qed.

Lemma concat_statistics_of_one_witness :
  exists st,
    PageStatistics.__init__ (I := reversing_interpreter) three_days = Ok st
    /\ WikimediaParser.concat_statistics [st]
       = Ok (map PageStatistics._asdict (PageStatistics.records st)).
Proof.
  eexists. split; [reflexivity|].
  apply (concat_statistics_of_one reversing_interpreter three_days _
           reversing_interpreter_lawful eq_refl).
Defined.

(** ** types.py: as_url and _parse_url *)

(** X8.  [as_url] returns a path exactly when [_parse_url] returns a project
    and an article, and the path is then
    [/project/access/agent/article/granularity/start/end] with the values of
    the three enumeration fields and the earlier of the two dates before the
    later, both as [%Y%m%d00] writes them (the year is not padded); it
    raises exactly what [_parse_url] raises. *)
Theorem as_url_Ok (r : WikimediaRequest.t) :
  (forall path,
      WikimediaRequest.as_url r = Ok path
      <-> exists project article,
          WikimediaRequest._parse_url r = Ok (project, article)
          /\ path
             = "/" +:+ project
               +:+ "/" +:+ AccessType_value (WikimediaRequest.access r)
               +:+ "/" +:+ UserAgent_value (WikimediaRequest.agent r)
               +:+ "/" +:+ article
               +:+ "/" +:+ DateGranularity_value (WikimediaRequest.granularity r)
               +:+ "/" +:+ strftime_Ymd00
                             (date_min (WikimediaRequest.start_timestamp r)
                                (WikimediaRequest.end_timestamp r))
               +:+ "/" +:+ strftime_Ymd00
                             (date_max (WikimediaRequest.start_timestamp r)
                                (WikimediaRequest.end_timestamp r)))
  /\ (forall e,
         WikimediaRequest.as_url r = Raise e
         <-> WikimediaRequest._parse_url r = Raise e).
Proof.
  unfold WikimediaRequest.as_url, date_min, date_max.
  destruct (WikimediaRequest._parse_url r) as [[project article]|e0];
    cbn [bind].
  - assert (map strftime_Ymd00
              (sorted (fun x => x) date_ltb
                 [WikimediaRequest.start_timestamp r;
                  WikimediaRequest.end_timestamp r])
            = [strftime_Ymd00
                 (if date_ltb (WikimediaRequest.end_timestamp r)
                              (WikimediaRequest.start_timestamp r)
                  then WikimediaRequest.end_timestamp r
                  else WikimediaRequest.start_timestamp r);
               strftime_Ymd00
                 (if date_ltb (WikimediaRequest.end_timestamp r)
                              (WikimediaRequest.start_timestamp r)
                  then WikimediaRequest.start_timestamp r
                  else WikimediaRequest.end_timestamp r)]) as ->.
    { simpl. by destruct (date_ltb _ _). }
    split.
    + intros path. split.
      * intros [= <-]. by exists project, article.
      * intros (p & a & [= <- <-] & ->). done.
    + intros e. split; intros; done.
  - split.
    + intros path. split; [done|]. by intros (p & a & ? & _).
    + intros e. split; intros [= <-]; done.
Qed.

Lemma strip_prefix_complete (p s : list ascii) : strip_prefix p (p ++ s) = Some s.
Proof.
  induction p as [|c p IH]; simpl; [done|]. by rewrite Ascii.eqb_refl.
Qed.

Lemma strip_prefix_Some (p s s' : list ascii) :
  strip_prefix p s = Some s' <-> s = p ++ s'.
Proof.
  split; [apply strip_prefix_app|]. intros ->. apply strip_prefix_complete.
Qed.

Lemma take_while_forallb (p : ascii -> bool) (s : list ascii) :
  forallb p (take_while p s) = true.
Proof.
  induction s as [|c s IH]; simpl; [done|].
  destruct (p c) eqn:E; simpl; [by rewrite E|done].
Qed.

Lemma drop_while_head (p : ascii -> bool) (s : list ascii) :
  match drop_while p s with
  | [] => True
  | c :: _ => p c = false
  end.
Proof.
  induction s as [|c s IH]; simpl; [done|]. by destruct (p c) eqn:E.
Qed.

Lemma take_drop_while_run (p : ascii -> bool) (w s : list ascii) :
  forallb p w = true ->
  match s with [] => True | c :: _ => p c = false end ->
  take_while p (w ++ s) = w /\ drop_while p (w ++ s) = s.
Proof.
  intros Hw Hs. induction w as [|c w IH]; simpl in *.
  - destruct s as [|c s]; [done|]. simpl. by rewrite Hs.
  - apply andb_true_iff in Hw as [Hc Hw]. rewrite Hc.
    destruct (IH Hw) as [-> ->]. done.
Qed.

(** The scan accepts the URLs of that shape and no others, and the groups
    and the rest are those of the shape. *)
Lemma url_scan_shape (separator : ascii -> bool)
    (u project article rest : list ascii) :
  url_scan separator u = Some (project, article, rest)
  <-> url_shape separator u project article rest.
Proof.
  unfold url_scan, url_shape. split.
  - destruct (strip_prefix _ u) as [s1|] eqn:E1; [|done].
    apply strip_prefix_Some in E1 as ->. cbn [mbind option_bind].
    pose proof (take_drop_while is_word s1) as Hs1.
    pose proof (take_while_forallb is_word s1) as Hw.
    destruct (take_while is_word s1) as [|w0 w] eqn:Ew; [done|].
    destruct (strip_prefix _ (drop_while is_word s1)) as [s2|] eqn:E2; [|done].
    apply strip_prefix_Some in E2. rewrite E2 in Hs1.
    cbn [mbind option_bind].
    destruct s2 as [|c s3]; [done|].
    destruct (separator c) eqn:Ec; [|done].
    destruct (strip_prefix _ s3) as [s4|] eqn:E4; [|done].
    apply strip_prefix_Some in E4 as ->. cbn [mbind option_bind].
    pose proof (take_drop_while WikimediaRequest.not_slash_hash s4) as Hs4.
    pose proof (take_while_forallb WikimediaRequest.not_slash_hash s4) as Ha.
    pose proof (drop_while_head WikimediaRequest.not_slash_hash s4) as Hr.
    destruct (take_while WikimediaRequest.not_slash_hash s4) as [|a0 a] eqn:Ea;
      [done|].
    intros [= <- <- <-]. exists (w0 :: w), c.
    rewrite Hs4, Hs1. split_and!; done.
  - intros (w & c & -> & -> & Hw0 & Hw & Hc & Ha0 & Ha & Hrest).
    rewrite strip_prefix_complete. cbn [mbind option_bind].
    destruct (take_drop_while_run is_word w
                (list_ascii_of_string ".wikipedia"
                 ++ c :: list_ascii_of_string "org/wiki/" ++ article ++ rest)
                Hw) as [-> ->]; [done|].
    destruct w as [|w0 w]; [done|].
    rewrite strip_prefix_complete. cbn [mbind option_bind]. rewrite Hc.
    rewrite strip_prefix_complete. cbn [mbind option_bind].
    destruct (take_drop_while_run WikimediaRequest.not_slash_hash article rest
                Ha Hrest) as [-> ->].
    by destruct article.
Qed.

Lemma list_ascii_of_string_app (s1 s2 : string) :
  list_ascii_of_string (s1 +:+ s2)
  = list_ascii_of_string s1 ++ list_ascii_of_string s2.
Proof. induction s1 as [|c s1 IH]; simpl; [done|]. by rewrite IH. Qed.

Lemma parse_url_shape (r : WikimediaRequest.t) (project article : string) :
  WikimediaRequest._parse_url r = Ok (project, article)
  <-> exists rest,
      url_shape any_but_newline
        (list_ascii_of_string (WikimediaRequest.url r))
        (list_ascii_of_string project) (list_ascii_of_string article) rest.
Proof.
  rewrite parse_url_scan. split.
  - destruct (url_scan _ _) as [[[p a] rest]|] eqn:E; [|done].
    intros [= <- <-]. exists rest.
    rewrite !list_ascii_of_string_of_list_ascii. by apply url_scan_shape.
  - intros [rest Hshape]. apply url_scan_shape in Hshape as ->.
    by rewrite !string_of_list_ascii_of_string.
Qed.

(** X9.  [_parse_url] returns (project, article) exactly when the URL is
    [https://], a non-empty run of word characters, [.wikipedia], any one
    character but a newline, [org/wiki/], a non-empty run of characters other
    than [/] and [#], and then nothing or something that starts with [/] or
    [#]; the project is the run of word characters with [.wikipedia], the
    article is the second run. *)
Theorem parse_url_Ok (r : WikimediaRequest.t) (project article : string) :
  WikimediaRequest._parse_url r = Ok (project, article)
  <-> exists rest,
      url_shape any_but_newline
        (list_ascii_of_string (WikimediaRequest.url r))
        (list_ascii_of_string project) (list_ascii_of_string article) rest.
Proof. exact (parse_url_shape r project article). Qed.

(** X10.  A URL [https://<w>.wikipedia.org/wiki/<a>], with word characters
    for [w] and no [/] or [#] in [a], parses to ([w.wikipedia], [a]), also
    when a path or a fragment follows the article. *)
Theorem parse_url_canonical (w a rest : string) (s e : date)
    (g : DateGranularity) (ac : AccessType) (ag : UserAgent) :
  w <> ""%string ->
  forallb is_word (list_ascii_of_string w) = true ->
  a <> ""%string ->
  forallb WikimediaRequest.not_slash_hash (list_ascii_of_string a) = true ->
  match rest with
  | EmptyString => True
  | String c _ => c = "/"%char \/ c = "#"%char
  end ->
  WikimediaRequest._parse_url
    (WikimediaRequest.mk
       ("https://" +:+ w +:+ ".wikipedia.org/wiki/" +:+ a +:+ rest) s e g ac ag)
  = Ok (w +:+ ".wikipedia", a).
Proof.
  intros Hw0 Hw Ha0 Ha Hrest. apply parse_url_shape.
  exists (list_ascii_of_string rest).
  exists (list_ascii_of_string w), "."%char. cbn [WikimediaRequest.url].
  rewrite !list_ascii_of_string_app. split_and!; try done.
  - by destruct w.
  - by destruct a.
  - destruct rest as [|c rest]; [done|]. simpl.
    by destruct Hrest as [-> | ->].
Qed.

Lemma parse_url_canonical_witness :
  WikimediaRequest._parse_url
    (WikimediaRequest.mk
       ("https://" +:+ "en" +:+ ".wikipedia.org/wiki/"
        +:+ "another_article,yes" +:+ "#History")
       (mkdate 2025 1 1) (mkdate 2025 1 12) Daily Access_Any Agent_User)
  = Ok ("en" +:+ ".wikipedia", "another_article,yes")%string.
Proof.
  apply parse_url_canonical.
  - discriminate.
  - reflexivity.
  - discriminate.
  - reflexivity.
  - right. reflexivity.
Defined.

(** X11.  The canonical URL of a statistics object leads back to its project
    and article: when a request parses to (project, article), the [url] of
    any statistics object with that project and article parses to the same
    pair. *)
Theorem statistics_url_round_trip (r : WikimediaRequest.t)
    (st : PageStatistics.t) (s e : date) (g : DateGranularity)
    (ac : AccessType) (ag : UserAgent) :
  WikimediaRequest._parse_url r
  = Ok (PageStatistics.project st, PageStatistics.article st) ->
  WikimediaRequest._parse_url
    (WikimediaRequest.mk (PageStatistics.url st) s e g ac ag)
  = Ok (PageStatistics.project st, PageStatistics.article st).
Proof.
  intros Hparse. apply parse_url_shape in Hparse as [rest Hshape].
  destruct Hshape as (w & c & _ & Hproject & Hw0 & Hw & _ & Ha0 & Ha & _).
  apply parse_url_shape. exists [], w, "."%char.
  unfold PageStatistics.url. cbn [WikimediaRequest.url].
  rewrite !list_ascii_of_string_app, Hproject, app_nil_r, <- !app_assoc.
  split_and!; done.
Qed.

Lemma statistics_url_round_trip_witness :
  WikimediaRequest._parse_url
    (WikimediaRequest.mk
       (PageStatistics.url
          (PageStatistics.mk "Foo" Daily Access_Any Agent_User "en.wikipedia"
             []))
       (mkdate 2025 1 1) (mkdate 2025 1 2) Daily Access_Any Agent_User)
  = Ok ("en.wikipedia"%string, "Foo"%string).
Proof.
  apply (statistics_url_round_trip
           (WikimediaRequest.mk_default "https://en.wikipediaXorg/wiki/Foo/talk"
              (mkdate 2025 1 1) (mkdate 2025 1 2))
           (PageStatistics.mk "Foo" Daily Access_Any Agent_User "en.wikipedia"
              [])).
  reflexivity.
Defined.

(** ** parser.py: get_page_statistics *)

Lemma map_result_elem_inv {A B : Type} (f : A -> result B) (l : list A)
    (ys : list B) (y : B) :
  map_result f l = Ok ys -> y ∈ ys -> exists x, x ∈ l /\ f x = Ok y.
Proof.
  revert ys. induction l as [|a l IH]; intros ys Hys Hy.
  - injection Hys as <-. by apply elem_of_nil in Hy.
  - simpl in Hys. destruct (f a) as [b|] eqn:Ea; [|done]. simpl in Hys.
    destruct (map_result f l) as [bs|]; [|done]. simpl in Hys.
    injection Hys as <-.
    apply elem_of_cons in Hy as [->|Hy].
    + exists a. split; [constructor|done].
    + destruct (IH bs eq_refl Hy) as (x & Hx & Hfx).
      exists x. split; [by constructor|done].
Qed.

(** X12.  When [get_page_statistics] returns statistics, the request had a
    path, the answer to it had status 200 and a list of items that is not
    empty, and every record of the statistics is the parse of one of these
    items: nothing is returned from an answer with another status, and no
    record is made up. *)
Theorem get_page_statistics_Ok (I : Interpreter) (net : network)
    (r : WikimediaRequest.t) (st : PageStatistics.t) :
  iter_lawful I ->
  WikimediaParser.get_page_statistics net r = Ok st ->
  exists path resp elems,
    WikimediaRequest.as_url r = Ok path /\ get net path = Ok resp
    /\ status_code resp = 200 /\ items resp = Some elems /\ elems <> []
    /\ forall rec, rec ∈ PageStatistics.records st ->
                   exists item, item ∈ elems
                                /\ PageStatisticsRecord.from_dict item = Ok rec.
Proof.
  intros HI. unfold WikimediaParser.get_page_statistics.
  destruct (WikimediaRequest.as_url r) as [path|] eqn:Epath; [|done].
  cbn [bind].
  destruct (get net path) as [resp|] eqn:Eget; [|done]. cbn [bind].
  destruct (Z.eqb_spec (status_code resp) 200) as [Hstatus|]; [|done].
  cbn [negb]. destruct (items resp) as [elems|] eqn:Eitems; [|done].
  cbn [bind].
  destruct (map_result PageStatisticsRecord.from_dict elems) as [records|]
    eqn:Erecords; [|done]. cbn [bind].
  intros Hinit. exists path, resp, elems.
  destruct (init_records I records st Hinit) as [Hst Hne].
  split_and!; try done.
  - intros ->. by injection Erecords as <-.
  - intros rec Hrec. rewrite Hst, sorted_perm in Hrec.
    unfold PageStatisticsRecord.list_set in Hrec. rewrite (HI _ _) in Hrec.
    apply set_of_subset in Hrec.
    by apply (map_result_elem_inv _ _ _ _ Erecords).
Qed.

Lemma get_page_statistics_Ok_witness :
  exists path resp elems,
    WikimediaRequest.as_url
      (WikimediaRequest.mk (sample_page "A") (mkdate 2025 1 1)
         (mkdate 2025 1 10) Daily Access_Any Agent_User) = Ok path
    /\ get sample_network path = Ok resp
    /\ status_code resp = 200 /\ items resp = Some elems /\ elems <> []
    /\ forall rec,
         rec ∈ [PageStatisticsRecord.mk "ru.wikipedia" "test-article" Daily
                  (mkdate 2025 1 1) Access_Any Agent_User 100] ->
         exists item, item ∈ elems
                      /\ PageStatisticsRecord.from_dict item = Ok rec.
Proof.
  apply (get_page_statistics_Ok reversing_interpreter sample_network
           (WikimediaRequest.mk (sample_page "A") (mkdate 2025 1 1)
              (mkdate 2025 1 10) Daily Access_Any Agent_User)
           (PageStatistics.mk "test-article" Daily Access_Any Agent_User
              "ru.wikipedia"
              [PageStatisticsRecord.mk "ru.wikipedia" "test-article" Daily
                 (mkdate 2025 1 1) Access_Any Agent_User 100])).
  - apply reversing_interpreter_lawful.
  - vm_compute. reflexivity.
Defined.

(** ** parser.py: get_multiple_pages_statistics *)

Lemma page_chunks_concat (I : Interpreter) (pages : list string)
    (chunk_size : Z) :
  1 <= chunk_size ->
  exists chunks,
    WikimediaParser.page_chunks pages chunk_size = Ok chunks
    /\ concat chunks = WikimediaParser.unique_pages pages.
Proof.
  intros Hc. eexists. split; [by apply page_chunks_slices|].
  set (up := WikimediaParser.unique_pages pages).
  destruct (ceil_div_bounds (Z.of_nat (length up)) chunk_size)
    as (Hq0 & Hq1 & Hq2); [lia|done|].
  rewrite concat_slices. apply take_ge. nia.
Qed.

(** X13.  When the fetch of every unique page returns, a call with a chunk
    size of at least one returns one statistics object for each unique page,
    in the order of the deduplicated page list and not in the order in which
    the answers arrive, and it leaves every task it created done. *)
Theorem all_pages_fetched (I : Interpreter) (net : network)
    (sd ed : date) (g : DateGranularity) (ac : AccessType) (ag : UserAgent)
    (pages : list string) (chunk_size : Z) :
  1 <= chunk_size ->
  Forall (fun page =>
            is_ok (WikimediaParser.get_page_statistics net
                     (WikimediaParser.request_for sd ed g ac ag page)) = true)
    (WikimediaParser.unique_pages pages) ->
  exists results,
    WikimediaParser.get_multiple_pages_statistics net sd ed g ac ag pages
      chunk_size []
    = (Ok results,
       finished (WikimediaParser.get_page_statistics net)
         (map (WikimediaParser.request_for sd ed g ac ag)
            (WikimediaParser.unique_pages pages)))
    /\ map Ok results
       = map (fun page =>
                WikimediaParser.get_page_statistics net
                  (WikimediaParser.request_for sd ed g ac ag page))
           (WikimediaParser.unique_pages pages).
Proof.
  intros Hc Hall.
  destruct (page_chunks_concat I pages chunk_size Hc)
    as (chunks & Hchunks & Hconcat).
  unfold WikimediaParser.get_multiple_pages_statistics. rewrite Hchunks.
  rewrite <- Hconcat in *.
  destruct (for_chunks_ok_prefix I net sd ed g ac ag chunks [] [] [])
    as (results & Hrun & Hmap).
  { apply Forall_map. exact Hall. }
  rewrite app_nil_r in Hrun. exists results. split.
  - rewrite Hrun. done.
  - rewrite Hmap. by rewrite map_map.
Qed.

Lemma all_pages_fetched_witness :
  exists results,
    WikimediaParser.get_multiple_pages_statistics (I := reversing_interpreter)
      sample_network (mkdate 2025 1 1) (mkdate 2025 1 10) Daily Access_Any
      Agent_User (map sample_page ["A"; "B"; "D"; "B"]%string) 2 []
    = (Ok results,
       finished
         (WikimediaParser.get_page_statistics (I := reversing_interpreter)
            sample_network)
         (map (WikimediaParser.request_for (mkdate 2025 1 1) (mkdate 2025 1 10)
                 Daily Access_Any Agent_User)
            (WikimediaParser.unique_pages (I := reversing_interpreter)
               (map sample_page ["A"; "B"; "D"; "B"]%string))))
    /\ map Ok results
       = map (fun page =>
                WikimediaParser.get_page_statistics
                  (I := reversing_interpreter) sample_network
                  (WikimediaParser.request_for (mkdate 2025 1 1)
                     (mkdate 2025 1 10) Daily Access_Any Agent_User page))
           (WikimediaParser.unique_pages (I := reversing_interpreter)
              (map sample_page ["A"; "B"; "D"; "B"]%string)).
Proof.
  apply (all_pages_fetched reversing_interpreter sample_network).
  - lia.
  - set (l := WikimediaParser.unique_pages _). vm_compute in l. subst l.
    repeat (apply Forall_cons_2; [vm_compute; reflexivity|]).
    apply Forall_nil_2.
Defined.

(** X14.  A chunk size that is not positive fetches nothing: with 0 the call
    raises the [ValueError] of [range] and with a negative size it returns
    the empty list, in both cases without creating a task, whatever the
    pages are. *)
Theorem chunk_size_not_positive (I : Interpreter) (net : network)
    (sd ed : date) (g : DateGranularity) (ac : AccessType) (ag : UserAgent)
    (pages : list string) (chunk_size : Z) :
  chunk_size <= 0 ->
  WikimediaParser.get_multiple_pages_statistics net sd ed g ac ag pages
    chunk_size []
  = (if chunk_size =? 0
     then Raise (ValueError "range() arg 3 must not be zero")
     else Ok [],
     []).
Proof.
  intros Hc.
  unfold WikimediaParser.get_multiple_pages_statistics,
    WikimediaParser.page_chunks, py_range.
  destruct (Z.eqb_spec chunk_size 0) as [|Hne]; [done|].
  destruct (Z.ltb_spec 0 chunk_size) as [|_]; [lia|].
  set (n := Z.of_nat (length (WikimediaParser.unique_pages pages))).
  assert ((0 - n - chunk_size - 1) / - chunk_size <= 0) as Hcount.
  { assert ((0 - n - chunk_size - 1) / - chunk_size < 1); [|lia].
    apply Z.div_lt_upper_bound; lia. }
  replace (Z.to_nat ((0 - n - chunk_size - 1) / - chunk_size)) with 0%nat
    by lia.
  done.
Qed.

Lemma chunk_size_not_positive_witness :
  WikimediaParser.get_multiple_pages_statistics (I := reversing_interpreter)
    sample_network (mkdate 2025 1 1) (mkdate 2025 1 10) Daily Access_Any
    Agent_User sample_pages (-3) []
  = (Ok [], []).
Proof.
  apply (chunk_size_not_positive reversing_interpreter sample_network
           (mkdate 2025 1 1) (mkdate 2025 1 10) Daily Access_Any Agent_User
           sample_pages (-3)).
  lia.
Defined.
